(** * XendAPI: guard composition and the response envelope

    A shallow embedding of [tools/python/xen/xend/XendAPI.py]: the response
    constructors, the reference-checking decorators, the class body of
    [XendAPI] (its declaration lists and the names of its handlers) and the
    constructor [__init__], which installs the guarded handlers on the class.

    Python values are a small inductive type; a function object is the code
    it runs, the function it closes over and its [api] attribute; the
    attributes of the class [XendAPI] are a finite map from names to function
    objects; calls run in a state-and-exception monad over the external
    collaborators (XendNode, XendDomain, the auth manager), whose answers are
    left abstract.

    Conventions: the receiver [self] is the one instance and is left out of
    argument lists; calls are positional (the XML-RPC server passes no
    keyword arguments); [X.instance()] and [auth_manager()] name a
    collaborator and are not recorded as calls on it. *)

From Stdlib Require Import String Ascii List ZArith Bool.
From stdpp Require Import base option list strings gmap fin_maps.

Set Warnings "-register-all".

Local Open Scope string_scope.
Local Open Scope list_scope.

(** ** Python values *)

(** Modelled from the spec: the error codes of [xen.xend.XendAPIConstants],
    a module the file imports with [*]; section 7 lists them as the error
    taxonomy.  Each is an opaque code, distinct from the others. *)
Inductive xend_error : Type :=
| XEND_ERROR_AUTHENTICATION_FAILED
| XEND_ERROR_SESSION_INVALID
| XEND_ERROR_DOMAIN_INVALID
| XEND_ERROR_HOST_INVALID
| XEND_ERROR_HOST_RUNNING
| XEND_ERROR_HOST_CPU_INVALID
| XEND_ERROR_UNSUPPORTED
| XEND_ERROR_VM_INVALID
| XEND_ERROR_VBD_INVALID
| XEND_ERROR_VIF_INVALID
| XEND_ERROR_TODO.

Inductive pyval : Type :=
| PNone
| PBool (b : bool)
| PInt (n : Z)
| PStr (s : string)
| PUnicode (s : string)
| PList (l : list pyval)
| PDict (items : list (string * pyval))
| PConst (e : xend_error).

(** [type(v) == type(str())] *)
Definition is_str (v : pyval) : bool :=
  match v with PStr _ => true | _ => false end.

(** The truth value Python's [if] and [and] give to a value. *)
Definition truthy (v : pyval) : bool :=
  match v with
  | PNone => false
  | PBool b => b
  | PInt n => negb (n =? 0)%Z
  | PStr s | PUnicode s => negb (String.eqb s EmptyString)
  | PList l => match l with [] => false | _ => true end
  | PDict d => match d with [] => false | _ => true end
  | PConst _ => true
  end.

(** The value stored under a key of a dict literal. *)
Fixpoint dict_get (items : list (string * pyval)) (key : string) : option pyval :=
  match items with
  | [] => None
  | (k, v) :: rest => if String.eqb k key then Some v else dict_get rest key
  end.

Definition field (v : pyval) (key : string) : option pyval :=
  match v with PDict items => dict_get items key | _ => None end.

(** ** Response envelope (lines 29-38) *)

Definition xen_api_success (value : pyval) : pyval :=
  PDict [("Status", PStr "Success"); ("Value", value)].

Definition xen_api_success_void : pyval :=
  xen_api_success (PStr EmptyString).

Definition xen_api_error (error : pyval) : pyval :=
  PDict [("Status", PStr "Error"); ("ErrorDescription", error)].

Definition xen_api_todo : pyval :=
  PDict [("Status", PStr "Error"); ("ErrorDescription", PConst XEND_ERROR_TODO)].

(** ** A state-and-exception monad *)

Inductive exn : Type :=
| XendError (msg : string)
| TypeError
| AttributeError
| OtherException (name : string).

Inductive result (A : Type) : Type :=
| Ok (a : A)
| Exc (e : exn).
Arguments Ok {A} a.
Arguments Exc {A} e.

Definition SE (S A : Type) : Type := S -> result A * S.

Definition ret {S A} (a : A) : SE S A := fun s => (Ok a, s).
Definition raise {S A} (e : exn) : SE S A := fun s => (Exc e, s).
Definition bind {S A B} (m : SE S A) (k : A -> SE S B) : SE S B :=
  fun s => match m s with
           | (Ok a, s') => k a s'
           | (Exc e, s') => (Exc e, s')
           end.

(** [try: body except E: handler], for the exceptions [catches] selects. *)
Definition try_except {S A} (body : SE S A) (catches : exn -> bool)
    (handler : exn -> SE S A) : SE S A :=
  fun s => match body s with
           | (Exc e, s') => if catches e then handler e s' else (Exc e, s')
           | r => r
           end.

Declare Scope se_scope.
Delimit Scope se_scope with se.
Notation "x <- m ;; k" := (bind m (fun x => k))
  (at level 100, m at next level, right associativity) : se_scope.
Notation "m ;;; k" := (bind m (fun _ => k))
  (at level 100, right associativity) : se_scope.
Local Open Scope se_scope.

(** [for x in l: body x] *)
Fixpoint for_ {S A} (l : list A) (body : A -> SE S unit) : SE S unit :=
  match l with
  | [] => ret tt
  | x :: rest => body x ;;; for_ rest body
  end.

(** ** Function objects

    A function object is, for this file, one of: a [def] of the class body
    (named; its body is looked up when it is called), one of the lambdas of
    the cheat-methods loop, or the inner function a decorator returns, which
    closes over the decorated function.  Each carries its [api] attribute,
    [None] while the attribute is not set. *)

Inductive closure_code : Type :=
| code_check_host_ref
| code_check_host_cpu_ref
| code_check_vm_ref
| code_check_vbd_ref
| code_check_vif_ref
| code_check_session.

Inductive pyfunc : Type :=
| Def (name : string) (api : option string)
| Lambda_obj_ref (api : option string)
| Closure (code : closure_code) (func : pyfunc) (api : option string).

#[global] Instance closure_code_eq_dec : EqDecision closure_code.
Proof. solve_decision. Defined.
#[global] Instance pyfunc_eq_dec : EqDecision pyfunc.
Proof. solve_decision. Defined.

(** [func.api], when [hasattr(func, 'api')] *)
Definition api_of (f : pyfunc) : option string :=
  match f with
  | Def _ a | Lambda_obj_ref a | Closure _ _ a => a
  end.

(** [func.api = name] *)
Definition set_api (f : pyfunc) (name : string) : pyfunc :=
  match f with
  | Def n _ => Def n (Some name)
  | Lambda_obj_ref _ => Lambda_obj_ref (Some name)
  | Closure c g _ => Closure c g (Some name)
  end.

(** The decorators (lines 50-157): each returns its inner function, closed
    over [func], with [func]'s [api] attribute when it has one. *)
Definition valid_host (func : pyfunc) : pyfunc :=
  Closure code_check_host_ref func (api_of func).
Definition valid_host_cpu (func : pyfunc) : pyfunc :=
  Closure code_check_host_cpu_ref func (api_of func).
Definition valid_vm (func : pyfunc) : pyfunc :=
  Closure code_check_vm_ref func (api_of func).
Definition valid_vbd (func : pyfunc) : pyfunc :=
  Closure code_check_vbd_ref func (api_of func).
Definition valid_vif (func : pyfunc) : pyfunc :=
  Closure code_check_vif_ref func (api_of func).

(** Modelled from the spec: the decorator [session_required], which the file
    imports from [xen.xend.XendAuthSessions].  Section 4.2: the session guard
    consults the session collaborator and either short-circuits with
    SessionInvalid or calls the handler with the arguments unchanged; like
    the other guards it is a closure over the handler.  The spec does not say
    that it keeps the [api] attribute of the handler; [__init__] sets the
    attribute after wrapping. *)
Definition session_required (func : pyfunc) : pyfunc :=
  Closure code_check_session func None.

(** The decorators a function object has been through, outermost first, and
    the function they end in. *)
Fixpoint guards_of (f : pyfunc) : list closure_code :=
  match f with
  | Closure c g _ => c :: guards_of g
  | _ => []
  end.

Fixpoint innermost (f : pyfunc) : pyfunc :=
  match f with
  | Closure _ g _ => innermost g
  | _ => f
  end.

(** ** The class body of [XendAPI] *)

Definition lower_ascii (c : ascii) : ascii :=
  let n := nat_of_ascii c in
  if (65 <=? n)%nat && (n <=? 90)%nat then ascii_of_nat (n + 32) else c.

(** [s.lower()] *)
Fixpoint lower (s : string) : string :=
  match s with
  | EmptyString => EmptyString
  | String c rest => String (lower_ascii c) (lower rest)
  end.

Definition Base_attr_ro : list string := ["uuid"].
Definition Base_attr_rw : list string := [].
Definition Base_methods : list string := ["destroy"; "to_XML"; "get_record"].
Definition Base_funcs : list string := ["create"; "get_by_uuid"; "get_all"].

Definition Session_attr_ro : list string := ["this_host"; "this_user"].
Definition Session_methods : list string := ["logout"].

Definition Host_attr_ro : list string :=
  ["software_version"; "resident_VMs"; "host_CPUs"].
Definition Host_attr_rw : list string := ["name_label"; "name_description"].
Definition Host_methods : list string :=
  ["disable"; "enable"; "reboot"; "shutdown"].
Definition Host_funcs : list string := ["get_by_label"].

Definition Host_CPU_attr_ro : list string :=
  ["host"; "number"; "features"; "utilisation"].

Definition Network_attr_ro : list string := ["VIFs"].
Definition Network_attr_rw : list string :=
  ["name_label"; "name_description"; "NIC"; "VLAN"; "default_gateway";
   "default_netmask"].

Definition VM_attr_ro : list string :=
  ["power_state"; "resident_on"; "memory_actual"; "memory_static_max";
   "memory_static_min"; "VCPUs_number"; "VCPUs_utilisation";
   "VCPUs_features_required"; "VCPUs_can_use"; "VIFs"; "VBDs";
   "TPM_instance"; "TPM_backend"; "PCI_bus"; "tools_version"].
Definition VM_attr_rw : list string :=
  ["name_label"; "name_description"; "user_version"; "is_a_template";
   "memory_dynamic_max"; "memory_dynamic_min"; "VCPUs_policy";
   "VCPUs_params"; "VCPUs_features_force_on"; "VCPUS_features_force_off";
   "actions_after_shutdown"; "actions_after_reboot";
   "actions_after_suspend"; "actions_after_crash"; "bios_boot";
   "platform_std_VGA"; "platform_serial"; "platform_localtime";
   "platform_clock_offset"; "platform_enable_audio"; "builder";
   "boot_method"; "kernel_kernel"; "kernel_initrd"; "kernel_args";
   "grub_cmdline"; "other_config"].
Definition VM_methods : list string :=
  ["clone"; "start"; "pause"; "unpause"; "clean_shutdown"; "clean_reboot";
   "hard_shutdown"; "hard_reboot"; "suspend"; "resume"].
Definition VM_funcs : list string := ["get_by_label"].

Definition VBD_attr_ro : list string :=
  ["image"; "IO_bandwidth_incoming_kbs"; "IO_bandwidth_outgoing_kbs"].
Definition VBD_attr_rw : list string :=
  ["VM"; "VDI"; "device"; "mode"; "driver"].

Definition VIF_attr_ro : list string :=
  ["network_read_kbs"; "network_write_kbs"; "IO_bandwidth_incoming_kbs";
   "IO_bandwidth_outgoing_kbs"].
Definition VIF_attr_rw : list string :=
  ["name"; "type"; "device"; "network"; "VM"; "MAC"; "MTU"].

(** The list-valued attributes of the class that [__init__] can ask for,
    under their names.  ([Session_funcs] is commented out at line 289; the
    [_attr_inst] lists are never asked for.) *)
Definition XendAPI_lists : list (string * list string) :=
  [("Base_attr_ro", Base_attr_ro); ("Base_attr_rw", Base_attr_rw);
   ("Base_methods", Base_methods); ("Base_funcs", Base_funcs);
   ("Session_attr_ro", Session_attr_ro); ("Session_methods", Session_methods);
   ("Host_attr_ro", Host_attr_ro); ("Host_attr_rw", Host_attr_rw);
   ("Host_methods", Host_methods); ("Host_funcs", Host_funcs);
   ("Host_CPU_attr_ro", Host_CPU_attr_ro);
   ("Network_attr_ro", Network_attr_ro); ("Network_attr_rw", Network_attr_rw);
   ("VM_attr_ro", VM_attr_ro); ("VM_attr_rw", VM_attr_rw);
   ("VM_methods", VM_methods); ("VM_funcs", VM_funcs);
   ("VBD_attr_ro", VBD_attr_ro); ("VBD_attr_rw", VBD_attr_rw);
   ("VIF_attr_ro", VIF_attr_ro); ("VIF_attr_rw", VIF_attr_rw)].

(** [getattr(self, name, [])] for a list-valued attribute *)
Fixpoint getattr_list_in (lists : list (string * list string)) (name : string)
    : list string :=
  match lists with
  | [] => []
  | (n, l) :: rest => if String.eqb n name then l else getattr_list_in rest name
  end.

Definition getattr_list (name : string) : list string :=
  getattr_list_in XendAPI_lists name.

(** The methods the class body defines with [def], in source order;
    [__init__] (line 188) is the first of them. *)
Definition XendAPI_defs : list string :=
  [ "__init__"; "session_login_with_password";
    "session_logout"; "session_destroy"; "session_get_record";
    "session_to_xml"; "session_get_this_host"; "session_get_this_user";
    "host_get_name_label"; "host_set_name_label"; "host_get_name_description";
    "host_set_name_description"; "host_get_software_version";
    "host_get_resident_vms"; "host_get_host_cpus"; "host_destroy";
    "host_disable"; "host_enable"; "host_reboot"; "host_shutdown";
    "host_get_record"; "host_get_all"; "host_create"; "host_cpu_get_uuid";
    "host_cpu_get_host"; "host_cpu_get_features"; "host_cpu_get_utilisation";
    "host_cpu_get_number"; "host_cpu_destroy"; "host_cpu_get_record";
    "host_cpu_to_xml"; "host_cpu_get_all"; "host_cpu_create";
    "vm_get_power_state"; "vm_get_resident_on"; "vm_get_memory_actual";
    "vm_get_memory_static_max"; "vm_get_memory_static_min";
    "vm_get_vcpus_number"; "vm_get_vcpus_utilisation";
    "vm_get_vcpus_features_required"; "vm_get_vcpus_can_use"; "vm_get_vifs";
    "vm_get_vbds"; "vm_get_tpm_instance"; "vm_get_tpm_backend";
    "vm_get_pci_bus"; "vm_get_tools_version"; "vm_get_name_label";
    "vm_get_name_description"; "vm_get_user_version"; "vm_get_is_a_template";
    "vm_get_memory_dynamic_max"; "vm_get_memory_dynamic_min";
    "vm_get_vcpus_policy"; "vm_get_vcpus_params";
    "vm_get_vcpus_features_force_on"; "vm_get_vcpus_features_force_off";
    "vm_get_actions_after_shutdown"; "vm_get_actions_after_reboot";
    "vm_get_actions_after_suspend"; "vm_get_actions_after_crash";
    "vm_get_bios_boot"; "vm_get_platform_std_vga"; "vm_get_platform_serial";
    "vm_get_platform_localtime"; "vm_get_platform_clock_offset";
    "vm_get_platform_enable_audio"; "vm_get_builder"; "vm_get_boot_method";
    "vm_get_kernel_kernel"; "vm_get_kernel_initrd"; "vm_get_kernel_args";
    "vm_get_grub_cmdline"; "vm_get_other_config"; "vm_set_name_label";
    "vm_set_name_description"; "vm_set_user_version"; "vm_set_is_a_template";
    "vm_set_memory_dynamic_max"; "vm_set_memory_dynamic_min";
    "vm_set_vcpus_policy"; "vm_set_vcpus_params";
    "vm_set_vcpus_features_force_on"; "vm_set_vcpus_features_force_off";
    "vm_set_actions_after_shutdown"; "vm_set_actions_after_reboot";
    "vm_set_actions_after_suspend"; "vm_set_actions_after_crash";
    "vm_set_bios_boot"; "vm_set_platform_std_vga"; "vm_set_platform_serial";
    "vm_set_platform_localtime"; "vm_set_platform_clock_offset";
    "vm_set_platform_enable_audio"; "vm_set_builder"; "vm_set_boot_method";
    "vm_set_kernel_kernel"; "vm_set_kernel_initrd"; "vm_set_kernel_args";
    "vm_set_grub_cmdline"; "vm_set_other_config"; "vm_get_all";
    "vm_get_by_label"; "vm_create"; "vm_to_xml"; "vm_get_record";
    "vm_clean_reboot"; "vm_clean_shutdown"; "vm_clone"; "vm_destroy";
    "vm_hard_reboot"; "vm_hard_shutdown"; "vm_pause"; "vm_resume"; "vm_start";
    "vm_suspend"; "vm_unpause"; "vbd_get_record"; "vbd_create"; "vbd_get_vm";
    "vbd_get_vdi"; "vbd_get_device"; "vbd_get_mode"; "vbd_get_driver";
    "vif_create"].

(** The function-valued attributes of the class when its body has run: one
    function per [def]; line 297 sets the [api] attribute of
    [session_login_with_password], the other functions have none. *)
Definition def_object (name : string) : pyfunc :=
  if String.eqb name "session_login_with_password"
  then Def name (Some "Session.login_with_password")
  else Def name None.

Definition XendAPI_body : gmap string pyfunc :=
  list_to_map (map (fun name => (name, def_object name)) XendAPI_defs).

(** ** The constructor (lines 188-275)

    [__init__] works on the attributes of the class [XendAPI] itself
    ([setattr(XendAPI, ...)], [getattr(XendAPI, ...)]) and writes warnings to
    the log. *)

Record class_state : Type := {
  attrs : gmap string pyfunc;
  warnings : list string
}.

Definition Init (A : Type) : Type := SE class_state A.

(** [getattr(XendAPI, name)] *)
Definition getattr (name : string) : Init pyfunc :=
  fun s => match attrs s !! name with
           | Some f => (Ok f, s)
           | None => (Exc AttributeError, s)
           end.

(** [setattr(XendAPI, name, f)] *)
Definition setattr (name : string) (f : pyfunc) : Init unit :=
  fun s => (Ok tt, {| attrs := <[name := f]> (attrs s); warnings := warnings s |}).

(** [log.warn(msg)] *)
Definition log_warn (msg : string) : Init unit :=
  fun s => (Ok tt, {| attrs := attrs s; warnings := warnings s ++ [msg] |}).

Definition is_AttributeError (e : exn) : bool :=
  match e with AttributeError => true | _ => false end.

(** [for validator in validators: f = validator(f)] *)
Definition apply_validators (validators : list (pyfunc -> pyfunc)) (f : pyfunc)
    : pyfunc :=
  fold_left (fun g validator => validator g) validators f.

(** Lines 194-200: the dict [classes], as the list of its items in the order
    of the literal.  (Python fixes no order for a dict; the attributes the
    constructor leaves do not depend on it, see [init_order_irrelevant].) *)
Definition classes : list (string * list (pyfunc -> pyfunc)) :=
  [("Session", [session_required]);
   ("Host", [valid_host; session_required]);
   ("Host_CPU", [valid_host_cpu; session_required]);
   ("VM", [valid_vm; session_required]);
   ("VBD", [valid_vbd; session_required]);
   ("VIF", [valid_vif; session_required])].

(** Lines 207-213, the body of the loop over [classes.keys()]. *)
Definition cheat_methods (cls : string) : Init unit :=
  let get_by_uuid := lower cls +:+ "_get_by_uuid" in
  let get_uuid := lower cls +:+ "_get_uuid" in
  setattr get_by_uuid (Lambda_obj_ref None) ;;;
  setattr get_uuid (Lambda_obj_ref None).

(** Lines 231-240 *)
Definition wrap_getter (cls : string) (validators : list (pyfunc -> pyfunc))
    (attr_name : string) : Init unit :=
  let getter_name := lower cls +:+ "_get_" +:+ lower attr_name in
  try_except
    (getter <- getattr getter_name ;;
     let getter := apply_validators validators getter in
     let getter := set_api getter (cls +:+ ".get_" +:+ attr_name) in
     setattr getter_name getter)
    is_AttributeError
    (fun _ => log_warn ("API call: " +:+ getter_name +:+ " not found")).

(** Lines 243-252 *)
Definition wrap_setter (cls : string) (validators : list (pyfunc -> pyfunc))
    (attr_name : string) : Init unit :=
  let setter_name := lower cls +:+ "_set_" +:+ lower attr_name in
  try_except
    (setter <- getattr setter_name ;;
     let setter := apply_validators validators setter in
     let setter := set_api setter (cls +:+ ".set_" +:+ attr_name) in
     setattr setter_name setter)
    is_AttributeError
    (fun _ => log_warn ("API call: " +:+ setter_name +:+ " not found")).

(** Lines 255-264 *)
Definition wrap_method (cls : string) (validators : list (pyfunc -> pyfunc))
    (method_name : string) : Init unit :=
  let method_full_name := lower cls +:+ "_" +:+ lower method_name in
  try_except
    (method <- getattr method_full_name ;;
     let method := apply_validators validators method in
     let method := set_api method (cls +:+ "." +:+ method_name) in
     setattr method_full_name method)
    is_AttributeError
    (fun _ => log_warn ("API call: " +:+ method_full_name +:+ " not found")).

(** Lines 267-275 *)
Definition wrap_func (cls : string) (func_name : string) : Init unit :=
  let func_full_name := lower cls +:+ "_" +:+ lower func_name in
  try_except
    (method <- getattr func_full_name ;;
     let method := session_required method in
     let method := set_api method (cls +:+ "." +:+ func_name) in
     setattr func_full_name method)
    is_AttributeError
    (fun _ => log_warn ("API call: " +:+ func_full_name +:+ " not found")).

(** Lines 224-275, the body of the loop over [classes.items()]. *)
Definition wrap_class (item : string * list (pyfunc -> pyfunc)) : Init unit :=
  let '(cls, validators) := item in
  let ro_attrs := getattr_list (cls +:+ "_attr_ro") in
  let rw_attrs := getattr_list (cls +:+ "_attr_rw") in
  let methods := getattr_list (cls +:+ "_methods") in
  let funcs := getattr_list (cls +:+ "_funcs") in
  for_ (ro_attrs ++ rw_attrs ++ Base_attr_ro) (wrap_getter cls validators) ;;;
  for_ (rw_attrs ++ Base_attr_rw) (wrap_setter cls validators) ;;;
  for_ (methods ++ Base_methods) (wrap_method cls validators) ;;;
  for_ (funcs ++ Base_funcs) (wrap_func cls).

(** The constructor, with the dict [classes] visited in the order [order]. *)
Definition init_in (order : list (string * list (pyfunc -> pyfunc))) : Init unit :=
  for_ (map fst order) cheat_methods ;;;
  for_ order wrap_class.

Definition __init__ : Init unit := init_in classes.

(** The class when its body has run, and after one and two constructions. *)
Definition XendAPI_0 : class_state :=
  {| attrs := XendAPI_body; warnings := [] |}.
Definition XendAPI_1 : class_state := snd (__init__ XendAPI_0).
Definition XendAPI_2 : class_state := snd (__init__ XendAPI_1).

(** ** Calls

    A call runs against the external collaborators: the node registry
    ([XendNode.instance()]), the domain registry ([XendDomain.instance()])
    and the auth manager ([auth_manager()]).  Their state is a type [World]
    and their methods one function [collab], both left abstract; every method
    call on a collaborator is recorded, in order, in a trace. *)

Record collab_call : Type := Collab {
  target : string;
  method : string;
  call_args : list pyval
}.

Inductive reply : Type :=
| Returns (v : pyval)
| Raises (e : exn).

Definition failure (code : xend_error) : pyval :=
  PDict [("Status", PStr "Failure"); ("ErrorDescription", PConst code)].

Section Calls.

Context {World : Type}.

(** The collaborators: what a method call answers and how it changes them. *)
Variable collab : collab_call -> World -> reply * World.

(** What the handlers this file leaves abstract do when called: their
    result, the collaborators afterwards, and the collaborator calls made. *)
Variable handler_body :
  string -> list pyval -> World -> result pyval * World * list collab_call.

Record run_state : Type := {
  world : World;
  trace : list collab_call
}.

Definition M (A : Type) : Type := SE run_state A.

(** A method call [target.method(args)] on a collaborator *)
Definition ask (target method : string) (args : list pyval) : M pyval :=
  fun s =>
    let c := Collab target method args in
    let '(r, w) := collab c (world s) in
    let s' := {| world := w; trace := trace s ++ [c] |} in
    match r with
    | Returns v => (Ok v, s')
    | Raises e => (Exc e, s')
    end.

(** [type(ref) == type(str()) and registry.method(args)], as a truth value:
    the registry is asked only when the reference is a [str]. *)
Definition str_and (ref : pyval) (check : M pyval) : M bool :=
  if is_str ref then (v <- check ;; ret (truthy v)) else ret false.

(** Lines 57-63 *)
Definition check_host_ref (func : list pyval -> M pyval) (args : list pyval)
    : M pyval :=
  match args with
  | session :: host_ref :: args =>
      ok <- str_and host_ref (ask "XendNode" "is_valid_host" [host_ref]) ;;
      if ok then func (session :: host_ref :: args)
      else ret (PDict [("Status", PStr "Failure");
                       ("ErrorDescription", PConst XEND_ERROR_HOST_INVALID)])
  | _ => raise TypeError
  end.

(** Lines 78-85 *)
Definition check_host_cpu_ref (func : list pyval -> M pyval) (args : list pyval)
    : M pyval :=
  match args with
  | session :: host_cpu_ref :: args =>
      ok <- str_and host_cpu_ref
              (ask "XendNode" "is_valid_cpu" [host_cpu_ref]) ;;
      if ok then func (session :: host_cpu_ref :: args)
      else ret (PDict [("Status", PStr "Failure");
                       ("ErrorDescription", PConst XEND_ERROR_HOST_CPU_INVALID)])
  | _ => raise TypeError
  end.

(** Lines 100-107 *)
Definition check_vm_ref (func : list pyval -> M pyval) (args : list pyval)
    : M pyval :=
  match args with
  | session :: vm_ref :: args =>
      ok <- str_and vm_ref (ask "XendDomain" "is_valid_vm" [vm_ref]) ;;
      if ok then func (session :: vm_ref :: args)
      else ret (PDict [("Status", PStr "Failure");
                       ("ErrorDescription", PConst XEND_ERROR_VM_INVALID)])
  | _ => raise TypeError
  end.

(** Lines 122-129 *)
Definition check_vbd_ref (func : list pyval -> M pyval) (args : list pyval)
    : M pyval :=
  match args with
  | session :: vbd_ref :: args =>
      ok <- str_and vbd_ref
              (ask "XendDomain" "is_valid_dev" [PStr "vbd"; vbd_ref]) ;;
      if ok then func (session :: vbd_ref :: args)
      else ret (PDict [("Status", PStr "Failure");
                       ("ErrorDescription", PConst XEND_ERROR_VBD_INVALID)])
  | _ => raise TypeError
  end.

(** Lines 144-151 *)
Definition check_vif_ref (func : list pyval -> M pyval) (args : list pyval)
    : M pyval :=
  match args with
  | session :: vif_ref :: args =>
      ok <- str_and vif_ref
              (ask "XendDomain" "is_valid_dev" [PStr "vif"; vif_ref]) ;;
      if ok then func (session :: vif_ref :: args)
      else ret (PDict [("Status", PStr "Failure");
                       ("ErrorDescription", PConst XEND_ERROR_VIF_INVALID)])
  | _ => raise TypeError
  end.

(** Modelled from the spec: the inner function of [session_required]
    (sections 4.2 and 3): the session collaborator is asked whether the token
    is a valid session; if not, the guard answers SessionInvalid with the
    Failure status of the guards, else it calls the handler with the same
    arguments. *)
Definition check_session (func : list pyval -> M pyval) (args : list pyval)
    : M pyval :=
  match args with
  | session :: args =>
      v <- ask "auth_manager" "is_session_valid" [session] ;;
      if truthy v then func (session :: args)
      else ret (PDict [("Status", PStr "Failure");
                       ("ErrorDescription", PConst XEND_ERROR_SESSION_INVALID)])
  | _ => raise TypeError
  end.

Definition closure_body (code : closure_code)
    : (list pyval -> M pyval) -> list pyval -> M pyval :=
  match code with
  | code_check_host_ref => check_host_ref
  | code_check_host_cpu_ref => check_host_cpu_ref
  | code_check_vm_ref => check_vm_ref
  | code_check_vbd_ref => check_vbd_ref
  | code_check_vif_ref => check_vif_ref
  | code_check_session => check_session
  end.

(** Lines 211 and 213: [lambda s, sess, obj_ref: xen_api_success(obj_ref)] *)
Definition lambda_obj_ref (args : list pyval) : M pyval :=
  match args with
  | [sess; obj_ref] => ret (xen_api_success obj_ref)
  | _ => raise TypeError
  end.

Definition is_XendError (e : exn) : bool :=
  match e with XendError _ => true | _ => false end.

(** Lines 291-296 *)
Definition session_login_with_password (args : list pyval) : M pyval :=
  match args with
  | [username; password] =>
      try_except
        (session <- ask "auth_manager" "login_with_password"
                      [username; password] ;;
         ret (xen_api_success session))
        is_XendError
        (fun e => ret (xen_api_error (PConst XEND_ERROR_AUTHENTICATION_FAILED)))
  | _ => raise TypeError
  end.

(** Lines 301-303 *)
Definition session_logout (args : list pyval) : M pyval :=
  match args with
  | [session] =>
      ask "auth_manager" "logout" [session] ;;;
      ret xen_api_success_void
  | _ => raise TypeError
  end.

(** Lines 304-305 *)
Definition session_destroy (args : list pyval) : M pyval :=
  match args with
  | [session] => ret (xen_api_error (PConst XEND_ERROR_UNSUPPORTED))
  | _ => raise TypeError
  end.

(** Lines 316-320 *)
Definition session_get_this_user (args : list pyval) : M pyval :=
  match args with
  | [session] =>
      user <- ask "auth_manager" "get_user" [session] ;;
      if truthy user then ret (xen_api_success user)
      else ret (xen_api_error (PConst XEND_ERROR_SESSION_INVALID))
  | _ => raise TypeError
  end.

(** Lines 406-408 *)
Definition host_cpu_get_uuid (args : list pyval) : M pyval :=
  match args with
  | [session; host_cpu_ref] =>
      uuid <- ask "XendNode" "get_host_cpu_uuid" [host_cpu_ref] ;;
      ret (xen_api_success uuid)
  | _ => raise TypeError
  end.

(** A handler this file leaves abstract, run as a call. *)
Definition abstract_handler (name : string) (args : list pyval) : M pyval :=
  fun s =>
    let '(r, w, calls) := handler_body name args (world s) in
    (r, {| world := w; trace := trace s ++ calls |}).

(** The body of the [def] with the given name. *)
Definition def_body (name : string) : list pyval -> M pyval :=
  if String.eqb name "session_login_with_password" then session_login_with_password
  else if String.eqb name "session_logout" then session_logout
  else if String.eqb name "session_destroy" then session_destroy
  else if String.eqb name "session_get_this_user" then session_get_this_user
  else if String.eqb name "host_cpu_get_uuid" then host_cpu_get_uuid
  else abstract_handler name.

(** The call of [f] on [self] and the arguments [args] *)
Fixpoint call (f : pyfunc) (args : list pyval) : M pyval :=
  match f with
  | Def name _ => def_body name args
  | Lambda_obj_ref _ => lambda_obj_ref args
  | Closure code func _ => closure_body code (call func) args
  end.

(** The call of the attribute [name] of the class in state [cls]; an absent
    attribute raises AttributeError. *)
Definition invoke (cls : class_state) (name : string) (args : list pyval)
    : M pyval :=
  match attrs cls !! name with
  | Some f => call f args
  | None => raise AttributeError
  end.

End Calls.

(** ** The declared operations, as the constructor visits them *)

Inductive op_kind : Type := Getter | Setter | Method | Func.

Record declared_op : Type := Op {
  op_cls : string;
  op_validators : list (pyfunc -> pyfunc);
  kind : op_kind;
  op_name : string
}.

(** The attribute of [XendAPI] that the naming convention gives. *)
Definition handler_name (o : declared_op) : string :=
  match kind o with
  | Getter => lower (op_cls o) +:+ "_get_" +:+ lower (op_name o)
  | Setter => lower (op_cls o) +:+ "_set_" +:+ lower (op_name o)
  | Method | Func => lower (op_cls o) +:+ "_" +:+ lower (op_name o)
  end.

(** The name the operation is published under. *)
Definition api_name (o : declared_op) : string :=
  match kind o with
  | Getter => op_cls o +:+ ".get_" +:+ op_name o
  | Setter => op_cls o +:+ ".set_" +:+ op_name o
  | Method | Func => op_cls o +:+ "." +:+ op_name o
  end.

(** The decorators the constructor applies, in the order it applies them. *)
Definition op_chain (o : declared_op) : list (pyfunc -> pyfunc) :=
  match kind o with
  | Func => [session_required]
  | _ => op_validators o
  end.

Definition op_wrap (o : declared_op) (f : pyfunc) : pyfunc :=
  set_api (apply_validators (op_chain o) f) (api_name o).

Definition not_found (name : string) : string :=
  "API call: " +:+ name +:+ " not found".

Definition wrap_op (o : declared_op) : Init unit :=
  try_except
    (f <- getattr (handler_name o) ;;
     setattr (handler_name o) (op_wrap o f))
    is_AttributeError
    (fun _ => log_warn (not_found (handler_name o))).

(** The names a class declares for a kind of operation, base names
    included, in the order the constructor visits them. *)
Definition declared_names (cls : string) (k : op_kind) : list string :=
  match k with
  | Getter => getattr_list (cls +:+ "_attr_ro")
              ++ getattr_list (cls +:+ "_attr_rw") ++ Base_attr_ro
  | Setter => getattr_list (cls +:+ "_attr_rw") ++ Base_attr_rw
  | Method => getattr_list (cls +:+ "_methods") ++ Base_methods
  | Func => getattr_list (cls +:+ "_funcs") ++ Base_funcs
  end.

Definition class_ops (item : string * list (pyfunc -> pyfunc))
    : list declared_op :=
  let '(cls, validators) := item in
  map (Op cls validators Getter) (declared_names cls Getter)
  ++ map (Op cls validators Setter) (declared_names cls Setter)
  ++ map (Op cls validators Method) (declared_names cls Method)
  ++ map (Op cls validators Func) (declared_names cls Func).

Definition declared_ops : list declared_op :=
  concat (map class_ops classes).

(** The attributes the cheat-methods loop sets. *)
Definition cheat_names_of (names : list string) : list string :=
  concat (map (fun cls => [lower cls +:+ "_get_by_uuid"; lower cls +:+ "_get_uuid"])
              names).

Definition cheat_names : list string := cheat_names_of (map fst classes).

(** The class after the cheat-methods loop of a construction that starts in
    state [s]. *)
Definition cheated (s : class_state) : class_state :=
  snd (for_ (map fst classes) cheat_methods s).

(** ** Stub collaborators, for concrete runs

    The collaborators have no state; [answers] fixes what each call replies. *)
Definition stub (answers : collab_call -> reply)
    : collab_call -> unit -> reply * unit :=
  fun c w => (answers c, w).

Definition no_handler_body
    : string -> list pyval -> unit -> result pyval * unit * list collab_call :=
  fun _ _ w => (Ok PNone, w, []).

Definition start : @run_state unit := {| world := tt; trace := [] |}.

(** No session is valid and no reference is known. *)
Definition deny_all (c : collab_call) : reply := Returns (PBool false).

(** Every session is valid; no reference is known. *)
Definition sessions_only (c : collab_call) : reply :=
  Returns (PBool (String.eqb (method c) "is_session_valid")).

(** Every session is valid and every reference is known. *)
Definition accept_all (c : collab_call) : reply := Returns (PBool true).

(** Every session is valid; the registries know the reference vm-1 and no
    other. *)
Definition knows_vm_1 (c : collab_call) : reply :=
  if String.eqb (method c) "is_session_valid" then Returns (PBool true)
  else match call_args c with
       | [PStr "vm-1"] => Returns (PBool true)
       | _ => Returns (PBool false)
       end.

(** Logging in yields the token ["tok"] for the password ["secret"], and
    fails with [XendError] for any other password. *)
Definition login_answers (c : collab_call) : reply :=
  if String.eqb (method c) "login_with_password" then
    match call_args c with
    | [_; PStr "secret"] => Returns (PStr "tok")
    | _ => Raises (XendError "Login failed")
    end
  else Returns PNone.

(** The reference guards, each with the registry call its check makes for a
    reference and the error code it answers with. *)
Definition reference_guards
    : list ((pyfunc -> pyfunc) * (pyval -> collab_call) * xend_error) :=
  [(valid_host,
    fun ref => Collab "XendNode" "is_valid_host" [ref],
    XEND_ERROR_HOST_INVALID);
   (valid_host_cpu,
    fun ref => Collab "XendNode" "is_valid_cpu" [ref],
    XEND_ERROR_HOST_CPU_INVALID);
   (valid_vm,
    fun ref => Collab "XendDomain" "is_valid_vm" [ref],
    XEND_ERROR_VM_INVALID);
   (valid_vbd,
    fun ref => Collab "XendDomain" "is_valid_dev" [PStr "vbd"; ref],
    XEND_ERROR_VBD_INVALID);
   (valid_vif,
    fun ref => Collab "XendDomain" "is_valid_dev" [PStr "vif"; ref],
    XEND_ERROR_VIF_INVALID)].

(** The call the session guard makes for a session token. *)
Definition session_query (session : pyval) : collab_call :=
  Collab "auth_manager" "is_session_valid" [session].

(** The codes of the closures a chain of decorators stacks on a function,
    outermost first. *)
Definition codes_of (validators : list (pyfunc -> pyfunc)) : list closure_code :=
  guards_of (apply_validators validators (Lambda_obj_ref None)).

(** ** The handlers of the class body

    The methods the class body defines, as computations over the
    collaborators.  An attribute read on a collaborator
    ([XendNode.instance().uuid]) is recorded like a call without arguments.
    An instance a collaborator hands out (a domain) is whatever value the
    collaborator answers with; a method call or attribute read on it goes to
    the collaborator ["XendDomainInfo"] with the instance as first argument,
    and raises AttributeError when the value is None (or any other false
    value).  A tuple is a [PList]. *)

Section Handlers.

Context {World : Type}.
Variable collab : collab_call -> World -> reply * World.

(** [def f(self, a): body], [def f(self, a, b): body] and
    [def f(self, a, b, c): body]: a call with another number of arguments
    raises TypeError. *)
Definition def1 (body : pyval -> @M World pyval) (args : list pyval)
    : @M World pyval :=
  match args with
  | [a] => body a
  | _ => raise TypeError
  end.

Definition def2 (body : pyval -> pyval -> @M World pyval) (args : list pyval)
    : @M World pyval :=
  match args with
  | [a; b] => body a b
  | _ => raise TypeError
  end.

Definition def3 (body : pyval -> pyval -> pyval -> @M World pyval)
    (args : list pyval) : @M World pyval :=
  match args with
  | [a; b; c] => body a b c
  | _ => raise TypeError
  end.

(** [target.name], an attribute read on a collaborator *)
Definition attr (target name : string) : @M World pyval := ask collab target name [].

(** [obj.name(args)] on an instance a collaborator handed out *)
Definition obj_call (obj : pyval) (name : string) (args : list pyval)
    : @M World pyval :=
  if truthy obj then ask collab "XendDomainInfo" name (obj :: args)
  else raise AttributeError.

(** [v[key]] for a string key *)
Definition subscript (v : pyval) (key : string) : @M World pyval :=
  match v with
  | PDict items =>
      match dict_get items key with
      | Some x => ret x
      | None => raise (OtherException "KeyError")
      end
  | _ => raise TypeError
  end.

(** [[f(d) for d in v]] *)
Fixpoint for_each (f : pyval -> @M World pyval) (l : list pyval)
    : @M World (list pyval) :=
  match l with
  | [] => ret []
  | d :: rest => x <- f d ;; xs <- for_each f rest ;; ret (x :: xs)
  end.

Fixpoint chars (s : string) : list pyval :=
  match s with
  | EmptyString => []
  | String c rest => PStr (String c EmptyString) :: chars rest
  end.

Fixpoint uchars (s : string) : list pyval :=
  match s with
  | EmptyString => []
  | String c rest => PUnicode (String c EmptyString) :: uchars rest
  end.

(** The values a [for] loop over [v] visits; a value that is not iterable
    raises TypeError. *)
Definition iterate (v : pyval) : @M World (list pyval) :=
  match v with
  | PList l => ret l
  | PDict items => ret (map (fun kv => PStr (fst kv)) items)
  | PStr s => ret (chars s)
  | PUnicode s => ret (uchars s)
  | PConst _ => raise (OtherException "opaque")
  | _ => raise TypeError
  end.

(** Lines 159-172.  The bound method [getattr(xendom, fn_name)] is passed on
    by its name. *)
Definition do_vm_func (fn_name : string) (vm_ref : pyval) (args : list pyval)
    : @M World pyval :=
  r <- ask collab "XendDomain" "do_legacy_api_with_uuid"
         (PStr fn_name :: vm_ref :: args) ;;
  ret (xen_api_success r).

(** *** Session (lines 306-315) *)

Definition session_get_record : list pyval -> @M World pyval :=
  def1 (fun session =>
    this_host <- attr "XendNode" "uuid" ;;
    this_user <- ask collab "auth_manager" "get_user" [session] ;;
    ret (xen_api_success
           (PDict [("this_host", this_host); ("this_user", this_user)]))).

Definition session_to_xml : list pyval -> @M World pyval :=
  def1 (fun session => ret xen_api_todo).

Definition session_get_this_host : list pyval -> @M World pyval :=
  def1 (fun session =>
    uuid <- attr "XendNode" "uuid" ;; ret (xen_api_success uuid)).

(** *** Host (lines 349-395) *)

(** Lines 349-352: [host_get_name_label] and [host_set_name_label] have the
    same parameters and the same body. *)
Definition host_get_name_label : list pyval -> @M World pyval :=
  def2 (fun session host_ref =>
    name <- attr "XendNode" "name" ;; ret (xen_api_success name)).

(** Lines 353-356: likewise [host_get_name_description] and
    [host_set_name_description]. *)
Definition host_get_name_description : list pyval -> @M World pyval :=
  def2 (fun session host_ref =>
    description <- attr "XendNode" "description" ;;
    ret (xen_api_success description)).

Definition host_get_software_version : list pyval -> @M World pyval :=
  def2 (fun session host_ref =>
    v <- ask collab "XendNode" "xen_version" [] ;; ret (xen_api_success v)).

Definition host_get_resident_vms : list pyval -> @M World pyval :=
  def2 (fun session host_ref =>
    v <- ask collab "XendDomain" "get_domain_refs" [] ;;
    ret (xen_api_success v)).

Definition host_get_host_cpus : list pyval -> @M World pyval :=
  def2 (fun session host_ref =>
    v <- ask collab "XendNode" "get_host_cpu_refs" [] ;;
    ret (xen_api_success v)).

(** [return xen_api_error(XEND_ERROR_UNSUPPORTED)] as the whole body of a
    method of two parameters: [host_destroy], [host_create],
    [host_cpu_destroy], [host_cpu_create], [vm_clone], [vm_hard_reboot],
    [vbd_get_vdi]. *)
Definition unsupported2 : list pyval -> @M World pyval :=
  def2 (fun _ _ => ret (xen_api_error (PConst XEND_ERROR_UNSUPPORTED))).

(** [return xen_api_todo()] as the whole body of a method of two parameters:
    [host_cpu_to_xml], [vm_to_xml]. *)
Definition todo2 : list pyval -> @M World pyval :=
  def2 (fun _ _ => ret xen_api_todo).

Definition host_disable : list pyval -> @M World pyval :=
  def2 (fun session host_ref =>
    ask collab "XendDomain" "set_allow_new_domains" [PBool false] ;;;
    ret xen_api_success_void).

Definition host_enable : list pyval -> @M World pyval :=
  def2 (fun session host_ref =>
    ask collab "XendDomain" "set_allow_new_domains" [PBool true] ;;;
    ret xen_api_success_void).

(** Lines 373-380: [host_reboot] and [host_shutdown] have the same body. *)
Definition host_reboot : list pyval -> @M World pyval :=
  def2 (fun session host_ref =>
    allowed <- ask collab "XendDomain" "allow_new_domains" [] ;;
    if negb (truthy allowed)
    then ret (xen_api_error (PConst XEND_ERROR_HOST_RUNNING))
    else ret (xen_api_error (PConst XEND_ERROR_UNSUPPORTED))).

Definition host_get_record : list pyval -> @M World pyval :=
  def2 (fun session host_ref =>
    name_label <- attr "XendNode" "name" ;;
    software_version <- ask collab "XendNode" "xen_version" [] ;;
    resident_VMs <- ask collab "XendDomain" "get_domain_refs" [] ;;
    host_CPUs <- ask collab "XendNode" "get_host_cpu_refs" [] ;;
    ret (xen_api_success
           (PDict [("name_label", name_label);
                   ("name_description", PStr EmptyString);
                   ("software_version", software_version);
                   ("resident_VMs", resident_VMs);
                   ("host_CPUs", host_CPUs)]))).

Definition host_get_all : list pyval -> @M World pyval :=
  def1 (fun session =>
    uuid <- attr "XendNode" "uuid" ;; ret (xen_api_success (PList [uuid]))).

(** *** Host_CPU (lines 409-439) *)

Definition host_cpu_get_host : list pyval -> @M World pyval :=
  def2 (fun session host_cpu_ref =>
    uuid <- attr "XendNode" "uuid" ;; ret (xen_api_success uuid)).

Definition host_cpu_get_features : list pyval -> @M World pyval :=
  def2 (fun session host_cpu_ref =>
    features <- ask collab "XendNode" "get_host_cpu_features" [host_cpu_ref] ;;
    ret (xen_api_success features)).

Definition host_cpu_get_utilisation : list pyval -> @M World pyval :=
  def2 (fun session host_cpu_ref =>
    util <- ask collab "XendNode" "get_host_cpu_load" [host_cpu_ref] ;;
    ret (xen_api_success util)).

Definition host_cpu_get_number : list pyval -> @M World pyval :=
  def2 (fun session host_cpu_ref =>
    num <- ask collab "XendNode" "get_host_cpu_number" [host_cpu_ref] ;;
    ret (xen_api_success num)).

Definition host_cpu_get_record : list pyval -> @M World pyval :=
  def2 (fun session host_cpu_ref =>
    host <- attr "XendNode" "uuid" ;;
    number <- ask collab "XendNode" "get_host_cpu_number" [host_cpu_ref] ;;
    features <- ask collab "XendNode" "get_host_cpu_features" [host_cpu_ref] ;;
    utilisation <- ask collab "XendNode" "get_host_cpu_load" [host_cpu_ref] ;;
    ret (xen_api_success
           (PDict [("uuid", host_cpu_ref);
                   ("host", host);
                   ("number", number);
                   ("features", features);
                   ("utilisation", utilisation)]))).

Definition host_cpu_get_all : list pyval -> @M World pyval :=
  def1 (fun session =>
    refs <- ask collab "XendNode" "get_host_cpu_refs" [] ;;
    ret (xen_api_success refs)).

(** *** VM (lines 553-927) *)

(** [dom = XendDomain.instance().get_vm_by_uuid(vm_ref)] followed by
    [return xen_api_success(dom.name())] or [dom.name]: the getters of lines
    553-555, 564-578, 588-594 and 613-615. *)
Definition vm_dom_getter (name : string) : list pyval -> @M World pyval :=
  def2 (fun session vm_ref =>
    dom <- ask collab "XendDomain" "get_vm_by_uuid" [vm_ref] ;;
    v <- obj_call dom name [] ;;
    ret (xen_api_success v)).

Definition vm_get_resident_on : list pyval -> @M World pyval :=
  def2 (fun session vm_ref =>
    uuid <- attr "XendNode" "uuid" ;; ret (xen_api_success uuid)).

(** The domain lookup followed by [return xen_api_todo()]: 23 getters. *)
Definition vm_todo_getter : list pyval -> @M World pyval :=
  def2 (fun session vm_ref =>
    ask collab "XendDomain" "get_vm_by_uuid" [vm_ref] ;;;
    ret xen_api_todo).

(** The domain lookup followed by [return xen_api_success('')]: 10
    getters. *)
Definition vm_empty_getter : list pyval -> @M World pyval :=
  def2 (fun session vm_ref =>
    ask collab "XendDomain" "get_vm_by_uuid" [vm_ref] ;;;
    ret (xen_api_success (PStr EmptyString))).

(** The domain lookup followed by [return xen_api_success_void()]: the 27
    setters of lines 721-827. *)
Definition vm_setter : list pyval -> @M World pyval :=
  def2 (fun session vm_ref =>
    ask collab "XendDomain" "get_vm_by_uuid" [vm_ref] ;;;
    ret xen_api_success_void).

(** Lines 830-832 *)
Definition vm_get_all : list pyval -> @M World pyval :=
  def1 (fun session =>
    doms <- ask collab "XendDomain" "list" [] ;;
    ds <- iterate doms ;;
    refs <- for_each (fun d => obj_call d "get_uuid" []) ds ;;
    ret (xen_api_success (PList refs))).

(** Lines 833-838 *)
Definition vm_get_by_label : list pyval -> @M World pyval :=
  def2 (fun session label =>
    dom <- ask collab "XendDomain" "domain_lookup_nr" [label] ;;
    if truthy dom
    then (uuid <- obj_call dom "get_uuid" [] ;; ret (xen_api_success uuid))
    else ret (xen_api_error (PConst XEND_ERROR_VM_INVALID))).

(** Lines 839-842 *)
Definition vm_create : list pyval -> @M World pyval :=
  def2 (fun session vm_struct =>
    domuuid <- ask collab "XendDomain" "create_domain" [vm_struct] ;;
    ret (xen_api_success domuuid)).

(** Lines 848-899 *)
Definition vm_get_record : list pyval -> @M World pyval :=
  def2 (fun session vm_ref =>
    xeninfo <- ask collab "XendDomain" "get_vm_by_uuid" [vm_ref] ;;
    if negb (truthy xeninfo)
    then ret (xen_api_error (PConst XEND_ERROR_VM_INVALID))
    else
      v_uuid <- obj_call xeninfo "get_uuid" [] ;;
      v_power_state <- obj_call xeninfo "get_power_state" [] ;;
      v_name_label <- obj_call xeninfo "getName" [] ;;
      v_name_description <- obj_call xeninfo "getName" [] ;;
      v_resident_on <- attr "XendNode" "uuid" ;;
      v_memory_static_min <- obj_call xeninfo "get_memory_static_min" [] ;;
      v_memory_static_max <- obj_call xeninfo "get_memory_static_max" [] ;;
      v_memory_dynamic_min <- obj_call xeninfo "get_memory_static_min" [] ;;
      v_memory_dynamic_max <- obj_call xeninfo "get_memory_static_max" [] ;;
      v_memory_actual <- obj_call xeninfo "get_memory_static_min" [] ;;
      v_vcpus_policy <- obj_call xeninfo "get_vcpus_policy" [] ;;
      v_vcpus_params <- obj_call xeninfo "get_vcpus_params" [] ;;
      v_vcpus_number <- obj_call xeninfo "getVCpuCount" [] ;;
      v_vcpus_utilisation <- obj_call xeninfo "get_vcpus_util" [] ;;
      v_actions_after_shutdown <- obj_call xeninfo "get_on_shutdown" [] ;;
      v_actions_after_reboot <- obj_call xeninfo "get_on_reboot" [] ;;
      v_actions_after_suspend <- obj_call xeninfo "get_on_suspend" [] ;;
      v_actions_after_crash <- obj_call xeninfo "get_on_crash" [] ;;
      v_vifs <- obj_call xeninfo "get_vifs" [] ;;
      v_vbds <- obj_call xeninfo "get_vbds" [] ;;
      v_tpm_instance <- obj_call xeninfo "get_tpm_instance" [] ;;
      v_tpm_backend <- obj_call xeninfo "get_tpm_backend" [] ;;
      v_bios_boot <- obj_call xeninfo "get_bios_boot" [] ;;
      v_platform_std_vga <- obj_call xeninfo "get_platform_std_vga" [] ;;
      v_platform_serial <- obj_call xeninfo "get_platform_serial" [] ;;
      v_platform_localtime <- obj_call xeninfo "get_platform_localtime" [] ;;
      v_platform_clock_offset <- obj_call xeninfo "get_platform_clock_offset" [] ;;
      v_platform_enable_audio <- obj_call xeninfo "get_platform_enable_audio" [] ;;
      v_builder <- obj_call xeninfo "get_builder" [] ;;
      v_boot_method <- obj_call xeninfo "get_boot_method" [] ;;
      v_kernel_kernel <- obj_call xeninfo "get_kernel_image" [] ;;
      v_kernel_initrd <- obj_call xeninfo "get_kernel_initrd" [] ;;
      v_kernel_args <- obj_call xeninfo "get_kernel_args" [] ;;
      v_grub_cmdline <- obj_call xeninfo "get_grub_cmdline" [] ;;
      v_pci_bus <- obj_call xeninfo "get_pci_bus" [] ;;
      v_tools_version <- obj_call xeninfo "get_tools_version" [] ;;
      v_otherconfig <- obj_call xeninfo "get_other_config" [] ;;
      ret (xen_api_success (PDict
        [("uuid", v_uuid);
         ("power_state", v_power_state);
         ("name_label", v_name_label);
         ("name_description", v_name_description);
         ("user_version", PInt 1);
         ("is_a_template", PBool false);
         ("resident_on", v_resident_on);
         ("memory_static_min", v_memory_static_min);
         ("memory_static_max", v_memory_static_max);
         ("memory_dynamic_min", v_memory_dynamic_min);
         ("memory_dynamic_max", v_memory_dynamic_max);
         ("memory_actual", v_memory_actual);
         ("vcpus_policy", v_vcpus_policy);
         ("vcpus_params", v_vcpus_params);
         ("vcpus_number", v_vcpus_number);
         ("vcpus_utilisation", v_vcpus_utilisation);
         ("vcpus_features_required", PList []);
         ("vcpus_features_can_use", PList []);
         ("vcpus_features_force_on", PList []);
         ("vcpus_features_force_off", PList []);
         ("actions_after_shutdown", v_actions_after_shutdown);
         ("actions_after_reboot", v_actions_after_reboot);
         ("actions_after_suspend", v_actions_after_suspend);
         ("actions_after_crash", v_actions_after_crash);
         ("vifs", v_vifs);
         ("vbds", v_vbds);
         ("tpm_instance", v_tpm_instance);
         ("tpm_backend", v_tpm_backend);
         ("bios_boot", v_bios_boot);
         ("platform_std_vga", v_platform_std_vga);
         ("platform_serial", v_platform_serial);
         ("platform_localtime", v_platform_localtime);
         ("platform_clock_offset", v_platform_clock_offset);
         ("platform_enable_audio", v_platform_enable_audio);
         ("builder", v_builder);
         ("boot_method", v_boot_method);
         ("kernel_kernel", v_kernel_kernel);
         ("kernel_initrd", v_kernel_initrd);
         ("kernel_args", v_kernel_args);
         ("grub_cmdline", v_grub_cmdline);
         ("pci_bus", v_pci_bus);
         ("tools_version", v_tools_version);
         ("otherconfig", v_otherconfig)]))).

(** Lines 901-910: [xeninfo.shutdown(reason)] on the domain found. *)
Definition vm_clean (reason : string) : list pyval -> @M World pyval :=
  def2 (fun session vm_ref =>
    xeninfo <- ask collab "XendDomain" "get_vm_by_uuid" [vm_ref] ;;
    obj_call xeninfo "shutdown" [PStr reason] ;;;
    ret xen_api_success_void).

(** [return do_vm_func(fn_name, vm_ref)]: lines 913-920 and 923-928. *)
Definition vm_do_vm_func (fn_name : string) : list pyval -> @M World pyval :=
  def2 (fun session vm_ref => do_vm_func fn_name vm_ref []).

(** Lines 921-922 *)
Definition vm_resume : list pyval -> @M World pyval :=
  def3 (fun session vm_ref start_paused =>
    do_vm_func "domain_resume" vm_ref []).

(** *** VBD and VIF (lines 949-985, 1005-1015) *)

(** [xendom.get_dev_by_uuid('vbd', vbd_ref, field)]: [vbd_get_record] and
    [vbd_get_driver] with ['driver'], [vbd_get_vm] with ['VM'],
    [vbd_get_device] with ['device'], [vbd_get_mode] with ['mode']. *)
Definition vbd_get_field (fld : string) : list pyval -> @M World pyval :=
  def2 (fun session vbd_ref =>
    v <- ask collab "XendDomain" "get_dev_by_uuid"
           [PStr "vbd"; vbd_ref; PStr fld] ;;
    ret (xen_api_success v)).

(** Lines 955-965 and 1005-1015: [vbd_create] with [dom.create_vbd],
    [vif_create] with [dom.create_vif]. *)
Definition dev_create (create : string) : list pyval -> @M World pyval :=
  def2 (fun session dev_struct =>
    vm <- subscript dev_struct "VM" ;;
    valid <- ask collab "XendDomain" "is_valid_vm" [vm] ;;
    if truthy valid then
      vm' <- subscript dev_struct "VM" ;;
      dom <- ask collab "XendDomain" "get_vm_by_uuid" [vm'] ;;
      try_except
        (dev_ref <- obj_call dom create [dev_struct] ;;
         ret (xen_api_success dev_ref))
        is_XendError
        (fun _ => ret (xen_api_error (PConst XEND_ERROR_TODO)))
    else ret (xen_api_error (PConst XEND_ERROR_DOMAIN_INVALID))).

(** The methods of the class body under their names, in source order.
    [__init__] is not among them: it is the constructor modelled above, which
    works on the attributes of the class and asks no collaborator. *)
Definition XendAPI_methods : list (string * (list pyval -> @M World pyval)) :=
  [
   ("session_login_with_password", session_login_with_password collab);
   ("session_logout", session_logout collab);
   ("session_destroy", session_destroy);
   ("session_get_record", session_get_record);
   ("session_to_xml", session_to_xml);
   ("session_get_this_host", session_get_this_host);
   ("session_get_this_user", session_get_this_user collab);
   ("host_get_name_label", host_get_name_label);
   ("host_set_name_label", host_get_name_label);
   ("host_get_name_description", host_get_name_description);
   ("host_set_name_description", host_get_name_description);
   ("host_get_software_version", host_get_software_version);
   ("host_get_resident_vms", host_get_resident_vms);
   ("host_get_host_cpus", host_get_host_cpus);
   ("host_destroy", unsupported2);
   ("host_disable", host_disable);
   ("host_enable", host_enable);
   ("host_reboot", host_reboot);
   ("host_shutdown", host_reboot);
   ("host_get_record", host_get_record);
   ("host_get_all", host_get_all);
   ("host_create", unsupported2);
   ("host_cpu_get_uuid", host_cpu_get_uuid collab);
   ("host_cpu_get_host", host_cpu_get_host);
   ("host_cpu_get_features", host_cpu_get_features);
   ("host_cpu_get_utilisation", host_cpu_get_utilisation);
   ("host_cpu_get_number", host_cpu_get_number);
   ("host_cpu_destroy", unsupported2);
   ("host_cpu_get_record", host_cpu_get_record);
   ("host_cpu_to_xml", todo2);
   ("host_cpu_get_all", host_cpu_get_all);
   ("host_cpu_create", unsupported2);
   ("vm_get_power_state", vm_dom_getter "state");
   ("vm_get_resident_on", vm_get_resident_on);
   ("vm_get_memory_actual", vm_todo_getter);
   ("vm_get_memory_static_max", vm_dom_getter "get_memory_static_max");
   ("vm_get_memory_static_min", vm_dom_getter "get_memory_static_min");
   ("vm_get_vcpus_number", vm_dom_getter "getVCpuCount");
   ("vm_get_vcpus_utilisation", vm_dom_getter "get_vcpus_util");
   ("vm_get_vcpus_features_required", vm_todo_getter);
   ("vm_get_vcpus_can_use", vm_todo_getter);
   ("vm_get_vifs", vm_dom_getter "get_vifs");
   ("vm_get_vbds", vm_dom_getter "get_vbds");
   ("vm_get_tpm_instance", vm_todo_getter);
   ("vm_get_tpm_backend", vm_todo_getter);
   ("vm_get_pci_bus", vm_todo_getter);
   ("vm_get_tools_version", vm_todo_getter);
   ("vm_get_name_label", vm_dom_getter "getName");
   ("vm_get_name_description", vm_todo_getter);
   ("vm_get_user_version", vm_todo_getter);
   ("vm_get_is_a_template", vm_todo_getter);
   ("vm_get_memory_dynamic_max", vm_todo_getter);
   ("vm_get_memory_dynamic_min", vm_todo_getter);
   ("vm_get_vcpus_policy", vm_todo_getter);
   ("vm_get_vcpus_params", vm_todo_getter);
   ("vm_get_vcpus_features_force_on", vm_todo_getter);
   ("vm_get_vcpus_features_force_off", vm_todo_getter);
   ("vm_get_actions_after_shutdown", vm_empty_getter);
   ("vm_get_actions_after_reboot", vm_empty_getter);
   ("vm_get_actions_after_suspend", vm_empty_getter);
   ("vm_get_actions_after_crash", vm_empty_getter);
   ("vm_get_bios_boot", vm_empty_getter);
   ("vm_get_platform_std_vga", vm_todo_getter);
   ("vm_get_platform_serial", vm_todo_getter);
   ("vm_get_platform_localtime", vm_todo_getter);
   ("vm_get_platform_clock_offset", vm_todo_getter);
   ("vm_get_platform_enable_audio", vm_todo_getter);
   ("vm_get_builder", vm_todo_getter);
   ("vm_get_boot_method", vm_empty_getter);
   ("vm_get_kernel_kernel", vm_empty_getter);
   ("vm_get_kernel_initrd", vm_empty_getter);
   ("vm_get_kernel_args", vm_empty_getter);
   ("vm_get_grub_cmdline", vm_empty_getter);
   ("vm_get_other_config", vm_todo_getter);
   ("vm_set_name_label", vm_setter);
   ("vm_set_name_description", vm_setter);
   ("vm_set_user_version", vm_setter);
   ("vm_set_is_a_template", vm_setter);
   ("vm_set_memory_dynamic_max", vm_setter);
   ("vm_set_memory_dynamic_min", vm_setter);
   ("vm_set_vcpus_policy", vm_setter);
   ("vm_set_vcpus_params", vm_setter);
   ("vm_set_vcpus_features_force_on", vm_setter);
   ("vm_set_vcpus_features_force_off", vm_setter);
   ("vm_set_actions_after_shutdown", vm_setter);
   ("vm_set_actions_after_reboot", vm_setter);
   ("vm_set_actions_after_suspend", vm_setter);
   ("vm_set_actions_after_crash", vm_setter);
   ("vm_set_bios_boot", vm_setter);
   ("vm_set_platform_std_vga", vm_setter);
   ("vm_set_platform_serial", vm_setter);
   ("vm_set_platform_localtime", vm_setter);
   ("vm_set_platform_clock_offset", vm_setter);
   ("vm_set_platform_enable_audio", vm_setter);
   ("vm_set_builder", vm_setter);
   ("vm_set_boot_method", vm_setter);
   ("vm_set_kernel_kernel", vm_setter);
   ("vm_set_kernel_initrd", vm_setter);
   ("vm_set_kernel_args", vm_setter);
   ("vm_set_grub_cmdline", vm_setter);
   ("vm_set_other_config", vm_setter);
   ("vm_get_all", vm_get_all);
   ("vm_get_by_label", vm_get_by_label);
   ("vm_create", vm_create);
   ("vm_to_xml", todo2);
   ("vm_get_record", vm_get_record);
   ("vm_clean_reboot", vm_clean "reboot");
   ("vm_clean_shutdown", vm_clean "poweroff");
   ("vm_clone", unsupported2);
   ("vm_destroy", vm_do_vm_func "domain_delete");
   ("vm_hard_reboot", unsupported2);
   ("vm_hard_shutdown", vm_do_vm_func "domain_destroy");
   ("vm_pause", vm_do_vm_func "domain_pause");
   ("vm_resume", vm_resume);
   ("vm_start", vm_do_vm_func "domain_start");
   ("vm_suspend", vm_do_vm_func "domain_suspend");
   ("vm_unpause", vm_do_vm_func "domain_unpause");
   ("vbd_get_record", vbd_get_field "driver");
   ("vbd_create", dev_create "create_vbd");
   ("vbd_get_vm", vbd_get_field "VM");
   ("vbd_get_vdi", unsupported2);
   ("vbd_get_device", vbd_get_field "device");
   ("vbd_get_mode", vbd_get_field "mode");
   ("vbd_get_driver", vbd_get_field "driver");
   ("vif_create", dev_create "create_vif")].

Fixpoint method_named (table : list (string * (list pyval -> @M World pyval)))
    (name : string) : option (list pyval -> @M World pyval) :=
  match table with
  | [] => None
  | (n, h) :: rest => if String.eqb n name then Some h else method_named rest name
  end.

(** A computation that only adds to the trace: its result and the
    collaborators afterwards do not depend on the trace it starts with. *)
Definition appends {A} (m : @M World A) : Prop :=
  forall s,
    m s = let '(r, s') := m {| world := world s; trace := [] |} in
          (r, {| world := world s'; trace := trace s ++ trace s' |}).

(** What a computation can return: every value it returns satisfies [Q]. *)
Definition answers {A} (Q : A -> Prop) (m : @M World A) : Prop :=
  forall s r s', m s = (Ok r, s') -> Q r.


(** What a computation can return when it starts with the collaborators in
    state [w], whatever the trace. *)
Definition answers_in {A} (w : World) (Q : A -> Prop) (m : @M World A) : Prop :=
  forall tr r s', m {| world := w; trace := tr |} = (Ok r, s') -> Q r.

(** A computation started with an empty trace: its result, the collaborators
    afterwards and the calls it made. *)
Definition run_handler (m : @M World pyval) (w : World)
    : result pyval * World * list collab_call :=
  let '(r, s) := m {| world := w; trace := [] |} in
  (r, world s, trace s).

(** The bodies of the methods, in the form [call] takes them.  A name that
    is not in [XendAPI_methods] has no body here: that is [__init__], which no
    operation of the class names, and the names the class body does not
    define, of which the class never holds a function. *)
Definition method_body (name : string) (args : list pyval) (w : World)
    : result pyval * World * list collab_call :=
  match method_named XendAPI_methods name with
  | Some h => run_handler (h args) w
  | None => (Exc (OtherException "NameError"), w, [])
  end.

(** A call of an operation of the class after construction. *)
Definition xenapi (name : string) (args : list pyval) : @M World pyval :=
  invoke collab method_body XendAPI_1 name args.

End Handlers.

(** The class after [n] constructions, each on the attributes the one before
    left, started from the class in state [c]. *)
Fixpoint constructions (n : nat) (c : class_state) : class_state :=
  match n with
  | O => c
  | S n' => snd (__init__ (constructions n' c))
  end.

(** The methods of VM whose body is [return do_vm_func(fn_name, vm_ref)],
    each with its [fn_name] (lines 913-920 and 923-928). *)
Definition vm_lifecycle : list (string * string) :=
  [("vm_destroy", "domain_delete");
   ("vm_hard_shutdown", "domain_destroy");
   ("vm_pause", "domain_pause");
   ("vm_start", "domain_start");
   ("vm_suspend", "domain_suspend");
   ("vm_unpause", "domain_unpause")].

(** Stub collaborators: every call fails with an exception that is not a
    [XendError]. *)
Definition registry_down (c : collab_call) : reply :=
  Raises (OtherException "IOError").

(** The methods of VM that use the domain [get_vm_by_uuid] found without
    testing it: the getters of lines 553-555, 564-578, 588-594 and 613-615
    and the two clean shutdowns of lines 901-910. *)
Definition vm_domain_readers : list string :=
  ["vm_get_power_state"; "vm_get_memory_static_max";
   "vm_get_memory_static_min"; "vm_get_vcpus_number";
   "vm_get_vcpus_utilisation"; "vm_get_vifs"; "vm_get_vbds";
   "vm_get_name_label"; "vm_clean_reboot"; "vm_clean_shutdown"].

(** The two device constructors with the method of the domain they call
    (lines 955-965 and 1005-1015). *)
Definition dev_creators : list (string * string) :=
  [("vbd_create", "create_vbd"); ("vif_create", "create_vif")].

(** Stub collaborators: every check passes and no domain is found. *)
Definition domain_gone (c : collab_call) : reply :=
  if String.eqb (method c) "get_vm_by_uuid" then Returns PNone
  else Returns (PBool true).
(** The error constant of the Failure envelope a guard closure answers with
    (lines 62-63, 84-85, 106-107, 128-129, 150-151; for [check_session] as
    modelled above). *)
Definition guard_code (c : closure_code) : xend_error :=
  match c with
  | code_check_host_ref => XEND_ERROR_HOST_INVALID
  | code_check_host_cpu_ref => XEND_ERROR_HOST_CPU_INVALID
  | code_check_vm_ref => XEND_ERROR_VM_INVALID
  | code_check_vbd_ref => XEND_ERROR_VBD_INVALID
  | code_check_vif_ref => XEND_ERROR_VIF_INVALID
  | code_check_session => XEND_ERROR_SESSION_INVALID
  end.

(** The functions the operations of the class end in: a cheat lambda, or a
    [def] of the class body other than [__init__]. *)
Definition is_handler (f : pyfunc) : Prop :=
  match innermost f with
  | Def name _ => name ∈ XendAPI_defs /\ name <> "__init__"
  | Lambda_obj_ref _ => True
  | Closure _ _ _ => False
  end.

(** The envelopes of lines 29-38, the error ones with an error constant. *)
Definition is_answer (r : pyval) : Prop :=
  (exists v, r = xen_api_success v)
  \/ (exists code, r = xen_api_error (PConst code)).




(** The call [d.get_uuid()] on a domain of the list *)
Definition get_uuid_call (d : pyval) : collab_call :=
  Collab "XendDomainInfo" "get_uuid" [d].

(** The fields of a record that a getter of the class reads from the same
    collaborator call with the same arguments: the record method (lines
    306-309, 381-389, 425-432, 848-899), the field, and the getter. *)
Definition record_getters : list (string * string * string) :=
  [("session_get_record", "this_host", "session_get_this_host");
   ("host_get_record", "name_label", "host_get_name_label");
   ("host_get_record", "software_version", "host_get_software_version");
   ("host_get_record", "resident_VMs", "host_get_resident_vms");
   ("host_get_record", "host_CPUs", "host_get_host_cpus");
   ("host_cpu_get_record", "host", "host_cpu_get_host");
   ("host_cpu_get_record", "number", "host_cpu_get_number");
   ("host_cpu_get_record", "features", "host_cpu_get_features");
   ("host_cpu_get_record", "utilisation", "host_cpu_get_utilisation");
   ("vm_get_record", "name_label", "vm_get_name_label");
   ("vm_get_record", "resident_on", "vm_get_resident_on");
   ("vm_get_record", "memory_static_min", "vm_get_memory_static_min");
   ("vm_get_record", "memory_static_max", "vm_get_memory_static_max");
   ("vm_get_record", "vcpus_number", "vm_get_vcpus_number");
   ("vm_get_record", "vcpus_utilisation", "vm_get_vcpus_utilisation");
   ("vm_get_record", "vifs", "vm_get_vifs");
   ("vm_get_record", "vbds", "vm_get_vbds")].

(** Stub collaborators: two domains are listed, and every other call
    answers the name of its method. *)
Definition two_domains (c : collab_call) : reply :=
  if String.eqb (method c) "list" then Returns (PList [PStr "d1"; PStr "d2"])
  else Returns (PStr (method c)).

(** ** Loops and the wrapping step *)

Lemma for_app {S A} (l1 l2 : list A) (body : A -> SE S unit) (s : S) :
  for_ (l1 ++ l2) body s = (for_ l1 body ;;; for_ l2 body) s.
Proof.
  revert s. induction l1 as [|x l1 IH]; intros s; simpl.
  - reflexivity.
  - unfold bind. destruct (body x s) as [[[]|e] s1]; [|reflexivity].
    rewrite IH. reflexivity.
Qed.

Lemma for_map {S A B} (g : A -> B) (l : list A) (body : B -> SE S unit) (s : S) :
  for_ (map g l) body s = for_ l (fun x => body (g x)) s.
Proof.
  revert s. induction l as [|x l IH]; intros s; simpl; [reflexivity|].
  unfold bind. destruct (body (g x) s) as [[[]|e] s1]; [apply IH | reflexivity].
Qed.

Lemma for_ext {S A} (l : list A) (body1 body2 : A -> SE S unit) :
  (forall x s, body1 x s = body2 x s) ->
  forall s, for_ l body1 s = for_ l body2 s.
Proof.
  intros Hext. induction l as [|x l IH]; intros s; simpl; [reflexivity|].
  unfold bind. rewrite Hext. destruct (body2 x s) as [[[]|e] s1]; [apply IH | reflexivity].
Qed.

Lemma for_concat {S A B} (g : A -> list B) (l : list A) (body : B -> SE S unit) (s : S) :
  for_ (concat (map g l)) body s = for_ l (fun x => for_ (g x) body) s.
Proof.
  revert s. induction l as [|x l IH]; intros s; simpl; [reflexivity|].
  rewrite for_app. unfold bind.
  destruct (for_ (g x) body s) as [[[]|e] s1]; [apply IH | reflexivity].
Qed.

(** The four loop bodies are the one wrapping step. *)
Lemma wrap_getter_op cls validators attr_name :
  wrap_getter cls validators attr_name = wrap_op (Op cls validators Getter attr_name).
Proof. reflexivity. Qed.

Lemma wrap_setter_op cls validators attr_name :
  wrap_setter cls validators attr_name = wrap_op (Op cls validators Setter attr_name).
Proof. reflexivity. Qed.

Lemma wrap_method_op cls validators method_name :
  wrap_method cls validators method_name = wrap_op (Op cls validators Method method_name).
Proof. reflexivity. Qed.

Lemma wrap_func_op cls validators func_name :
  wrap_func cls func_name = wrap_op (Op cls validators Func func_name).
Proof. reflexivity. Qed.

Lemma bind_eq {S A B} (m : SE S A) (k : A -> SE S B) (s : S) :
  bind m k s = match m s with
               | (Ok a, s') => k a s'
               | (Exc e, s') => (Exc e, s')
               end.
Proof. reflexivity. Qed.

Lemma wrap_class_ops item s :
  wrap_class item s = for_ (class_ops item) wrap_op s.
Proof.
  destruct item as [cls validators]. unfold wrap_class, class_ops.
  do 3 (rewrite bind_eq, (for_app (map _ _)), bind_eq, for_map;
        match goal with
        | |- match ?a with _ => _ end = match ?b with _ => _ end =>
            change b with a; destruct a as [[[]|?] s1]; [clear s|reflexivity]
        end; rename s1 into s).
  rewrite for_map. reflexivity.
Qed.

Lemma init_in_ops order s :
  init_in order s
  = (for_ (map fst order) cheat_methods ;;;
     for_ (concat (map class_ops order)) wrap_op) s.
Proof.
  unfold init_in. rewrite !bind_eq.
  destruct (for_ (map fst order) cheat_methods s) as [[[]|e] s1]; [|reflexivity].
  rewrite for_concat. apply for_ext. intros; apply wrap_class_ops.
Qed.

Lemma wrap_op_run o s :
  wrap_op o s
  = match attrs s !! handler_name o with
    | Some f =>
        (Ok tt, {| attrs := <[handler_name o := op_wrap o f]> (attrs s);
                   warnings := warnings s |})
    | None =>
        (Ok tt, {| attrs := attrs s;
                   warnings := warnings s ++ [not_found (handler_name o)] |})
    end.
Proof.
  unfold wrap_op, try_except, bind, getattr, setattr, log_warn.
  destruct (attrs s !! handler_name o); reflexivity.
Qed.

(** What a run of wrapping steps over operations with distinct handler names
    leaves: every handler that was there is wrapped once, nothing is added,
    and every absent handler has its warning. *)
Lemma for_wrap_op_spec ops :
  NoDup (map handler_name ops) ->
  forall s,
    fst (for_ ops wrap_op s) = Ok tt
    /\ (forall o, o ∈ ops ->
          attrs (snd (for_ ops wrap_op s)) !! handler_name o
          = op_wrap o <$> attrs s !! handler_name o)
    /\ (forall n, n ∉ map handler_name ops ->
          attrs (snd (for_ ops wrap_op s)) !! n = attrs s !! n)
    /\ (forall o, o ∈ ops -> attrs s !! handler_name o = None ->
          not_found (handler_name o) ∈ warnings (snd (for_ ops wrap_op s)))
    /\ (exists extra, warnings (snd (for_ ops wrap_op s)) = warnings s ++ extra).
Proof.
  induction ops as [|o ops IH]; intros Hnd s.
  - simpl. repeat split.
    + intros o Ho. inversion Ho.
    + intros o Ho. inversion Ho.
    + exists []. symmetry. apply app_nil_r.
  - apply NoDup_cons in Hnd as [Hfresh Hnd]. change (map handler_name (o :: ops))
      with (handler_name o :: map handler_name ops).
    simpl for_. rewrite bind_eq, wrap_op_run.
    assert (Hother : forall o', o' ∈ ops -> handler_name o' <> handler_name o).
    { intros o' Ho' Heq. apply Hfresh. rewrite <- Heq.
      apply list_elem_of_fmap. exists o'. split; [reflexivity | exact Ho']. }
    destruct (attrs s !! handler_name o) as [f|] eqn:Hlook.
    + destruct (IH Hnd {| attrs := <[handler_name o := op_wrap o f]> (attrs s);
                          warnings := warnings s |})
        as (Hok & Hin & Hout & Hwarn & [extra Hextra]).
      simpl in *. repeat split.
      * exact Hok.
      * intros o' Ho'. apply elem_of_cons in Ho' as [-> | Ho'].
        -- rewrite Hout by exact Hfresh.
           rewrite lookup_insert_eq, Hlook. reflexivity.
        -- rewrite (Hin o' Ho').
           rewrite lookup_insert_ne by (apply not_eq_sym, Hother, Ho'). reflexivity.
      * intros n Hn. apply not_elem_of_cons in Hn as [Hne Hn].
        rewrite (Hout n Hn). apply lookup_insert_ne. congruence.
      * intros o' Ho' Hnone. apply elem_of_cons in Ho' as [-> | Ho'].
        -- congruence.
        -- apply (Hwarn o' Ho').
           rewrite lookup_insert_ne by (apply not_eq_sym, Hother, Ho'). exact Hnone.
      * exists extra. exact Hextra.
    + destruct (IH Hnd {| attrs := attrs s;
                          warnings := warnings s ++ [not_found (handler_name o)] |})
        as (Hok & Hin & Hout & Hwarn & [extra Hextra]).
      simpl in *. repeat split.
      * exact Hok.
      * intros o' Ho'. apply elem_of_cons in Ho' as [-> | Ho'].
        -- rewrite Hout by exact Hfresh. rewrite Hlook. reflexivity.
        -- apply (Hin o' Ho').
      * intros n Hn. apply not_elem_of_cons in Hn as [Hne Hn]. apply (Hout n Hn).
      * intros o' Ho' Hnone. apply elem_of_cons in Ho' as [-> | Ho'].
        -- rewrite Hextra. apply elem_of_app. left. apply elem_of_app. right.
           apply list_elem_of_singleton. reflexivity.
        -- apply (Hwarn o' Ho' Hnone).
      * exists ([not_found (handler_name o)] ++ extra).
        rewrite Hextra. symmetry. apply app_assoc.
Qed.

(** The cheat-methods loop sets its two attributes per class and nothing
    else. *)
Lemma for_cheat_spec names s :
  fst (for_ names cheat_methods s) = Ok tt
  /\ warnings (snd (for_ names cheat_methods s)) = warnings s
  /\ forall n,
       attrs (snd (for_ names cheat_methods s)) !! n
       = if bool_decide (n ∈ cheat_names_of names)
         then Some (Lambda_obj_ref None) else attrs s !! n.
Proof.
  revert s. induction names as [|cls names IH]; intros s.
  - simpl. repeat split.
  - simpl for_. rewrite bind_eq. unfold cheat_methods at 1.
    rewrite bind_eq. unfold setattr at 1 2. simpl attrs. simpl warnings.
    match goal with |- context [for_ names cheat_methods ?s1] =>
      destruct (IH s1) as (Hok & Hwarn & Hattrs) end.
    simpl in Hwarn. repeat split; [exact Hok | exact Hwarn |].
    intros n. rewrite Hattrs. simpl attrs.
    unfold cheat_names_of in *. simpl concat.
    destruct (decide (n ∈ concat (map (fun cls0 => [lower cls0 +:+ "_get_by_uuid";
                                                    lower cls0 +:+ "_get_uuid"]) names)))
      as [Hin | Hnotin].
    + rewrite !bool_decide_eq_true_2; [reflexivity | | exact Hin].
      apply elem_of_cons. right. apply elem_of_cons. right. exact Hin.
    + rewrite (bool_decide_eq_false_2 _ Hnotin).
      destruct (decide (n = lower cls +:+ "_get_uuid")) as [-> | Hne1].
      { rewrite lookup_insert_eq. rewrite bool_decide_eq_true_2; [reflexivity|].
        apply elem_of_cons. right. apply elem_of_cons. left. reflexivity. }
      rewrite lookup_insert_ne by congruence.
      destruct (decide (n = lower cls +:+ "_get_by_uuid")) as [-> | Hne2].
      { rewrite lookup_insert_eq. rewrite bool_decide_eq_true_2; [reflexivity|].
        apply elem_of_cons. left. reflexivity. }
      rewrite lookup_insert_ne by congruence.
      rewrite bool_decide_eq_false_2; [reflexivity|].
      intros Hin. apply elem_of_cons in Hin as [? | Hin]; [congruence|].
      apply elem_of_cons in Hin as [? | Hin]; [congruence | contradiction].
Qed.

(** ** Guards at call time *)

Section CallFacts.

Context {World : Type}.
Variable collab : collab_call -> World -> reply * World.
Variable handler_body :
  string -> list pyval -> World -> result pyval * World * list collab_call.

Lemma ask_returns target method args s v w :
  collab (Collab target method args) (world s) = (Returns v, w) ->
  ask collab target method args s
  = (Ok v, {| world := w; trace := trace s ++ [Collab target method args] |}).
Proof. intros H. unfold ask. rewrite H. reflexivity. Qed.

Lemma ask_raises target method args s e w :
  collab (Collab target method args) (world s) = (Raises e, w) ->
  ask collab target method args s
  = (Exc e, {| world := w; trace := trace s ++ [Collab target method args] |}).
Proof. intros H. unfold ask. rewrite H. reflexivity. Qed.

Ltac guard_cases H :=
  unfold reference_guards in H;
  repeat (apply elem_of_cons in H as [H | H]; [injection H as -> -> -> |]);
  [ .. | inversion H].

(** A reference guard whose check passes calls the wrapped function with the
    arguments it was given. *)
Lemma reference_guard_pass valid query code func session ref rest s v w :
  (valid, query, code) ∈ reference_guards ->
  is_str ref = true ->
  collab (query ref) (world s) = (Returns v, w) ->
  truthy v = true ->
  call collab handler_body (valid func) (session :: ref :: rest) s
  = call collab handler_body func (session :: ref :: rest)
      {| world := w; trace := trace s ++ [query ref] |}.
Proof.
  intros Hg Hstr Hq Hv. guard_cases Hg; simpl;
    unfold check_host_ref, check_host_cpu_ref, check_vm_ref, check_vbd_ref,
      check_vif_ref, str_and;
    rewrite Hstr, !bind_eq, (ask_returns _ _ _ _ _ _ Hq); unfold ret;
    rewrite Hv; reflexivity.
Qed.

(** A reference guard whose check fails answers with its error code, and the
    outcome does not depend on the wrapped function. *)
Lemma reference_guard_not_str valid query code func session ref rest s :
  (valid, query, code) ∈ reference_guards ->
  is_str ref = false ->
  call collab handler_body (valid func) (session :: ref :: rest) s = (Ok (failure code), s).
Proof.
  intros Hg Hstr. guard_cases Hg; simpl;
    unfold check_host_ref, check_host_cpu_ref, check_vm_ref, check_vbd_ref,
      check_vif_ref, str_and;
    rewrite Hstr; reflexivity.
Qed.

Lemma reference_guard_unknown valid query code func session ref rest s v w :
  (valid, query, code) ∈ reference_guards ->
  is_str ref = true ->
  collab (query ref) (world s) = (Returns v, w) ->
  truthy v = false ->
  call collab handler_body (valid func) (session :: ref :: rest) s
  = (Ok (failure code), {| world := w; trace := trace s ++ [query ref] |}).
Proof.
  intros Hg Hstr Hq Hv. guard_cases Hg; simpl;
    unfold check_host_ref, check_host_cpu_ref, check_vm_ref, check_vbd_ref,
      check_vif_ref, str_and;
    rewrite Hstr, !bind_eq, (ask_returns _ _ _ _ _ _ Hq); unfold ret;
    rewrite Hv; reflexivity.
Qed.

Lemma session_guard_pass func api session rest s v w :
  collab (session_query session) (world s) = (Returns v, w) ->
  truthy v = true ->
  call collab handler_body (Closure code_check_session func api) (session :: rest) s
  = call collab handler_body func (session :: rest)
      {| world := w; trace := trace s ++ [session_query session] |}.
Proof.
  intros Hq Hv. simpl. unfold check_session.
  rewrite bind_eq, (ask_returns _ _ _ _ _ _ Hq), Hv. reflexivity.
Qed.

Lemma session_guard_fail func api session rest s v w :
  collab (session_query session) (world s) = (Returns v, w) ->
  truthy v = false ->
  call collab handler_body (Closure code_check_session func api) (session :: rest) s
  = (Ok (failure XEND_ERROR_SESSION_INVALID),
     {| world := w; trace := trace s ++ [session_query session] |}).
Proof.
  intros Hq Hv. simpl. unfold check_session.
  rewrite bind_eq, (ask_returns _ _ _ _ _ _ Hq), Hv. reflexivity.
Qed.

(** The [api] attribute plays no part in a call. *)
Lemma call_set_api f name args s :
  call collab handler_body (set_api f name) args s = call collab handler_body f args s.
Proof. destruct f; reflexivity. Qed.

End CallFacts.

(** ** The constructor as a whole *)

Lemma elem_of_concat {A} (x : A) (ls : list (list A)) :
  x ∈ concat ls <-> exists l, x ∈ l /\ l ∈ ls.
Proof.
  rewrite list_elem_of_In, in_concat. split.
  - intros (l & Hl & Hx). exists l. rewrite !list_elem_of_In. tauto.
  - intros (l & Hx & Hl). exists l. rewrite <- !list_elem_of_In. tauto.
Qed.

Lemma declared_names_distinct : NoDup (map handler_name declared_ops).
Proof. apply (bool_decide_unpack _). vm_compute. exact I. Qed.

Lemma cheated_lookup s n :
  attrs (cheated s) !! n
  = if bool_decide (n ∈ cheat_names) then Some (Lambda_obj_ref None)
    else attrs s !! n.
Proof. apply for_cheat_spec. Qed.

Lemma cheated_warnings s : warnings (cheated s) = warnings s.
Proof. apply for_cheat_spec. Qed.

(** After a construction started in any state of the class: the constructor
    has returned, every declared operation whose handler the class had after
    the cheat-methods loop holds that handler wrapped once, no attribute has
    appeared, and every declared operation without a handler has its
    warning. *)
Lemma init_spec s :
  fst (__init__ s) = Ok tt
  /\ (forall o, o ∈ declared_ops ->
        attrs (snd (__init__ s)) !! handler_name o
        = op_wrap o <$> attrs (cheated s) !! handler_name o)
  /\ (forall n, n ∉ map handler_name declared_ops ->
        attrs (snd (__init__ s)) !! n = attrs (cheated s) !! n)
  /\ (forall o, o ∈ declared_ops ->
        attrs (cheated s) !! handler_name o = None ->
        not_found (handler_name o) ∈ warnings (snd (__init__ s)))
  /\ (exists extra, warnings (snd (__init__ s)) = warnings s ++ extra).
Proof.
  assert (Hcheat : for_ (map fst classes) cheat_methods s = (Ok tt, cheated s)).
  { unfold cheated. pose proof (for_cheat_spec (map fst classes) s) as (Hok & _).
    destruct (for_ (map fst classes) cheat_methods s) as [r s1].
    simpl in Hok. subst r. reflexivity. }
  assert (Hinit : __init__ s = for_ declared_ops wrap_op (cheated s)).
  { unfold __init__. rewrite init_in_ops, bind_eq, Hcheat. reflexivity. }
  rewrite Hinit.
  destruct (for_wrap_op_spec declared_ops declared_names_distinct (cheated s))
    as (H1 & H2 & H3 & H4 & [extra H5]).
  repeat split; try assumption.
  exists extra. rewrite H5, cheated_warnings. reflexivity.
Qed.

Lemma init_returns s : __init__ s = (Ok tt, snd (__init__ s)).
Proof.
  pose proof (init_spec s) as (Hok & _).
  destruct (__init__ s) as [r s1]. simpl in *. subst r. reflexivity.
Qed.

Lemma class_ops_declared item o :
  item ∈ classes -> o ∈ class_ops item -> o ∈ declared_ops.
Proof.
  intros Hitem Ho. unfold declared_ops. apply elem_of_concat.
  exists (class_ops item). split; [exact Ho|].
  apply list_elem_of_fmap. exists item. split; [reflexivity | exact Hitem].
Qed.

Lemma op_declared cls validators k name :
  (cls, validators) ∈ classes ->
  name ∈ declared_names cls k ->
  Op cls validators k name ∈ declared_ops.
Proof.
  intros Hcls Hname. apply (class_ops_declared _ _ Hcls). unfold class_ops.
  rewrite !elem_of_app, !list_elem_of_fmap.
  destruct k; [left | right; left | right; right; left | right; right; right];
    exists name; split; [reflexivity | exact Hname | reflexivity | exact Hname
                        | reflexivity | exact Hname | reflexivity | exact Hname].
Qed.

(** Every declared operation belongs to a class of [classes]. *)
Lemma declared_op_class o :
  o ∈ declared_ops -> (op_cls o, op_validators o) ∈ classes.
Proof.
  unfold declared_ops. intros Ho. apply elem_of_concat in Ho as (l & Ho & Hl).
  apply list_elem_of_fmap in Hl as ([cls validators] & -> & Hitem).
  unfold class_ops in Ho.
  repeat (apply elem_of_app in Ho as [Ho | Ho]);
    apply list_elem_of_fmap in Ho as (name & -> & _); exact Hitem.
Qed.

(** The functions the class has after its body and the cheat-methods loop
    have run are not guarded. *)
Lemma body_unguarded n f :
  XendAPI_body !! n = Some f -> f = def_object n.
Proof.
  unfold XendAPI_body. intros H. apply elem_of_list_to_map_2 in H.
  apply list_elem_of_fmap in H as (name & Heq & _). congruence.
Qed.

Lemma cheated_body_unguarded n f :
  attrs (cheated XendAPI_0) !! n = Some f -> guards_of f = [] /\ innermost f = f.
Proof.
  rewrite cheated_lookup. destruct (bool_decide _).
  - intros [= <-]. split; reflexivity.
  - simpl. intros H. apply body_unguarded in H as ->.
    unfold def_object. destruct (String.eqb _ _); split; reflexivity.
Qed.

(** The chains of [classes] stack their closures on the function they are
    given. *)
Lemma chain_guards cls validators f name :
  (cls, validators) ∈ classes ->
  guards_of (apply_validators validators f) = codes_of validators ++ guards_of f
  /\ innermost (set_api (apply_validators validators f) name) = innermost f.
Proof.
  intros H. unfold classes in H.
  repeat (apply elem_of_cons in H as [H | H]; [injection H as -> -> |]);
    [ .. | inversion H]; split; reflexivity.
Qed.

Lemma set_api_guards g name :
  guards_of (set_api g name) = guards_of g
  /\ api_of (set_api g name) = Some name.
Proof. destruct g; split; reflexivity. Qed.

Lemma op_wrap_guards o f :
  o ∈ declared_ops ->
  guards_of (op_wrap o f) = codes_of (op_chain o) ++ guards_of f
  /\ innermost (op_wrap o f) = innermost f
  /\ api_of (op_wrap o f) = Some (api_name o).
Proof.
  intros Ho. apply declared_op_class in Ho.
  unfold op_wrap.
  destruct (set_api_guards (apply_validators (op_chain o) f) (api_name o))
    as (-> & ->).
  unfold op_chain.
  destruct (kind o).
  4: { repeat split. }
  all: destruct (chain_guards _ _ f (api_name o) Ho) as [-> Hin]; repeat split;
    exact Hin.
Qed.

(** The dict [classes] may be visited in any order: the attributes the
    constructor leaves are the same. *)
Lemma init_order_irrelevant order c0 :
  order ≡ₚ classes ->
  fst (init_in order c0) = Ok tt
  /\ attrs (snd (init_in order c0)) = attrs (snd (__init__ c0)).
Proof.
  intros Hperm.
  assert (Hops : concat (map class_ops order) ≡ₚ declared_ops).
  { unfold declared_ops. rewrite <- !flat_map_concat_map.
    apply Permutation_flat_map. exact Hperm. }
  assert (Hnd : NoDup (map handler_name (concat (map class_ops order)))).
  { rewrite Hops. apply declared_names_distinct. }
  assert (Hcheat : for_ (map fst order) cheat_methods c0 = (Ok tt, cheated c0)).
  { pose proof (for_cheat_spec (map fst order) c0) as (Hok & Hw & Ha).
    destruct (for_ (map fst order) cheat_methods c0) as [r [a1 w1]].
    simpl in *. subst r w1. f_equal.
    pose proof (cheated_warnings c0) as Hw0.
    assert (Ha0 : a1 = attrs (cheated c0)).
    { apply map_eq. intros n. rewrite Ha, cheated_lookup.
      assert (Hiff : n ∈ cheat_names_of (map fst order) <-> n ∈ cheat_names).
      { unfold cheat_names, cheat_names_of. rewrite <- !flat_map_concat_map.
        assert (H : flat_map (fun cls => [lower cls +:+ "_get_by_uuid";
                                          lower cls +:+ "_get_uuid"]) (map fst order)
                    ≡ₚ flat_map (fun cls => [lower cls +:+ "_get_by_uuid";
                                             lower cls +:+ "_get_uuid"])
                         (map fst classes)).
        { apply Permutation_flat_map, Permutation_map, Hperm. }
        rewrite H. reflexivity. }
      do 2 case_bool_decide; tauto. }
    destruct (cheated c0) as [a2 w2]. simpl in *. subst. reflexivity. }
  rewrite init_in_ops, bind_eq, Hcheat.
  destruct (for_wrap_op_spec _ Hnd (cheated c0)) as (Hok & Hin & Hout & _).
  split; [exact Hok|].
  pose proof (init_spec c0) as (_ & Hin0 & Hout0 & _).
  apply map_eq. intros n.
  destruct (decide (n ∈ map handler_name (concat (map class_ops order))))
    as [Hn | Hn].
  - apply list_elem_of_fmap in Hn as (o & -> & Ho).
    rewrite (Hin o Ho). symmetry. apply Hin0. rewrite <- Hops. exact Ho.
  - rewrite (Hout n Hn). symmetry. apply Hout0.
    intros Hn'. apply Hn. rewrite Hops. exact Hn'.
Qed.

(** * The claims *)

(** ** Response envelope *)

(** C7: [xen_api_success value] is the dict with Status "Success" and Value
    [value]; [xen_api_success_void] is [xen_api_success] of the empty string,
    so its Value field is present and is the empty string; [xen_api_error code] is the
    dict with Status "Error" and ErrorDescription [code]; and
    [xen_api_todo] is [xen_api_error XEND_ERROR_TODO], an envelope of status
    "Error". *)
Theorem response_constructors (value code : pyval) :
  xen_api_success value = PDict [("Status", PStr "Success"); ("Value", value)]
  /\ field (xen_api_success value) "Status" = Some (PStr "Success")
  /\ field (xen_api_success value) "Value" = Some value
  /\ xen_api_success_void = xen_api_success (PStr EmptyString)
  /\ field xen_api_success_void "Value" = Some (PStr EmptyString)
  /\ xen_api_error code
     = PDict [("Status", PStr "Error"); ("ErrorDescription", code)]
  /\ field (xen_api_error code) "Status" = Some (PStr "Error")
  /\ field (xen_api_error code) "ErrorDescription" = Some code
  /\ field (xen_api_error code) "Value" = None
  /\ xen_api_todo = xen_api_error (PConst XEND_ERROR_TODO)
  /\ field xen_api_todo "Status" = Some (PStr "Error")
  /\ field xen_api_todo "ErrorDescription" = Some (PConst XEND_ERROR_TODO).
Proof. repeat split. Qed.

(** ** The guards *)

Section GuardClaims.

Context {World : Type}.
Variable collab : collab_call -> World -> reply * World.
Variable handler_body :
  string -> list pyval -> World -> result pyval * World * list collab_call.

(** C5: a reference guard ([valid_host], [valid_host_cpu], [valid_vm],
    [valid_vbd], [valid_vif]) called with a reference that is not a [str], or
    that its registry does not know, answers the envelope with Status
    "Failure" (not "Error") and its own *_INVALID code.  The answer and the
    state afterwards are the same whatever function the guard wraps: the
    wrapped handler is not called; the registry is asked once when the
    reference is a [str] and not at all otherwise. *)
Theorem reference_guard_rejects valid query code session ref rest s
    (Hguard : (valid, query, code) ∈ reference_guards)
    (Hbad : is_str ref = false
            \/ exists v w, collab (query ref) (world s) = (Returns v, w)
                           /\ truthy v = false) :
  let response :=
    PDict [("Status", PStr "Failure"); ("ErrorDescription", PConst code)] in
  exists s',
    (forall func,
       call collab handler_body (valid func) (session :: ref :: rest) s
       = (Ok response, s'))
    /\ field response "Status" = Some (PStr "Failure")
    /\ field response "Status" <> Some (PStr "Error")
    /\ field response "ErrorDescription" = Some (PConst code)
    /\ (is_str ref = false -> s' = s)
    /\ (is_str ref = true ->
        trace s' = trace s ++ [query ref]
        /\ world s' = snd (collab (query ref) (world s))).
Proof.
  intros response. destruct (is_str ref) eqn:Hstr.
  - destruct Hbad as [Hbad | (v & w & Hq & Hv)]; [discriminate|].
    exists {| world := w; trace := trace s ++ [query ref] |}.
    split; [|repeat split; try discriminate].
    + intros func.
      apply (reference_guard_unknown collab handler_body _ _ _ _ _ _ _ _ _ _
               Hguard Hstr Hq Hv).
    + simpl. rewrite Hq. reflexivity.
  - exists s. split; [|repeat split; try discriminate].
    intros func.
    apply (reference_guard_not_str collab handler_body _ _ _ _ _ _ _ _
             Hguard Hstr).
Qed.

(** C6: every guard composes transparently.  When the check of a reference
    guard passes (the reference is a [str] the registry knows), the guarded
    function called with (session, reference, rest) returns what the wrapped
    function returns for the same arguments, in the state the check left;
    when it fails, the guard returns its error envelope whatever the wrapped
    function is.  The same holds of the session guard and the session
    token. *)
Theorem guards_compose_transparently valid query code func session ref rest s v w
    (Hguard : (valid, query, code) ∈ reference_guards)
    (Hstr : is_str ref = true)
    (Hquery : collab (query ref) (world s) = (Returns v, w)) :
  let args := session :: ref :: rest in
  let s' := {| world := w; trace := trace s ++ [query ref] |} in
  (truthy v = true ->
     call collab handler_body (valid func) args s
     = call collab handler_body func args s')
  /\ (truthy v = false ->
      forall func',
        call collab handler_body (valid func') args s
        = (Ok (failure code), s'))
  /\ (forall ref', is_str ref' = false ->
      forall func',
        call collab handler_body (valid func') (session :: ref' :: rest) s
        = (Ok (failure code), s))
  /\ (forall args' v' w',
        collab (session_query session) (world s) = (Returns v', w') ->
        let t' := {| world := w'; trace := trace s ++ [session_query session] |} in
        (truthy v' = true ->
           call collab handler_body (session_required func) (session :: args') s
           = call collab handler_body func (session :: args') t')
        /\ (truthy v' = false ->
            forall func',
              call collab handler_body (session_required func') (session :: args') s
              = (Ok (failure XEND_ERROR_SESSION_INVALID), t'))).
Proof.
  intros args s'. split; [|split; [|split]]; [| | |intros args' v' w' Hq t'; split].
  - intros Hv. apply (reference_guard_pass collab handler_body _ _ _ _ _ _ _ _ _ _
                        Hguard Hstr Hquery Hv).
  - intros Hv func'.
    apply (reference_guard_unknown collab handler_body _ _ _ _ _ _ _ _ _ _
             Hguard Hstr Hquery Hv).
  - intros ref' Hstr' func'.
    apply (reference_guard_not_str collab handler_body _ _ _ _ _ _ _ _
             Hguard Hstr').
  - intros Hv. apply (session_guard_pass collab handler_body _ _ _ _ _ _ _ Hq Hv).
  - intros Hv func'.
    apply (session_guard_fail collab handler_body _ _ _ _ _ _ _ Hq Hv).
Qed.

(** C2: the constructor's loop over the validators applies each to the
    result of the one before, so the last-listed guard is the outermost
    closure and its check runs first.  For a class declared with the chain
    [A; B] (Host: [valid_host; session_required]) B is the session guard; a
    call that fails B's check and A's check gets B's error, the
    SessionInvalid failure, and A's registry is not asked.  This holds of
    every attribute and method the constructor installs for the class.  The
    same order holds when the last-listed guard is a reference guard: its
    failure is the answer whatever the first-listed decorator is. *)
Theorem last_guard_is_outermost cls A B query code session ref rest s v w
    (Hcls : (cls, [A; B]) ∈ classes)
    (HA : (A, query, code) ∈ reference_guards)
    (HfailB : collab (session_query session) (world s) = (Returns v, w)
              /\ truthy v = false)
    (HfailA : is_str ref = false
              \/ exists v' w', collab (query ref) (world s) = (Returns v', w')
                               /\ truthy v' = false) :
  let args := session :: ref :: rest in
  let s' := {| world := w; trace := trace s ++ [session_query session] |} in
  (forall validators (G : pyfunc -> pyfunc) h,
     apply_validators (validators ++ [G]) h = G (apply_validators validators h))
  /\ B = session_required
  /\ (forall h, apply_validators [A; B] h = B (A h))
  /\ (forall h,
        call collab handler_body (apply_validators [A; B] h) args s
        = (Ok (failure XEND_ERROR_SESSION_INVALID), s'))
  /\ failure XEND_ERROR_SESSION_INVALID <> failure code
  /\ (forall (A' G : pyfunc -> pyfunc) query' code' h ref',
        (G, query', code') ∈ reference_guards ->
        (is_str ref' = false ->
         call collab handler_body (apply_validators [A'; G] h)
           (session :: ref' :: rest) s
         = (Ok (failure code'), s))
        /\ (forall v' w',
              is_str ref' = true ->
              collab (query' ref') (world s) = (Returns v', w') ->
              truthy v' = false ->
              call collab handler_body (apply_validators [A'; G] h)
                (session :: ref' :: rest) s
              = (Ok (failure code'),
                 {| world := w'; trace := trace s ++ [query' ref'] |})))
  /\ (forall c0 o f,
        o ∈ declared_ops -> op_cls o = cls -> kind o <> Func ->
        attrs (snd (__init__ c0)) !! handler_name o = Some f ->
        call collab handler_body f args s
        = (Ok (failure XEND_ERROR_SESSION_INVALID), s')).
Proof.
  intros args s'. destruct HfailB as [Hq Hv].
  assert (HB : B = session_required).
  { unfold classes in Hcls.
    repeat (apply elem_of_cons in Hcls as [Hcls | Hcls];
            [inversion Hcls; reflexivity |]).
    inversion Hcls. }
  assert (Hcall : forall h,
            call collab handler_body (apply_validators [A; B] h) args s
            = (Ok (failure XEND_ERROR_SESSION_INVALID), s')).
  { intros h. subst B. apply (session_guard_fail collab handler_body _ _ _ _ _ _ _ Hq Hv). }
  split; [|split; [|split; [|split; [|split; [|split]]]]].
  - intros validators G h. unfold apply_validators. rewrite fold_left_app. reflexivity.
  - exact HB.
  - reflexivity.
  - exact Hcall.
  - unfold reference_guards in HA.
    repeat (apply elem_of_cons in HA as [HA | HA];
            [inversion HA; unfold failure; discriminate |]).
    inversion HA.
  - intros A' G query' code' h ref' HG.
    change (apply_validators [A'; G] h) with (G (A' h)). split.
    + intros Hstr.
      apply (reference_guard_not_str collab handler_body _ _ _ _ _ _ _ _ HG Hstr).
    + intros v' w' Hstr Hq' Hv'.
      apply (reference_guard_unknown collab handler_body _ _ _ _ _ _ _ _ _ _
               HG Hstr Hq' Hv').
  - intros c0 o f Ho Hocls Hkind Hlook.
    pose proof (init_spec c0) as (_ & Hwrapped & _).
    rewrite (Hwrapped o Ho) in Hlook.
    destruct (attrs (cheated c0) !! handler_name o) as [f0|]; [|discriminate].
    injection Hlook as <-.
    pose proof (declared_op_class o Ho) as Hoc. rewrite Hocls in Hoc.
    assert (Hvs : op_validators o = [A; B]).
    { clear -Hcls Hoc. unfold classes in *.
      repeat (apply elem_of_cons in Hcls as [Hcls | Hcls];
              [inversion Hcls; subst; clear Hcls;
               repeat (apply elem_of_cons in Hoc as [Hoc | Hoc];
                       [inversion Hoc; reflexivity |]);
               inversion Hoc |]).
      inversion Hcls. }
    unfold op_wrap. rewrite call_set_api. unfold op_chain.
    destruct (kind o); try contradiction; rewrite Hvs; apply Hcall.
Qed.

End GuardClaims.

(** ** Session login *)

Section LoginClaim.

Context {World : Type}.
Variable collab : collab_call -> World -> reply * World.
Variable handler_body :
  string -> list pyval -> World -> result pyval * World * list collab_call.

(** C8: [session_login_with_password] returns the success envelope of the
    token the auth manager returns, returns the AuthenticationFailed error
    exactly when the auth manager raises [XendError], and lets any other
    exception through.  The constructor does not touch the attribute: after
    construction it is still the function of the class body, with its [api]
    attribute and no guard. *)
Theorem login_with_password_spec username password s :
  let login :=
    Def "session_login_with_password" (Some "Session.login_with_password") in
  let q := Collab "auth_manager" "login_with_password" [username; password] in
  let after w := {| world := w; trace := trace s ++ [q] |} in
  let outcome := call collab handler_body login [username; password] s in
  outcome
  = match collab q (world s) with
    | (Returns token, w) => (Ok (xen_api_success token), after w)
    | (Raises (XendError msg), w) =>
        (Ok (xen_api_error (PConst XEND_ERROR_AUTHENTICATION_FAILED)), after w)
    | (Raises e, w) => (Exc e, after w)
    end
  /\ (fst outcome = Ok (xen_api_error (PConst XEND_ERROR_AUTHENTICATION_FAILED))
      <-> exists msg w, collab q (world s) = (Raises (XendError msg), w))
  /\ (forall c0,
        attrs (snd (__init__ c0)) !! "session_login_with_password"
        = attrs c0 !! "session_login_with_password")
  /\ attrs XendAPI_1 !! "session_login_with_password" = Some login
  /\ guards_of login = [].
Proof.
  intros login q after outcome.
  assert (Hrun : outcome
                 = match collab q (world s) with
                   | (Returns token, w) => (Ok (xen_api_success token), after w)
                   | (Raises (XendError msg), w) =>
                       (Ok (xen_api_error (PConst XEND_ERROR_AUTHENTICATION_FAILED)),
                        after w)
                   | (Raises e, w) => (Exc e, after w)
                   end).
  { unfold outcome, login. simpl call.
    change (def_body collab handler_body "session_login_with_password")
      with (session_login_with_password collab).
    unfold session_login_with_password, try_except. rewrite bind_eq.
    unfold ask. fold q.
    destruct (collab q (world s)) as [[token | e] w]; [reflexivity|].
    destruct e; reflexivity. }
  assert (Hkeep : forall c0,
            attrs (snd (__init__ c0)) !! "session_login_with_password"
            = attrs c0 !! "session_login_with_password").
  { intros c0. pose proof (init_spec c0) as (_ & _ & Hother & _).
    rewrite Hother, cheated_lookup.
    - rewrite bool_decide_eq_false_2; [reflexivity|].
      apply (bool_decide_unpack _). vm_compute. exact I.
    - apply (bool_decide_unpack _). vm_compute. exact I. }
  split; [exact Hrun|]. split; [|split; [exact Hkeep|split; [|reflexivity]]].
  - rewrite Hrun. split.
    + destruct (collab q (world s)) as [[token | e] w]; simpl.
      * discriminate.
      * destruct e; simpl; try discriminate. intros _. eauto.
    + intros (msg & w & ->). reflexivity.
  - unfold XendAPI_1. rewrite Hkeep. reflexivity.
Qed.

End LoginClaim.

(** ** The constructor *)

(** C3: whatever functions the class body defines, the constructor returns
    normally.  A declared attribute, method or function whose handler name
    names no function of the class is skipped: the name stays absent and its
    warning is logged.  Every declared operation whose handler is there is
    installed, wrapped and tagged with its published name, the skipped ones
    notwithstanding. *)
Theorem init_tolerates_missing_handlers (body : gmap string pyfunc)
    cls validators k name
    (Hcls : (cls, validators) ∈ classes)
    (Hname : name ∈ declared_names cls k) :
  let c0 := {| attrs := body; warnings := [] |} in
  let o := Op cls validators k name in
  exists c1,
    __init__ c0 = (Ok tt, c1)
    /\ (body !! handler_name o = None -> handler_name o ∉ cheat_names ->
        attrs c1 !! handler_name o = None
        /\ not_found (handler_name o) ∈ warnings c1)
    /\ (forall cls' validators' k' name' f,
          (cls', validators') ∈ classes ->
          name' ∈ declared_names cls' k' ->
          let o' := Op cls' validators' k' name' in
          attrs (cheated c0) !! handler_name o' = Some f ->
          attrs c1 !! handler_name o' = Some (op_wrap o' f)
          /\ api_of (op_wrap o' f) = Some (api_name o'))
    /\ (forall n, attrs (cheated c0) !! n = None <->
                  body !! n = None /\ n ∉ cheat_names).
Proof.
  intros c0 o. exists (snd (__init__ c0)).
  pose proof (init_spec c0) as (_ & Hwrapped & _ & Hwarn & _).
  assert (Hcheated : forall n, attrs (cheated c0) !! n = None <->
                               body !! n = None /\ n ∉ cheat_names).
  { intros n. rewrite cheated_lookup. simpl. case_bool_decide as Hin.
    - split; [discriminate | intros [_ Hnot]; contradiction].
    - tauto. }
  split; [apply init_returns|]. split; [|split; [|exact Hcheated]].
  - intros Hnone Hnocheat.
    pose proof (op_declared cls validators k name Hcls Hname) as Ho.
    assert (Hc : attrs (cheated c0) !! handler_name o = None)
      by (apply Hcheated; split; assumption).
    split.
    + rewrite (Hwrapped o Ho), Hc. reflexivity.
    + apply (Hwarn o Ho Hc).
  - intros cls' validators' k' name' f Hcls' Hname' o' Hf.
    pose proof (op_declared cls' validators' k' name' Hcls' Hname') as Ho'.
    split.
    + rewrite (Hwrapped o' Ho'), Hf. reflexivity.
    + apply (op_wrap_guards o' f Ho').
Qed.

(** C4: every class-level function, i.e. every name of the class's [_funcs]
    list and of [Base_funcs] (create, get_by_uuid, get_all), is wrapped by the
    constructor in [session_required] alone: after construction the attribute
    is the session guard's closure around the function that was there,
    tagged Class.name, and it carries exactly one guard, the session guard,
    also for the classes whose chain has a reference guard.  The class's own
    functions are get_by_label for Host and for VM, and none for the other
    classes. *)
Theorem class_functions_session_only cls validators func_name
    (Hcls : (cls, validators) ∈ classes)
    (Hname : func_name ∈ getattr_list (cls +:+ "_funcs") ++ Base_funcs) :
  let func_full_name := lower cls +:+ "_" +:+ lower func_name in
  Base_funcs = ["create"; "get_by_uuid"; "get_all"]
  /\ getattr_list (cls +:+ "_funcs")
     = (if bool_decide (cls = "Host" \/ cls = "VM") then ["get_by_label"]
        else [])
  /\ (forall c0,
        attrs (snd (__init__ c0)) !! func_full_name
        = (fun f => Closure code_check_session f (Some (cls +:+ "." +:+ func_name)))
            <$> attrs (cheated c0) !! func_full_name)
  /\ (forall f,
        attrs XendAPI_1 !! func_full_name = Some f ->
        guards_of f = [code_check_session]
        /\ api_of f = Some (cls +:+ "." +:+ func_name)).
Proof.
  intros func_full_name.
  pose proof (op_declared cls validators Func func_name Hcls Hname) as Ho.
  assert (Hwrapped : forall c0,
            attrs (snd (__init__ c0)) !! func_full_name
            = (fun f => Closure code_check_session f (Some (cls +:+ "." +:+ func_name)))
                <$> attrs (cheated c0) !! func_full_name).
  { intros c0. pose proof (init_spec c0) as (_ & Hw & _).
    apply (Hw _ Ho). }
  split; [reflexivity|]. split; [|split; [exact Hwrapped|]].
  { clear -Hcls. unfold classes in Hcls.
    repeat (apply elem_of_cons in Hcls as [Hcls | Hcls];
            [inversion Hcls; subst; reflexivity |]).
    inversion Hcls. }
  intros f Hf. unfold XendAPI_1 in Hf. rewrite Hwrapped in Hf.
  destruct (attrs (cheated XendAPI_0) !! func_full_name) as [f0|] eqn:Hf0;
    [|discriminate].
  injection Hf as <-. apply cheated_body_unguarded in Hf0 as [Hg _].
  simpl. rewrite Hg. split; reflexivity.
Qed.

(** ** The identity shortcuts *)

Lemma cheat_names_elem cls validators :
  (cls, validators) ∈ classes ->
  lower cls +:+ "_get_by_uuid" ∈ cheat_names
  /\ lower cls +:+ "_get_uuid" ∈ cheat_names.
Proof.
  intros Hcls. unfold cheat_names, cheat_names_of.
  split; apply elem_of_concat;
    exists [lower cls +:+ "_get_by_uuid"; lower cls +:+ "_get_uuid"];
    (split; [| apply list_elem_of_fmap; exists cls; split; [reflexivity|];
               apply list_elem_of_fmap; exists (cls, validators);
               split; [reflexivity | exact Hcls]]).
  - apply elem_of_cons. left. reflexivity.
  - apply elem_of_cons. right. apply elem_of_cons. left. reflexivity.
Qed.

Lemma base_names_declared cls :
  "uuid" ∈ declared_names cls Getter /\ "get_by_uuid" ∈ declared_names cls Func.
Proof.
  split; unfold declared_names; rewrite !elem_of_app; [right; right | right];
    unfold Base_attr_ro, Base_funcs.
  - apply elem_of_cons. left. reflexivity.
  - apply elem_of_cons. right. apply elem_of_cons. left. reflexivity.
Qed.

(** What the constructor leaves under the two cheat names of a class. *)
Lemma shortcuts_after_init cls validators c0 :
  (cls, validators) ∈ classes ->
  attrs (snd (__init__ c0)) !! (lower cls +:+ "_get_by_uuid")
  = Some (Closure code_check_session (Lambda_obj_ref None)
            (Some (cls +:+ ".get_by_uuid")))
  /\ attrs (snd (__init__ c0)) !! (lower cls +:+ "_get_uuid")
     = Some (set_api (apply_validators validators (Lambda_obj_ref None))
               (cls +:+ ".get_uuid")).
Proof.
  intros Hcls. pose proof (init_spec c0) as (_ & Hw & _).
  destruct (cheat_names_elem cls validators Hcls) as [Hin1 Hin2].
  destruct (base_names_declared cls) as [Huuid Hby].
  split.
  - pose proof (Hw _ (op_declared cls validators Func "get_by_uuid" Hcls Hby)) as H.
    change (handler_name (Op cls validators Func "get_by_uuid"))
      with (lower cls +:+ "_get_by_uuid") in H.
    rewrite H, cheated_lookup, (bool_decide_eq_true_2 _ Hin1). reflexivity.
  - pose proof (Hw _ (op_declared cls validators Getter "uuid" Hcls Huuid)) as H.
    change (handler_name (Op cls validators Getter "uuid"))
      with (lower cls +:+ "_get_uuid") in H.
    rewrite H, cheated_lookup, (bool_decide_eq_true_2 _ Hin2). reflexivity.
Qed.

(** The guard chain of a class is the session guard around at most one
    reference guard. *)
Lemma class_chain_shape cls validators :
  (cls, validators) ∈ classes ->
  validators = [session_required]
  \/ exists valid query code,
       (valid, query, code) ∈ reference_guards
       /\ validators = [valid; session_required].
Proof.
  intros Hcls. unfold classes in Hcls.
  apply elem_of_cons in Hcls as [Hcls | Hcls]; [left; inversion Hcls; reflexivity |].
  right. unfold reference_guards.
  repeat (apply elem_of_cons in Hcls as [Hcls | Hcls];
          [inversion Hcls; subst; eexists _, _, _; split; [|reflexivity];
           rewrite !elem_of_cons; eauto 10 |]).
  inversion Hcls.
Qed.

(** C1 (as amended): for every declared class the cheat-methods loop installs
    under [get_by_uuid] and [get_uuid] a lambda that returns the success
    envelope of its reference argument and asks no collaborator; the wrapping
    loops of the same construction then wrap [get_uuid] in the whole guard
    chain of the class (it is the base attribute uuid) and [get_by_uuid] in
    the session guard (it is a base function).  After construction a call of
    either evaluates the session guard first: with an invalid session it
    answers the SessionInvalid failure, and when every check passes it
    answers success of the reference: for [get_by_uuid] once the session
    check has passed, for [get_uuid] once the session check and then, in the
    collaborators it left, the reference check of the class have passed. *)
Theorem identity_shortcuts_are_guarded cls validators c0
    (Hcls : (cls, validators) ∈ classes) :
  let get_by_uuid := lower cls +:+ "_get_by_uuid" in
  let get_uuid := lower cls +:+ "_get_uuid" in
  let c1 := snd (__init__ c0) in
  attrs (cheated c0) !! get_by_uuid = Some (Lambda_obj_ref None)
  /\ attrs (cheated c0) !! get_uuid = Some (Lambda_obj_ref None)
  /\ (forall World (collab : collab_call -> World -> reply * World) hb sess ref s,
        call collab hb (Lambda_obj_ref None) [sess; ref] s
        = (Ok (xen_api_success ref), s))
  /\ attrs c1 !! get_by_uuid
     = Some (Closure code_check_session (Lambda_obj_ref None)
               (Some (cls +:+ ".get_by_uuid")))
  /\ attrs c1 !! get_uuid
     = Some (set_api (apply_validators validators (Lambda_obj_ref None))
               (cls +:+ ".get_uuid"))
  /\ (forall World (collab : collab_call -> World -> reply * World) hb
             name sess ref s v w,
        name = get_by_uuid \/ name = get_uuid ->
        collab (session_query sess) (world s) = (Returns v, w) ->
        truthy v = false ->
        invoke collab hb c1 name [sess; ref] s
        = (Ok (failure XEND_ERROR_SESSION_INVALID),
           {| world := w; trace := trace s ++ [session_query sess] |}))
  /\ (forall World (collab : collab_call -> World -> reply * World) hb
             sess ref s v w,
        collab (session_query sess) (world s) = (Returns v, w) ->
        truthy v = true ->
        let passed := {| world := w; trace := trace s ++ [session_query sess] |} in
        invoke collab hb c1 get_by_uuid [sess; ref] s
        = (Ok (xen_api_success ref), passed)
        /\ (validators = [session_required] ->
            invoke collab hb c1 get_uuid [sess; ref] s
            = (Ok (xen_api_success ref), passed))
        /\ (forall valid query code v' w',
              (valid, query, code) ∈ reference_guards ->
              validators = [valid; session_required] ->
              is_str ref = true ->
              collab (query ref) w = (Returns v', w') ->
              truthy v' = true ->
              invoke collab hb c1 get_uuid [sess; ref] s
              = (Ok (xen_api_success ref),
                 {| world := w';
                    trace := trace s ++ [session_query sess; query ref] |})))
  /\ (validators = [session_required]
      \/ exists valid query code,
           (valid, query, code) ∈ reference_guards
           /\ validators = [valid; session_required]).
Proof.
  intros get_by_uuid get_uuid c1.
  destruct (cheat_names_elem cls validators Hcls) as [Hin1 Hin2].
  destruct (shortcuts_after_init cls validators c0 Hcls) as [Hby Huuid].
  fold get_by_uuid get_uuid c1 in Hby, Huuid.
  split; [|split; [|split; [|split; [|split; [|split; [|split]]]]]].
  - rewrite cheated_lookup, (bool_decide_eq_true_2 _ Hin1). reflexivity.
  - rewrite cheated_lookup, (bool_decide_eq_true_2 _ Hin2). reflexivity.
  - reflexivity.
  - exact Hby.
  - exact Huuid.
  - intros World collab hb name sess ref s v w Hname Hq Hv. unfold invoke.
    destruct Hname as [-> | ->].
    + rewrite Hby. apply (session_guard_fail collab hb _ _ _ _ _ _ _ Hq Hv).
    + rewrite Huuid, call_set_api.
      destruct (class_chain_shape cls validators Hcls)
        as [-> | (valid & query & code & _ & ->)];
        apply (session_guard_fail collab hb _ _ _ _ _ _ _ Hq Hv).
  - intros World collab hb sess ref s v w Hq Hv passed. unfold invoke.
    split; [|split].
    + rewrite Hby, (session_guard_pass collab hb _ _ _ _ _ _ _ Hq Hv). reflexivity.
    + intros Hval. rewrite Huuid, call_set_api, Hval.
      change (apply_validators [session_required] (Lambda_obj_ref None))
        with (Closure code_check_session (Lambda_obj_ref None) None).
      rewrite (session_guard_pass collab hb _ _ _ _ _ _ _ Hq Hv). reflexivity.
    + intros valid query code v' w' Hg Hval Hstr Hq' Hv'.
      rewrite Huuid, call_set_api, Hval.
      change (apply_validators [valid; session_required] (Lambda_obj_ref None))
        with (Closure code_check_session (valid (Lambda_obj_ref None)) None).
      rewrite (session_guard_pass collab hb _ _ _ _ _ _ _ Hq Hv).
      rewrite (reference_guard_pass collab hb _ _ _ (Lambda_obj_ref None) sess
                 ref [] {| world := w; trace := trace s ++ [session_query sess] |}
                 v' w' Hg Hstr Hq' Hv').
      simpl. rewrite <- app_assoc. reflexivity.
  - apply (class_chain_shape cls validators Hcls).
Qed.

Lemma host_cpu_class : ("Host_CPU", [valid_host_cpu; session_required]) ∈ classes.
Proof. unfold classes. rewrite !elem_of_cons. eauto 10. Qed.

Lemma host_cpu_guard :
  (valid_host_cpu, fun ref => Collab "XendNode" "is_valid_cpu" [ref],
   XEND_ERROR_HOST_CPU_INVALID) ∈ reference_guards.
Proof. unfold reference_guards. rewrite !elem_of_cons. eauto 10. Qed.

(** C9 (as amended): the hand-written [host_cpu_get_uuid], which asks the
    node registry for the CPU's uuid, is overwritten by the cheat-methods
    loop, whatever the class held before; after construction the attribute is
    the lambda inside [valid_host_cpu] inside [session_required], tagged
    Host_CPU.get_uuid.  A call of it never asks the registry for
    [get_host_cpu_uuid]: the only collaborator calls are the session check
    and the registry's [is_valid_cpu], and when both checks pass the answer
    is success of the reference argument itself.  Otherwise the answer is a
    guard's failure: SessionInvalid when the session check fails, and
    HOST_CPU_INVALID when the reference is not a [str] (the registry is then
    not asked) or the registry does not know it. *)
Theorem host_cpu_get_uuid_overwritten
    {World : Type} (collab : collab_call -> World -> reply * World) hb
    (args : list pyval) (s : run_state) :
  let installed :=
    Closure code_check_session
      (Closure code_check_host_cpu_ref (Lambda_obj_ref None) None)
      (Some "Host_CPU.get_uuid") in
  XendAPI_body !! "host_cpu_get_uuid" = Some (Def "host_cpu_get_uuid" None)
  /\ (forall session ref,
        call collab hb (Def "host_cpu_get_uuid" None) [session; ref] s
        = (uuid <- ask collab "XendNode" "get_host_cpu_uuid" [ref] ;;
           ret (xen_api_success uuid)) s)
  /\ (forall c0, attrs (snd (__init__ c0)) !! "host_cpu_get_uuid" = Some installed)
  /\ (exists extra,
        trace (snd (call collab hb installed args s)) = trace s ++ extra
        /\ forall c, c ∈ extra ->
             (target c = "auth_manager" /\ method c = "is_session_valid")
             \/ (target c = "XendNode" /\ method c = "is_valid_cpu"))
  /\ (forall session ref v w v' w',
        args = [session; ref] ->
        collab (session_query session) (world s) = (Returns v, w) ->
        truthy v = true ->
        is_str ref = true ->
        collab (Collab "XendNode" "is_valid_cpu" [ref]) w = (Returns v', w') ->
        truthy v' = true ->
        call collab hb installed args s
        = (Ok (xen_api_success ref),
           {| world := w';
              trace := trace s ++ [session_query session;
                                   Collab "XendNode" "is_valid_cpu" [ref]] |}))
  /\ (forall session rest v w,
        args = session :: rest ->
        collab (session_query session) (world s) = (Returns v, w) ->
        truthy v = false ->
        call collab hb installed args s
        = (Ok (failure XEND_ERROR_SESSION_INVALID),
           {| world := w; trace := trace s ++ [session_query session] |}))
  /\ (forall session ref rest v w,
        args = session :: ref :: rest ->
        collab (session_query session) (world s) = (Returns v, w) ->
        truthy v = true ->
        is_str ref = false ->
        call collab hb installed args s
        = (Ok (failure XEND_ERROR_HOST_CPU_INVALID),
           {| world := w; trace := trace s ++ [session_query session] |}))
  /\ (forall session ref rest v w v' w',
        args = session :: ref :: rest ->
        collab (session_query session) (world s) = (Returns v, w) ->
        truthy v = true ->
        is_str ref = true ->
        collab (Collab "XendNode" "is_valid_cpu" [ref]) w = (Returns v', w') ->
        truthy v' = false ->
        call collab hb installed args s
        = (Ok (failure XEND_ERROR_HOST_CPU_INVALID),
           {| world := w';
              trace := trace s ++ [session_query session;
                                   Collab "XendNode" "is_valid_cpu" [ref]] |})).
Proof.
  intros installed.
  split; [reflexivity|]. split; [reflexivity|].
  split; [|split; [|split; [|split; [|split]]]].
  - intros c0.
    destruct (shortcuts_after_init "Host_CPU" _ c0 host_cpu_class) as [_ H].
    exact H.
  - assert (Hs : forall c, c ∈ [] ->
              (target c = "auth_manager" /\ method c = "is_session_valid")
              \/ (target c = "XendNode" /\ method c = "is_valid_cpu")).
    { intros c Hc. inversion Hc. }
    assert (H1 : forall session c, c ∈ [session_query session] ->
              (target c = "auth_manager" /\ method c = "is_session_valid")
              \/ (target c = "XendNode" /\ method c = "is_valid_cpu")).
    { intros session c Hc. apply list_elem_of_singleton in Hc as ->.
      left. split; reflexivity. }
    assert (H2 : forall session ref c,
              c ∈ [session_query session; Collab "XendNode" "is_valid_cpu" [ref]] ->
              (target c = "auth_manager" /\ method c = "is_session_valid")
              \/ (target c = "XendNode" /\ method c = "is_valid_cpu")).
    { intros session ref c Hc. apply elem_of_cons in Hc as [-> | Hc].
      - left. split; reflexivity.
      - apply list_elem_of_singleton in Hc as ->. right. split; reflexivity. }
    unfold installed. simpl call. unfold check_session.
    destruct args as [|session rest].
    { exists []. split; [simpl; symmetry; apply app_nil_r | exact Hs]. }
    rewrite bind_eq. unfold ask at 1.
    destruct (collab (Collab "auth_manager" "is_session_valid" [session]) (world s))
      as [[v | e] w].
    2: { exists [session_query session]. split; [reflexivity | apply H1]. }
    destruct (truthy v).
    2: { exists [session_query session]. split; [reflexivity | apply H1]. }
    unfold check_host_cpu_ref.
    destruct rest as [|ref rest].
    { exists [session_query session]. split; [reflexivity | apply H1]. }
    rewrite bind_eq. unfold str_and.
    destruct (is_str ref).
    2: { exists [session_query session]. split; [reflexivity | apply H1]. }
    rewrite bind_eq. unfold ask at 1. simpl world. simpl trace.
    destruct (collab (Collab "XendNode" "is_valid_cpu" [ref]) w) as [[v' | e'] w'].
    2: { exists [session_query session; Collab "XendNode" "is_valid_cpu" [ref]].
         split; [simpl; rewrite <- app_assoc; reflexivity | apply H2]. }
    unfold ret at 1.
    exists [session_query session; Collab "XendNode" "is_valid_cpu" [ref]].
    split; [| apply H2].
    destruct (truthy v'); [| simpl; rewrite <- app_assoc; reflexivity].
    destruct rest as [|x rest]; simpl; rewrite <- app_assoc; reflexivity.
  - intros session ref v w v' w' -> Hq Hv Hstr Hq' Hv'. unfold installed.
    rewrite (session_guard_pass collab hb _ _ _ _ _ _ _ Hq Hv).
    change (Closure code_check_host_cpu_ref (Lambda_obj_ref None) None)
      with (valid_host_cpu (Lambda_obj_ref None)).
    rewrite (reference_guard_pass collab hb _ _ _ (Lambda_obj_ref None) session
               ref [] {| world := w; trace := trace s ++ [session_query session] |}
               v' w' host_cpu_guard Hstr Hq' Hv').
    simpl. rewrite <- app_assoc. reflexivity.
  - intros session rest v w -> Hq Hv. unfold installed.
    apply (session_guard_fail collab hb _ _ _ _ _ _ _ Hq Hv).
  - intros session ref rest v w -> Hq Hv Hstr. unfold installed.
    rewrite (session_guard_pass collab hb _ _ _ _ _ _ _ Hq Hv).
    change (Closure code_check_host_cpu_ref (Lambda_obj_ref None) None)
      with (valid_host_cpu (Lambda_obj_ref None)).
    apply (reference_guard_not_str collab hb _ _ _ (Lambda_obj_ref None) session
             ref rest {| world := w; trace := trace s ++ [session_query session] |}
             host_cpu_guard Hstr).
  - intros session ref rest v w v' w' -> Hq Hv Hstr Hq' Hv'. unfold installed.
    rewrite (session_guard_pass collab hb _ _ _ _ _ _ _ Hq Hv).
    change (Closure code_check_host_cpu_ref (Lambda_obj_ref None) None)
      with (valid_host_cpu (Lambda_obj_ref None)).
    rewrite (reference_guard_unknown collab hb _ _ _ (Lambda_obj_ref None) session
               ref rest {| world := w; trace := trace s ++ [session_query session] |}
               v' w' host_cpu_guard Hstr Hq' Hv').
    simpl. rewrite <- app_assoc. reflexivity.
Qed.

(** ** Constructing twice *)

(** C10 (as amended): construction is not idempotent.  The constructor
    works on the attributes of the class, so a second construction starts
    from the attributes the first one left.  After one construction every
    declared operation that has a handler carries the closures of its chain
    exactly once around an unguarded function.  The second construction
    wraps the guarded hand-written handlers it finds in a second copy of
    their chain; the two cheat attributes of a class are set anew by the
    first loop of every construction, so they alone carry their chain once
    again.  The two classes differ. *)
Theorem construction_not_idempotent cls validators k name f1
    (Hcls : (cls, validators) ∈ classes)
    (Hname : name ∈ declared_names cls k)
    (Hfirst : attrs XendAPI_1 !! handler_name (Op cls validators k name) = Some f1) :
  let o := Op cls validators k name in
  XendAPI_1 = snd (__init__ XendAPI_0)
  /\ XendAPI_2 = snd (__init__ XendAPI_1)
  /\ attrs XendAPI_2 <> attrs XendAPI_1
  /\ guards_of f1 = codes_of (op_chain o)
  /\ guards_of (innermost f1) = []
  /\ attrs (cheated XendAPI_0) !! handler_name o = Some (innermost f1)
  /\ (handler_name o ∉ cheat_names ->
      XendAPI_body !! handler_name o = Some (innermost f1)
      /\ attrs XendAPI_2 !! handler_name o = Some (op_wrap o f1)
      /\ guards_of (op_wrap o f1) = codes_of (op_chain o) ++ codes_of (op_chain o)
      /\ innermost (op_wrap o f1) = innermost f1)
  /\ (handler_name o ∈ cheat_names ->
      innermost f1 = Lambda_obj_ref None
      /\ attrs XendAPI_2 !! handler_name o = Some f1).
Proof.
  intros o. pose proof (op_declared cls validators k name Hcls Hname) as Ho.
  fold o in Ho, Hfirst.
  pose proof (init_spec XendAPI_0) as (_ & Hw0 & _).
  pose proof (init_spec XendAPI_1) as (_ & Hw1 & _).
  unfold XendAPI_1 in Hfirst. rewrite (Hw0 o Ho) in Hfirst.
  destruct (attrs (cheated XendAPI_0) !! handler_name o) as [f0|] eqn:Hf0;
    [|discriminate].
  injection Hfirst as <-.
  destruct (cheated_body_unguarded _ _ Hf0) as [Hg0 Hi0].
  destruct (op_wrap_guards o f0 Ho) as (Hg1 & Hi1 & _).
  rewrite Hg0, app_nil_r in Hg1. rewrite Hi0 in Hi1.
  split; [reflexivity|]. split; [reflexivity|].
  split; [|split; [|split; [|split; [|split]]]].
  - intros Heq.
    assert (H : attrs XendAPI_2 !! "host_get_name_label"
                = attrs XendAPI_1 !! "host_get_name_label") by (rewrite Heq; reflexivity).
    vm_compute in H. discriminate H.
  - exact Hg1.
  - rewrite Hi1. exact Hg0.
  - rewrite Hi1. reflexivity.
  - intros Hnocheat.
    assert (Hbody : XendAPI_body !! handler_name o = Some f0).
    { rewrite cheated_lookup, (bool_decide_eq_false_2 _ Hnocheat) in Hf0. exact Hf0. }
    assert (Hsecond : attrs XendAPI_2 !! handler_name o = Some (op_wrap o (op_wrap o f0))).
    { unfold XendAPI_2. rewrite (Hw1 o Ho), cheated_lookup,
        (bool_decide_eq_false_2 _ Hnocheat).
      unfold XendAPI_1. rewrite (Hw0 o Ho), Hf0. reflexivity. }
    destruct (op_wrap_guards o (op_wrap o f0) Ho) as (Hg2 & Hi2 & _).
    rewrite Hi1. split; [exact Hbody|]. split; [exact Hsecond|].
    split; [rewrite Hg2, Hg1; reflexivity | rewrite Hi2; exact Hi1].
  - intros Hcheat.
    rewrite cheated_lookup, (bool_decide_eq_true_2 _ Hcheat) in Hf0.
    injection Hf0 as <-. split; [exact Hi1|].
    unfold XendAPI_2. rewrite (Hw1 o Ho), cheated_lookup,
      (bool_decide_eq_true_2 _ Hcheat). reflexivity.
Qed.

(** ** Concrete runs *)

(** With no valid session, [Host.get_by_uuid] does not answer success of its
    reference: the session guard is evaluated and rejects the call.  After
    construction both shortcuts of Host carry guards. *)
Lemma get_by_uuid_guarded_counterexample :
  fst (invoke (stub deny_all) no_handler_body XendAPI_1 "host_get_by_uuid"
         [PStr "tok"; PStr "ref"] start)
  <> Ok (xen_api_success (PStr "ref"))
  /\ session_query (PStr "tok")
     ∈ trace (snd (invoke (stub deny_all) no_handler_body XendAPI_1
                     "host_get_by_uuid" [PStr "tok"; PStr "ref"] start))
  /\ guards_of <$> attrs XendAPI_1 !! "host_get_by_uuid"
     = Some [code_check_session]
  /\ guards_of <$> attrs XendAPI_1 !! "host_get_uuid"
     = Some [code_check_session; code_check_host_ref].
Proof.
  vm_compute. split; [discriminate|]. split; [apply list_elem_of_here|].
  split; reflexivity.
Qed.

(** With a valid session and a CPU reference the node registry does not know,
    [Host_CPU.get_uuid] does not answer success of its reference, and the
    node registry has been consulted. *)
Lemma host_cpu_get_uuid_counterexample :
  fst (invoke (stub sessions_only) no_handler_body XendAPI_1 "host_cpu_get_uuid"
         [PStr "tok"; PStr "cpu0"] start)
  <> Ok (xen_api_success (PStr "cpu0"))
  /\ Collab "XendNode" "is_valid_cpu" [PStr "cpu0"]
     ∈ trace (snd (invoke (stub sessions_only) no_handler_body XendAPI_1
                     "host_cpu_get_uuid" [PStr "tok"; PStr "cpu0"] start)).
Proof.
  vm_compute. split; [discriminate |].
  apply list_elem_of_further, list_elem_of_here.
Qed.

(** [Host.get_uuid] is guarded after the first construction, and the second
    construction does not wrap it in a second copy of its chain: the
    attribute is the same after two constructions as after one. *)
Lemma second_construction_counterexample :
  guards_of <$> attrs XendAPI_1 !! "host_get_uuid"
  = Some [code_check_session; code_check_host_ref]
  /\ guards_of <$> attrs XendAPI_2 !! "host_get_uuid"
     <> Some [code_check_session; code_check_host_ref;
              code_check_session; code_check_host_ref]
  /\ attrs XendAPI_2 !! "host_get_uuid" = attrs XendAPI_1 !! "host_get_uuid".
Proof.
  vm_compute. split; [reflexivity|]. split; [discriminate | reflexivity].
Qed.

Lemma reference_guard_rejects_witness :
  exists s', forall func,
    call (stub deny_all) no_handler_body (valid_vbd func)
      [PStr "tok"; PStr "vbd-9"] start
    = (Ok (failure XEND_ERROR_VBD_INVALID), s').
Proof.
  destruct (reference_guard_rejects (stub deny_all) no_handler_body valid_vbd
              (fun ref => Collab "XendDomain" "is_valid_dev" [PStr "vbd"; ref])
              XEND_ERROR_VBD_INVALID (PStr "tok") (PStr "vbd-9") [] start)
    as (s' & H & _).
  - unfold reference_guards. do 3 apply list_elem_of_further.
    apply list_elem_of_here.
  - right. exists (PBool false), tt. split; reflexivity.
  - exists s'. exact H.
Defined.

Lemma guards_compose_transparently_witness :
  call (stub accept_all) no_handler_body (valid_vm (Def "vm_pause" None))
    [PStr "tok"; PStr "vm-1"] start
  = call (stub accept_all) no_handler_body (Def "vm_pause" None)
      [PStr "tok"; PStr "vm-1"]
      {| world := tt; trace := [Collab "XendDomain" "is_valid_vm" [PStr "vm-1"]] |}.
Proof.
  destruct (guards_compose_transparently (stub accept_all) no_handler_body
              valid_vm (fun ref => Collab "XendDomain" "is_valid_vm" [ref])
              XEND_ERROR_VM_INVALID (Def "vm_pause" None) (PStr "tok")
              (PStr "vm-1") [] start (PBool true) tt)
    as [Hpass _].
  - unfold reference_guards. do 2 apply list_elem_of_further.
    apply list_elem_of_here.
  - reflexivity.
  - reflexivity.
  - exact (Hpass eq_refl).
Defined.

Lemma last_guard_is_outermost_witness :
  call (stub deny_all) no_handler_body
    (apply_validators [valid_host; session_required]
       (Def "host_get_name_label" None))
    [PStr "tok"; PStr "no-such-host"] start
  = (Ok (failure XEND_ERROR_SESSION_INVALID),
     {| world := tt; trace := [session_query (PStr "tok")] |}).
Proof.
  destruct (last_guard_is_outermost (stub deny_all) no_handler_body "Host"
              valid_host session_required
              (fun ref => Collab "XendNode" "is_valid_host" [ref])
              XEND_ERROR_HOST_INVALID (PStr "tok") (PStr "no-such-host") []
              start (PBool false) tt)
    as (_ & _ & _ & H & _).
  - unfold classes. apply list_elem_of_further, list_elem_of_here.
  - unfold reference_guards. apply list_elem_of_here.
  - split; reflexivity.
  - right. exists (PBool false), tt. split; reflexivity.
  - exact (H (Def "host_get_name_label" None)).
Defined.

Lemma init_tolerates_missing_handlers_witness :
  exists c1,
    __init__ XendAPI_0 = (Ok tt, c1)
    /\ attrs c1 !! "host_get_by_label" = None
    /\ "API call: host_get_by_label not found" ∈ warnings c1
    /\ attrs c1 !! "host_get_all"
       = Some (Closure code_check_session (Def "host_get_all" None)
                 (Some "Host.get_all")).
Proof.
  assert (Hhost : ("Host", [valid_host; session_required]) ∈ classes).
  { unfold classes. apply list_elem_of_further, list_elem_of_here. }
  destruct (init_tolerates_missing_handlers XendAPI_body "Host"
              [valid_host; session_required] Func "get_by_label" Hhost)
    as (c1 & Hrun & Hskip & Hrest & _).
  - apply list_elem_of_here.
  - exists c1. split; [exact Hrun|].
    destruct Hskip as [Hnone Hwarn].
    + reflexivity.
    + apply (bool_decide_unpack _). vm_compute. exact I.
    + split; [exact Hnone|]. split; [exact Hwarn|].
      destruct (Hrest "Host" [valid_host; session_required] Func "get_all"
                  (Def "host_get_all" None) Hhost) as [Hall _].
      * do 3 apply list_elem_of_further. apply list_elem_of_here.
      * vm_compute. reflexivity.
      * exact Hall.
Defined.

(** [VM.get_by_label], a function of the class's own list [VM_funcs]. *)
Lemma class_functions_session_only_witness :
  getattr_list "VM_funcs" = ["get_by_label"]
  /\ attrs XendAPI_1 !! "vm_get_by_label"
     = Some (Closure code_check_session (Def "vm_get_by_label" None)
               (Some "VM.get_by_label"))
  /\ exists f,
       attrs XendAPI_1 !! "vm_get_by_label" = Some f
       /\ guards_of f = [code_check_session]
       /\ api_of f = Some "VM.get_by_label".
Proof.
  destruct (class_functions_session_only "VM" [valid_vm; session_required]
              "get_by_label") as (_ & Hown & Hwrapped & H).
  - unfold classes. do 3 apply list_elem_of_further. apply list_elem_of_here.
  - apply list_elem_of_here.
  - split; [exact Hown|]. split.
    + etransitivity; [exact (Hwrapped XendAPI_0)|]. vm_compute. reflexivity.
    + exists (Closure code_check_session (Def "vm_get_by_label" None)
                (Some "VM.get_by_label")).
      split; [vm_compute; reflexivity|].
      apply H. vm_compute. reflexivity.
Defined.

(** [VM.get_uuid] with no valid session; and, with a registry that knows
    vm-1 and no other reference, [VM.get_uuid] of vm-1. *)
Lemma identity_shortcuts_are_guarded_witness :
  invoke (stub deny_all) no_handler_body XendAPI_1 "vm_get_uuid"
    [PStr "tok"; PStr "vm-1"] start
  = (Ok (failure XEND_ERROR_SESSION_INVALID),
     {| world := tt; trace := [session_query (PStr "tok")] |})
  /\ invoke (stub knows_vm_1) no_handler_body XendAPI_1 "vm_get_uuid"
       [PStr "tok"; PStr "vm-1"] start
     = (Ok (xen_api_success (PStr "vm-1")),
        {| world := tt;
           trace := [session_query (PStr "tok");
                     Collab "XendDomain" "is_valid_vm" [PStr "vm-1"]] |}).
Proof.
  destruct (identity_shortcuts_are_guarded "VM" [valid_vm; session_required]
              XendAPI_0) as (_ & _ & _ & _ & _ & Hfail & Hpass & _).
  - unfold classes. do 3 apply list_elem_of_further. apply list_elem_of_here.
  - split.
    + apply (Hfail unit (stub deny_all) no_handler_body "vm_get_uuid"
               (PStr "tok") (PStr "vm-1") start (PBool false) tt).
      * right. reflexivity.
      * reflexivity.
      * reflexivity.
    + destruct (Hpass unit (stub knows_vm_1) no_handler_body (PStr "tok")
                  (PStr "vm-1") start (PBool true) tt) as (_ & _ & H).
      * reflexivity.
      * reflexivity.
      * apply (H valid_vm (fun ref => Collab "XendDomain" "is_valid_vm" [ref])
                 XEND_ERROR_VM_INVALID (PBool true) tt).
        -- unfold reference_guards. do 2 apply list_elem_of_further.
           apply list_elem_of_here.
        -- reflexivity.
        -- reflexivity.
        -- reflexivity.
        -- reflexivity.
Defined.

(** A known CPU with a valid session; and a CPU the registry does not know,
    with a valid session. *)
Lemma host_cpu_get_uuid_overwritten_witness :
  invoke (stub accept_all) no_handler_body XendAPI_1 "host_cpu_get_uuid"
    [PStr "tok"; PStr "cpu0"] start
  = (Ok (xen_api_success (PStr "cpu0")),
     {| world := tt;
        trace := [session_query (PStr "tok");
                  Collab "XendNode" "is_valid_cpu" [PStr "cpu0"]] |})
  /\ invoke (stub sessions_only) no_handler_body XendAPI_1 "host_cpu_get_uuid"
       [PStr "tok"; PStr "cpu0"] start
     = (Ok (failure XEND_ERROR_HOST_CPU_INVALID),
        {| world := tt;
           trace := [session_query (PStr "tok");
                     Collab "XendNode" "is_valid_cpu" [PStr "cpu0"]] |}).
Proof.
  split.
  - destruct (host_cpu_get_uuid_overwritten (stub accept_all) no_handler_body
                [PStr "tok"; PStr "cpu0"] start)
      as (_ & _ & Hinstalled & _ & Hpass & _).
    unfold invoke, XendAPI_1. rewrite Hinstalled.
    apply (Hpass (PStr "tok") (PStr "cpu0") (PBool true) tt (PBool true) tt);
      reflexivity.
  - destruct (host_cpu_get_uuid_overwritten (stub sessions_only) no_handler_body
                [PStr "tok"; PStr "cpu0"] start)
      as (_ & _ & Hinstalled & _ & _ & _ & _ & Hunknown).
    unfold invoke, XendAPI_1. rewrite Hinstalled.
    apply (Hunknown (PStr "tok") (PStr "cpu0") [] (PBool true) tt (PBool false) tt);
      reflexivity.
Defined.

Lemma construction_not_idempotent_witness :
  attrs XendAPI_2 !! "host_get_name_label"
  = Some (op_wrap (Op "Host" [valid_host; session_required] Getter "name_label")
            (Closure code_check_session
               (Closure code_check_host_ref (Def "host_get_name_label" None) None)
               (Some "Host.get_name_label")))
  /\ guards_of
       (op_wrap (Op "Host" [valid_host; session_required] Getter "name_label")
          (Closure code_check_session
             (Closure code_check_host_ref (Def "host_get_name_label" None) None)
             (Some "Host.get_name_label")))
     = [code_check_session; code_check_host_ref;
        code_check_session; code_check_host_ref].
Proof.
  destruct (construction_not_idempotent "Host" [valid_host; session_required]
              Getter "name_label"
              (Closure code_check_session
                 (Closure code_check_host_ref (Def "host_get_name_label" None) None)
                 (Some "Host.get_name_label")))
    as (_ & _ & _ & _ & _ & _ & H & _).
  - unfold classes. apply list_elem_of_further, list_elem_of_here.
  - do 3 apply list_elem_of_further. apply list_elem_of_here.
  - vm_compute. reflexivity.
  - destruct H as (_ & Hsecond & Hguards & _).
    + apply (bool_decide_unpack _). vm_compute. exact I.
    + split; [exact Hsecond | exact Hguards].
Defined.

(** * Further properties of the code *)

(** ** Handlers and the trace *)

Section HandlerFacts.

Context {World : Type}.
Variable collab : collab_call -> World -> reply * World.

Lemma appends_ret {A} (a : A) : appends (ret a : @M World A).
Proof. intros [w t]. unfold ret. simpl. rewrite app_nil_r. reflexivity. Qed.

Lemma appends_raise {A} (e : exn) : appends (raise e : @M World A).
Proof. intros [w t]. unfold raise. simpl. rewrite app_nil_r. reflexivity. Qed.

Lemma appends_ask target method args : appends (ask collab target method args).
Proof.
  intros [w t]. unfold ask. simpl.
  destruct (collab (Collab target method args) w) as [[v | e] w']; reflexivity.
Qed.

Lemma appends_bind {A B} (m : @M World A) (k : A -> @M World B) :
  appends m -> (forall a, appends (k a)) -> appends (bind m k).
Proof.
  intros Hm Hk s. unfold bind. rewrite (Hm s).
  destruct (m {| world := world s; trace := [] |}) as [[a | e] s1];
    [|simpl; reflexivity].
  rewrite (Hk a {| world := world s1; trace := trace s ++ trace s1 |}).
  rewrite (Hk a s1). simpl.
  destruct (k a {| world := world s1; trace := [] |}) as [r s2]. simpl.
  rewrite app_assoc. reflexivity.
Qed.

Lemma appends_try_except {A} (body : @M World A) catches handler :
  appends body -> (forall e, appends (handler e)) ->
  appends (try_except body catches handler).
Proof.
  intros Hm Hk s. unfold try_except. rewrite (Hm s).
  destruct (body {| world := world s; trace := [] |}) as [[a | e] s1];
    [simpl; reflexivity|].
  destruct (catches e); [|simpl; reflexivity].
  rewrite (Hk e {| world := world s1; trace := trace s ++ trace s1 |}).
  rewrite (Hk e s1). simpl.
  destruct (handler e {| world := world s1; trace := [] |}) as [r s2]. simpl.
  rewrite app_assoc. reflexivity.
Qed.

Lemma appends_if {A} (b : bool) (m1 m2 : @M World A) :
  appends m1 -> appends m2 -> appends (if b then m1 else m2).
Proof. destruct b; tauto. Qed.

Lemma appends_obj_call obj name args : appends (obj_call collab obj name args).
Proof.
  unfold obj_call. apply appends_if; [apply appends_ask | apply appends_raise].
Qed.

Lemma appends_subscript v key : appends (subscript v key : @M World pyval).
Proof.
  unfold subscript. destruct v; try apply appends_raise.
  destruct (dict_get items key); [apply appends_ret | apply appends_raise].
Qed.

Lemma appends_iterate v : appends (iterate v : @M World (list pyval)).
Proof.
  unfold iterate. destruct v; first [apply appends_raise | apply appends_ret].
Qed.

Lemma appends_for_each f l :
  (forall d, appends (f d)) -> appends (for_each f l : @M World (list pyval)).
Proof.
  intros Hf. induction l as [|d l IH]; simpl.
  - apply appends_ret.
  - apply appends_bind; [apply Hf|]. intros x.
    apply appends_bind; [exact IH|]. intros xs. apply appends_ret.
Qed.

Ltac appends_step :=
  first
    [ apply appends_ret
    | apply appends_raise
    | apply appends_ask
    | apply appends_obj_call
    | apply appends_subscript
    | apply appends_iterate
    | apply appends_for_each; intros
    | apply appends_bind; [|intros]
    | apply appends_try_except; [|intros]
    | apply appends_if ].

Ltac appends_handler :=
  intros args;
  unfold def1, def2, def3;
  destruct args as [|? [|? [|? [|? ?]]]];
  repeat appends_step.

Lemma appends_do_vm_func fn_name vm_ref args :
  appends (do_vm_func collab fn_name vm_ref args).
Proof. unfold do_vm_func. repeat appends_step. Qed.

(** Every method of the class body only adds to the trace. *)
Lemma methods_append :
  Forall (fun nh => forall args, appends (snd nh args)) (XendAPI_methods collab).
Proof.
  unfold XendAPI_methods.
  repeat (apply Forall_cons; split;
          [ simpl snd;
            unfold session_login_with_password, session_logout, session_destroy,
              session_get_record, session_to_xml, session_get_this_host,
              session_get_this_user, host_get_name_label,
              host_get_name_description, host_get_software_version,
              host_get_resident_vms, host_get_host_cpus, unsupported2, todo2,
              host_disable, host_enable, host_reboot, host_get_record,
              host_get_all, host_cpu_get_uuid, host_cpu_get_host,
              host_cpu_get_features, host_cpu_get_utilisation,
              host_cpu_get_number, host_cpu_get_record, host_cpu_get_all,
              vm_dom_getter, vm_get_resident_on, vm_todo_getter,
              vm_empty_getter, vm_setter, vm_get_all, vm_get_by_label,
              vm_create, vm_get_record, vm_clean, vm_do_vm_func, vm_resume,
              vbd_get_field, dev_create, attr, do_vm_func;
            appends_handler
          | ]).
  apply Forall_nil. exact I.
Qed.

Lemma method_named_elem table name (h : list pyval -> @M World pyval) :
  method_named table name = Some h -> (name, h) ∈ table.
Proof.
  induction table as [|[n h'] table IH]; simpl; [discriminate|].
  destruct (String.eqb n name) eqn:Heq.
  - intros [= ->]. apply String.eqb_eq in Heq as ->. apply list_elem_of_here.
  - intros H. apply list_elem_of_further, IH, H.
Qed.

Lemma method_appends name h args :
  method_named (XendAPI_methods collab) name = Some h -> appends (h args).
Proof.
  intros H. apply method_named_elem in H.
  pose proof methods_append as Hall. rewrite Forall_forall in Hall.
  apply (Hall (name, h)). exact H.
Qed.

(** With [method_body] for the bodies, a call of a [def] of the class runs
    the method of that name. *)
Lemma call_def name api h args s :
  method_named (XendAPI_methods collab) name = Some h ->
  call collab (method_body collab) (Def name api) args s = h args s.
Proof.
  intros Hh. simpl call. unfold def_body.
  destruct (String.eqb name "session_login_with_password") eqn:E1.
  { apply String.eqb_eq in E1 as ->. injection Hh as <-. reflexivity. }
  destruct (String.eqb name "session_logout") eqn:E2.
  { apply String.eqb_eq in E2 as ->. injection Hh as <-. reflexivity. }
  destruct (String.eqb name "session_destroy") eqn:E3.
  { apply String.eqb_eq in E3 as ->. injection Hh as <-. reflexivity. }
  destruct (String.eqb name "session_get_this_user") eqn:E4.
  { apply String.eqb_eq in E4 as ->. injection Hh as <-. reflexivity. }
  destruct (String.eqb name "host_cpu_get_uuid") eqn:E5.
  { apply String.eqb_eq in E5 as ->. injection Hh as <-. reflexivity. }
  unfold abstract_handler, method_body. rewrite Hh. unfold run_handler.
  rewrite (method_appends name h args Hh s).
  destruct (h args {| world := world s; trace := [] |}) as [r s1]. reflexivity.
Qed.

End HandlerFacts.

(** ** What construction leaves in the class *)

Lemma defs_distinct : NoDup XendAPI_defs.
Proof. apply (bool_decide_unpack _). vm_compute. exact I. Qed.

Lemma body_keys :
  (map (fun name => (name, def_object name)) XendAPI_defs).*1 = XendAPI_defs.
Proof. reflexivity. Qed.

Lemma body_lookup n :
  n ∈ XendAPI_defs -> XendAPI_body !! n = Some (def_object n).
Proof.
  intros Hn. unfold XendAPI_body. apply elem_of_list_to_map_1.
  - rewrite body_keys. apply defs_distinct.
  - apply list_elem_of_fmap. exists n. split; [reflexivity | exact Hn].
Qed.

Lemma body_lookup_None n :
  n ∉ XendAPI_defs -> XendAPI_body !! n = None.
Proof.
  intros Hn. unfold XendAPI_body. apply not_elem_of_list_to_map_1.
  rewrite body_keys. exact Hn.
Qed.

(** After the first construction a declared operation whose handler the
    class body defines is that handler in its chain, tagged. *)
Lemma installed_op o :
  o ∈ declared_ops ->
  handler_name o ∉ cheat_names ->
  handler_name o ∈ XendAPI_defs ->
  attrs XendAPI_1 !! handler_name o
  = Some (op_wrap o (def_object (handler_name o))).
Proof.
  intros Ho Hcheat Hdef. pose proof (init_spec XendAPI_0) as (_ & Hw & _).
  unfold XendAPI_1. rewrite (Hw o Ho), cheated_lookup,
    (bool_decide_eq_false_2 _ Hcheat).
  simpl attrs. rewrite (body_lookup _ Hdef). reflexivity.
Qed.

(** X1: the dict [classes] has no fixed iteration order; in whatever order
    its items are visited, the constructor returns normally and leaves the
    same attributes on the class. *)
Theorem construction_order_irrelevant order c0
    (Hperm : order ≡ₚ classes) :
  init_in order c0 = (Ok tt, snd (init_in order c0))
  /\ attrs (snd (init_in order c0)) = attrs (snd (__init__ c0)).
Proof.
  destruct (init_order_irrelevant order c0 Hperm) as [Hok Hattrs].
  split; [|exact Hattrs].
  destruct (init_in order c0) as [r c1]. simpl in Hok. subst r. reflexivity.
Qed.

(** X2: construction adds the cheat attributes and nothing else, removes
    nothing, and leaves alone every attribute that is neither a cheat name
    nor the handler name of a declared operation. *)
Theorem construction_keeps_names c0 n :
  (is_Some (attrs (snd (__init__ c0)) !! n)
   <-> is_Some (attrs c0 !! n) \/ n ∈ cheat_names)
  /\ (n ∉ cheat_names -> n ∉ map handler_name declared_ops ->
      attrs (snd (__init__ c0)) !! n = attrs c0 !! n).
Proof.
  pose proof (init_spec c0) as (_ & Hin & Hout & _).
  assert (Hsome : is_Some (attrs (snd (__init__ c0)) !! n)
                  <-> is_Some (attrs (cheated c0) !! n)).
  { destruct (decide (n ∈ map handler_name declared_ops)) as [Hn | Hn].
    - apply list_elem_of_fmap in Hn as (o & -> & Ho). rewrite (Hin o Ho).
      destruct (attrs (cheated c0) !! handler_name o); simpl.
      + split; eauto.
      + split; intros [x Hx]; discriminate.
    - rewrite (Hout n Hn). reflexivity. }
  split.
  - rewrite Hsome, cheated_lookup. case_bool_decide as Hc.
    + split; [intros _; right; exact Hc | eauto].
    + split; [intros H; left; exact H | intros [H | H]; [exact H | contradiction]].
  - intros Hc Hn. rewrite (Hout n Hn), cheated_lookup,
      (bool_decide_eq_false_2 _ Hc). reflexivity.
Qed.

Lemma api_names_NoDup : NoDup (map api_name declared_ops).
Proof. apply (bool_decide_unpack _). vm_compute. exact I. Qed.

Lemma NoDup_map_same {A B C} (f : A -> B) (g : A -> C) (l : list A) x y :
  NoDup (map f l) -> x ∈ l -> y ∈ l -> f x = f y -> g x = g y.
Proof.
  induction l as [|a l IH]; intros Hnd Hx Hy Heq; [inversion Hx|].
  change (map f (a :: l)) with (f a :: map f l) in Hnd.
  apply NoDup_cons in Hnd as [Hfresh Hnd].
  apply elem_of_cons in Hx as [-> | Hx]; apply elem_of_cons in Hy as [-> | Hy].
  - reflexivity.
  - exfalso. apply Hfresh. rewrite Heq. apply list_elem_of_fmap.
    exists y. split; [reflexivity | exact Hy].
  - exfalso. apply Hfresh. rewrite <- Heq. apply list_elem_of_fmap.
    exists x. split; [reflexivity | exact Hx].
  - apply IH; assumption.
Qed.

(** X3: the names the operations are published under are unambiguous.  After
    a construction from any class body, the handler of a declared operation
    carries the tag Class.operation of that operation, and two declared
    operations whose handlers carry the same tag are one operation with one
    handler attribute. *)
Theorem published_names_unambiguous c0 o1 o2 f1 f2
    (Ho1 : o1 ∈ declared_ops) (Ho2 : o2 ∈ declared_ops)
    (Hf1 : attrs (snd (__init__ c0)) !! handler_name o1 = Some f1)
    (Hf2 : attrs (snd (__init__ c0)) !! handler_name o2 = Some f2) :
  api_of f1 = Some (api_name o1)
  /\ (api_of f1 = api_of f2 ->
      handler_name o1 = handler_name o2 /\ f1 = f2
      /\ kind o1 = kind o2 /\ op_cls o1 = op_cls o2 /\ op_name o1 = op_name o2)
  /\ api_name o1 <> "Session.login_with_password".
Proof.
  pose proof (init_spec c0) as (_ & Hin & _).
  assert (Hapi : forall o f, o ∈ declared_ops ->
            attrs (snd (__init__ c0)) !! handler_name o = Some f ->
            api_of f = Some (api_name o)).
  { intros o f Ho Hf. rewrite (Hin o Ho) in Hf.
    destruct (attrs (cheated c0) !! handler_name o) as [f0|]; [|discriminate].
    injection Hf as <-. apply (op_wrap_guards o f0 Ho). }
  split; [apply (Hapi o1 f1 Ho1 Hf1)|]. split.
  - intros Heq. rewrite (Hapi o1 f1 Ho1 Hf1), (Hapi o2 f2 Ho2 Hf2) in Heq.
    injection Heq as Heq.
    assert (Hhn : handler_name o1 = handler_name o2)
      by (apply (NoDup_map_same api_name handler_name declared_ops o1 o2
                   api_names_NoDup Ho1 Ho2 Heq)).
    split; [exact Hhn|]. split; [rewrite Hhn in Hf1; congruence|].
    split; [|split].
    + apply (NoDup_map_same api_name kind declared_ops o1 o2
               api_names_NoDup Ho1 Ho2 Heq).
    + apply (NoDup_map_same api_name op_cls declared_ops o1 o2
               api_names_NoDup Ho1 Ho2 Heq).
    + apply (NoDup_map_same api_name op_name declared_ops o1 o2
               api_names_NoDup Ho1 Ho2 Heq).
  - intros Heq.
    assert (Hin' : "Session.login_with_password" ∈ map api_name declared_ops).
    { rewrite <- Heq. apply list_elem_of_fmap. exists o1. split; [reflexivity | exact Ho1]. }
    revert Hin'. apply (bool_decide_unpack _). vm_compute. exact I.
Qed.

Lemma def_object_innermost n :
  guards_of (def_object n) = [] /\ innermost (def_object n) = def_object n.
Proof. unfold def_object. destruct (String.eqb _ _); split; reflexivity. Qed.

(** X4: every construction wraps once more.  After [n] constructions a
    handler of the class body that a declared operation names carries [n]
    copies of the operation's guard chain around the original function; a
    cheat attribute is the same after any number of constructions as after
    the first. *)
Theorem repeated_construction n o
    (Ho : o ∈ declared_ops) :
  (handler_name o ∈ XendAPI_defs -> handler_name o ∉ cheat_names ->
   exists f,
     attrs (constructions n XendAPI_0) !! handler_name o = Some f
     /\ guards_of f = concat (repeat (codes_of (op_chain o)) n)
     /\ innermost f = def_object (handler_name o))
  /\ (handler_name o ∈ cheat_names ->
      attrs (constructions (S n) XendAPI_0) !! handler_name o
      = attrs XendAPI_1 !! handler_name o).
Proof.
  split.
  - intros Hdef Hcheat. induction n as [|n (f & Hf & Hg & Hi)].
    + exists (def_object (handler_name o)). simpl constructions.
      split; [apply (body_lookup _ Hdef)|]. apply def_object_innermost.
    + exists (op_wrap o f). simpl constructions.
      pose proof (init_spec (constructions n XendAPI_0)) as (_ & Hw & _).
      rewrite (Hw o Ho), cheated_lookup, (bool_decide_eq_false_2 _ Hcheat), Hf.
      destruct (op_wrap_guards o f Ho) as (Hg' & Hi' & _).
      split; [reflexivity|]. split; [|rewrite Hi'; exact Hi].
      rewrite Hg', Hg. reflexivity.
  - intros Hcheat. simpl constructions. unfold XendAPI_1.
    pose proof (init_spec (constructions n XendAPI_0)) as (_ & Hw & _).
    pose proof (init_spec XendAPI_0) as (_ & Hw0 & _).
    rewrite (Hw o Ho), (Hw0 o Ho), !cheated_lookup,
      (bool_decide_eq_true_2 _ Hcheat). reflexivity.
Qed.

(** X5: after construction the constructor [__init__] and
    [session_login_with_password] are the only function attributes of the
    class that are not behind the session guard; construction leaves both as
    the class body defined them, [__init__] without an [api] tag.  Every
    other function attribute is a closure of [session_required] around a
    function of the class body or a cheat lambda, and carries an [api]
    tag. *)
Theorem only_init_and_login_unguarded :
  attrs XendAPI_1 !! "__init__" = Some (Def "__init__" None)
  /\ attrs XendAPI_1 !! "session_login_with_password"
     = Some (Def "session_login_with_password"
               (Some "Session.login_with_password"))
  /\ (forall n f,
        attrs XendAPI_1 !! n = Some f ->
        n <> "__init__" ->
        n <> "session_login_with_password" ->
        head (guards_of f) = Some code_check_session
        /\ api_of f <> None
        /\ (innermost f = Def n None \/ innermost f = Lambda_obj_ref None)).
Proof.
  split; [vm_compute; reflexivity|]. split; [vm_compute; reflexivity|].
  assert (Hall : map_Forall (fun n f =>
            n = "__init__" \/ n = "session_login_with_password"
            \/ (head (guards_of f) = Some code_check_session
                /\ api_of f <> None
                /\ (innermost f = Def n None \/ innermost f = Lambda_obj_ref None)))
            (attrs XendAPI_1)).
  { apply (bool_decide_unpack _). vm_compute. exact I. }
  intros n f Hf Hinit Hlogin.
  destruct (Hall n f Hf) as [H | [H | H]]; [contradiction | contradiction | exact H].
Qed.

(** ** Guards and handlers together *)

Section GuardedHandlers.

Context {World : Type}.
Variable collab : collab_call -> World -> reply * World.

(** X6: a reference guard translates no exception and needs its two
    arguments.  If the registry raises while the reference is checked, the
    exception leaves the guard and the wrapped function is not called,
    whatever it is; an exception of the wrapped function leaves the guard
    unchanged; and a call with fewer than two arguments raises TypeError
    before the registry is asked. *)
Theorem reference_guard_exceptions hb valid query code session ref rest s
    (Hguard : (valid, query, code) ∈ reference_guards)
    (Hstr : is_str ref = true) :
  let args := session :: ref :: rest in
  let after w := {| world := w; trace := trace s ++ [query ref] |} in
  (forall e w,
     collab (query ref) (world s) = (Raises e, w) ->
     forall func, call collab hb (valid func) args s = (Exc e, after w))
  /\ (forall func v w e s',
        collab (query ref) (world s) = (Returns v, w) ->
        truthy v = true ->
        call collab hb func args (after w) = (Exc e, s') ->
        call collab hb (valid func) args s = (Exc e, s'))
  /\ (forall func,
        call collab hb (valid func) [] s = (Exc TypeError, s)
        /\ call collab hb (valid func) [session] s = (Exc TypeError, s)).
Proof.
  intros args after. subst args after. split; [|split].
  - intros e w Hq func. unfold reference_guards in Hguard.
    repeat (apply elem_of_cons in Hguard as [Hguard | Hguard];
            [inversion Hguard; subst; simpl;
             unfold check_host_ref, check_host_cpu_ref, check_vm_ref,
               check_vbd_ref, check_vif_ref, str_and;
             rewrite Hstr, !bind_eq, (ask_raises collab _ _ _ _ _ _ Hq);
             reflexivity |]).
    inversion Hguard.
  - intros func v w e s' Hq Hv Hfunc.
    rewrite (reference_guard_pass collab hb _ _ _ _ _ _ _ _ _ _
               Hguard Hstr Hq Hv). exact Hfunc.
  - intros func. unfold reference_guards in Hguard.
    repeat (apply elem_of_cons in Hguard as [Hguard | Hguard];
            [inversion Hguard; subst; split; reflexivity |]).
    inversion Hguard.
Qed.

(** A handler of the class body inside a reference guard whose check
    passes. *)
Lemma guarded_handler_pass valid query code name api h session ref rest s v w :
  (valid, query, code) ∈ reference_guards ->
  method_named (XendAPI_methods collab) name = Some h ->
  is_str ref = true ->
  collab (query ref) (world s) = (Returns v, w) ->
  truthy v = true ->
  call collab (method_body collab) (valid (Def name api)) (session :: ref :: rest) s
  = h (session :: ref :: rest) {| world := w; trace := trace s ++ [query ref] |}.
Proof.
  intros Hg Hh Hstr Hq Hv.
  rewrite (reference_guard_pass collab _ _ _ _ _ _ _ _ _ _ _ Hg Hstr Hq Hv).
  apply (call_def collab _ _ _ _ _ Hh).
Qed.

End GuardedHandlers.

Ltac class_cases H :=
  unfold classes in H;
  repeat (apply elem_of_cons in H as [H | H];
          [inversion H; subst; clear H |]);
  [ .. | inversion H].

Ltac name_cases H :=
  vm_compute in H;
  repeat (apply elem_of_cons in H as [-> | H]);
  [ .. | inversion H].

Ltac absent_def H :=
  exfalso; revert H; apply (bool_decide_unpack _); vm_compute; exact I.

Ltac run_guarded collab guard h Hstr Hq Hv :=
  match goal with
  | |- context [call collab _ (_ (Def ?n ?a)) (?session :: ?ref :: ?rest) ?s] =>
      let Hh := fresh "Hh" in
      assert (Hh : method_named (XendAPI_methods collab) n = Some h)
        by reflexivity;
      rewrite (guarded_handler_pass collab _ _ _ n a h session ref rest s _ _
                 guard Hh Hstr Hq Hv);
      clear Hh
  end.

Lemma host_guard :
  (valid_host, fun ref => Collab "XendNode" "is_valid_host" [ref],
   XEND_ERROR_HOST_INVALID) ∈ reference_guards.
Proof. unfold reference_guards. rewrite !elem_of_cons. eauto 10. Qed.

Lemma vm_guard :
  (valid_vm, fun ref => Collab "XendDomain" "is_valid_vm" [ref],
   XEND_ERROR_VM_INVALID) ∈ reference_guards.
Proof. unfold reference_guards. rewrite !elem_of_cons. eauto 10. Qed.

Lemma vbd_guard :
  (valid_vbd, fun ref => Collab "XendDomain" "is_valid_dev" [PStr "vbd"; ref],
   XEND_ERROR_VBD_INVALID) ∈ reference_guards.
Proof. unfold reference_guards. rewrite !elem_of_cons. eauto 10. Qed.

(** X7: no setter takes a value.  For every declared writable attribute
    whose setter the class body defines (two of Host, 27 of VM), the
    operation installed is the setter inside the class's reference guard
    inside the session guard, and a call that carries a value, i.e.
    (session, reference, value), raises TypeError once the reference check
    has passed: the setter has no parameter for the value. *)
Theorem setters_take_no_value cls validators attr_name
    (Hcls : (cls, validators) ∈ classes)
    (Hname : attr_name ∈ declared_names cls Setter)
    (Hdef : handler_name (Op cls validators Setter attr_name) ∈ XendAPI_defs) :
  let o := Op cls validators Setter attr_name in
  exists valid query code,
    (valid, query, code) ∈ reference_guards
    /\ attrs XendAPI_1 !! handler_name o
       = Some (Closure code_check_session (valid (Def (handler_name o) None))
                 (Some (api_name o)))
    /\ forall World (collab : collab_call -> World -> reply * World)
              session ref value s v w,
         is_str ref = true ->
         collab (query ref) (world s) = (Returns v, w) ->
         truthy v = true ->
         call collab (method_body collab) (valid (Def (handler_name o) None))
           [session; ref; value] s
         = (Exc TypeError, {| world := w; trace := trace s ++ [query ref] |}).
Proof.
  intros o. unfold o. class_cases Hcls; name_cases Hname;
    try (absent_def Hdef).
  all: first
    [ exists valid_host, (fun ref => Collab "XendNode" "is_valid_host" [ref]),
        XEND_ERROR_HOST_INVALID;
      split; [exact host_guard|]; split; [vm_compute; reflexivity|];
      intros World collab session ref value s v w Hstr Hq Hv;
      first [ run_guarded collab host_guard (host_get_name_label collab) Hstr Hq Hv
            | run_guarded collab host_guard (host_get_name_description collab)
                Hstr Hq Hv ];
      reflexivity
    | exists valid_vm, (fun ref => Collab "XendDomain" "is_valid_vm" [ref]),
        XEND_ERROR_VM_INVALID;
      split; [exact vm_guard|]; split; [vm_compute; reflexivity|];
      intros World collab session ref value s v w Hstr Hq Hv;
      run_guarded collab vm_guard (vm_setter collab) Hstr Hq Hv;
      reflexivity ].
Qed.

(** ** Concrete runs of the further properties *)

Lemma construction_order_irrelevant_witness :
  attrs (snd (init_in (rev classes) XendAPI_0)) = attrs XendAPI_1.
Proof.
  destruct (construction_order_irrelevant (rev classes) XendAPI_0) as [_ H].
  - symmetry. apply Permutation_rev.
  - exact H.
Defined.

Lemma published_names_unambiguous_witness :
  api_of (Closure code_check_session
            (Closure code_check_vm_ref (Def "vm_pause" None) None)
            (Some "VM.pause"))
  = Some "VM.pause".
Proof.
  assert (Hvm : ("VM", [valid_vm; session_required]) ∈ classes).
  { unfold classes. do 3 apply list_elem_of_further. apply list_elem_of_here. }
  assert (Ho : Op "VM" [valid_vm; session_required] Method "pause" ∈ declared_ops).
  { apply (op_declared _ _ _ _ Hvm).
    do 2 apply list_elem_of_further. apply list_elem_of_here. }
  destruct (published_names_unambiguous XendAPI_0
              (Op "VM" [valid_vm; session_required] Method "pause")
              (Op "VM" [valid_vm; session_required] Method "pause")
              (Closure code_check_session
                 (Closure code_check_vm_ref (Def "vm_pause" None) None)
                 (Some "VM.pause"))
              (Closure code_check_session
                 (Closure code_check_vm_ref (Def "vm_pause" None) None)
                 (Some "VM.pause"))
              Ho Ho) as [H _].
  - vm_compute. reflexivity.
  - vm_compute. reflexivity.
  - exact H.
Defined.

Lemma repeated_construction_witness :
  exists f,
    attrs (constructions 3 XendAPI_0) !! "vm_pause" = Some f
    /\ guards_of f = [code_check_session; code_check_vm_ref;
                      code_check_session; code_check_vm_ref;
                      code_check_session; code_check_vm_ref].
Proof.
  assert (Hvm : ("VM", [valid_vm; session_required]) ∈ classes).
  { unfold classes. do 3 apply list_elem_of_further. apply list_elem_of_here. }
  assert (Ho : Op "VM" [valid_vm; session_required] Method "pause" ∈ declared_ops).
  { apply (op_declared _ _ _ _ Hvm).
    do 2 apply list_elem_of_further. apply list_elem_of_here. }
  destruct (repeated_construction 3 _ Ho) as [H _].
  destruct H as (f & Hf & Hg & _).
  - apply (bool_decide_unpack _). vm_compute. exact I.
  - apply (bool_decide_unpack _). vm_compute. exact I.
  - exists f. split; [exact Hf | exact Hg].
Defined.

Lemma only_init_and_login_unguarded_witness :
  head (guards_of (Closure code_check_session (Def "host_get_all" None)
                     (Some "Host.get_all")))
  = Some code_check_session.
Proof.
  destruct only_init_and_login_unguarded as (_ & _ & H).
  destruct (H "host_get_all"
              (Closure code_check_session (Def "host_get_all" None)
                 (Some "Host.get_all"))) as [Hg _].
  - vm_compute. reflexivity.
  - discriminate.
  - discriminate.
  - exact Hg.
Defined.

Lemma reference_guard_exceptions_witness :
  call (stub registry_down) no_handler_body
    (valid_host (Def "host_get_name_label" None)) [PStr "tok"; PStr "h"] start
  = (Exc (OtherException "IOError"),
     {| world := tt; trace := [Collab "XendNode" "is_valid_host" [PStr "h"]] |}).
Proof.
  destruct (reference_guard_exceptions (stub registry_down) no_handler_body
              valid_host (fun ref => Collab "XendNode" "is_valid_host" [ref])
              XEND_ERROR_HOST_INVALID (PStr "tok") (PStr "h") [] start)
    as [H _].
  - unfold reference_guards. apply list_elem_of_here.
  - reflexivity.
  - apply (H (OtherException "IOError") tt eq_refl).
Defined.

Lemma setters_take_no_value_witness :
  call (stub accept_all) (method_body (stub accept_all))
    (valid_vm (Def "vm_set_name_label" None))
    [PStr "tok"; PStr "vm-1"; PStr "web"] start
  = (Exc TypeError,
     {| world := tt; trace := [Collab "XendDomain" "is_valid_vm" [PStr "vm-1"]] |}).
Proof.
  destruct (setters_take_no_value "VM" [valid_vm; session_required] "name_label")
    as (valid & query & code & Hg & Hattr & Hcall).
  - unfold classes. do 3 apply list_elem_of_further. apply list_elem_of_here.
  - apply list_elem_of_here.
  - apply (bool_decide_unpack _). vm_compute. exact I.
  - vm_compute in Hattr. injection Hattr as Hattr.
    unfold reference_guards in Hg.
    repeat (apply elem_of_cons in Hg as [Hg | Hg];
            [inversion Hg; subst; try discriminate Hattr |]);
      [ | inversion Hg].
    apply (Hcall unit (stub accept_all) (PStr "tok") (PStr "vm-1") (PStr "web")
             start (PBool true) tt); reflexivity.
Defined.

(** ** Host and VM operations behind their reference guard *)

(** X8: [Host.reboot] and [Host.shutdown] never succeed and never touch the
    host.  Once the host reference has been accepted the handler asks
    [allow_new_domains] and answers an error envelope: HOST_RUNNING when the
    answer is false, UNSUPPORTED otherwise.  Whatever the collaborators
    answer, a returned envelope has status "Error", and the only collaborator
    calls are the guard's check and [allow_new_domains]. *)
Theorem host_reboot_never_succeeds {World : Type}
    (collab : collab_call -> World -> reply * World)
    name session host_ref rest s v w
    (Hname : name = "host_reboot" \/ name = "host_shutdown")
    (Hstr : is_str host_ref = true)
    (Hq : collab (Collab "XendNode" "is_valid_host" [host_ref]) (world s)
          = (Returns v, w))
    (Hv : truthy v = true) :
  let out := call collab (method_body collab) (valid_host (Def name None))
               (session :: host_ref :: rest) s in
  let check := Collab "XendNode" "is_valid_host" [host_ref] in
  let q := Collab "XendDomain" "allow_new_domains" [] in
  (rest = [] -> forall a w',
     collab q w = (Returns a, w') ->
     out = (Ok (xen_api_error
                  (PConst (if truthy a then XEND_ERROR_UNSUPPORTED
                           else XEND_ERROR_HOST_RUNNING))),
            {| world := w'; trace := trace s ++ [check; q] |}))
  /\ (forall r, fst out = Ok r -> field r "Status" = Some (PStr "Error"))
  /\ (exists extra, trace (snd out) = trace s ++ check :: extra
                    /\ (extra = [] \/ extra = [q])).
Proof.
  intros out check q. subst out.
  assert (Hrun : call collab (method_body collab) (valid_host (Def name None))
                   (session :: host_ref :: rest) s
                 = host_reboot collab (session :: host_ref :: rest)
                     {| world := w; trace := trace s ++ [check] |}).
  { destruct Hname as [-> | ->];
      run_guarded collab host_guard (host_reboot collab) Hstr Hq Hv;
      reflexivity. }
  rewrite Hrun. unfold host_reboot, def2.
  destruct rest as [|x rest].
  - rewrite bind_eq. unfold ask. simpl world. simpl trace. fold q.
    destruct (collab q w) as [[a | e] w1] eqn:Hcq.
    + unfold ret. split; [|split].
      * intros _ a' w' [= <- <-]. rewrite <- app_assoc.
        destruct (truthy a); reflexivity.
      * intros r. destruct (truthy a); simpl; intros [= <-]; reflexivity.
      * exists [q]. split; [|right; reflexivity].
        destruct (truthy a); simpl; rewrite <- app_assoc; reflexivity.
    + split; [|split].
      * intros _ a' w' Habs. discriminate Habs.
      * intros r Hr. discriminate Hr.
      * exists [q]. split; [|right; reflexivity].
        simpl. rewrite <- app_assoc. reflexivity.
  - split; [|split].
    + intros Habs. discriminate Habs.
    + intros r Hr. discriminate Hr.
    + exists []. split; [reflexivity | left; reflexivity].
Qed.

Lemma host_reboot_never_succeeds_witness :
  call (stub accept_all) (method_body (stub accept_all))
    (valid_host (Def "host_reboot" None)) [PStr "tok"; PStr "h"] start
  = (Ok (xen_api_error (PConst XEND_ERROR_UNSUPPORTED)),
     {| world := tt;
        trace := [Collab "XendNode" "is_valid_host" [PStr "h"];
                  Collab "XendDomain" "allow_new_domains" []] |}).
Proof.
  destruct (host_reboot_never_succeeds (stub accept_all) "host_reboot"
              (PStr "tok") (PStr "h") [] start (PBool true) tt)
    as [H _].
  - left. reflexivity.
  - reflexivity.
  - reflexivity.
  - reflexivity.
  - apply (H eq_refl (PBool true) tt eq_refl).
Defined.

(** X9: the VM methods built on [do_vm_func] (destroy, hard_shutdown, pause,
    start, suspend, unpause) make one call of [do_legacy_api_with_uuid] with
    their domain function and the reference, wrap its result in a success
    envelope, and let its exception through.  [vm_resume] does the same with
    domain_resume: its answer does not depend on [start_paused], yet a call
    without that argument raises TypeError. *)
Theorem vm_lifecycle_calls {World : Type}
    (collab : collab_call -> World -> reply * World)
    name fn_name session vm_ref s v w
    (Hname : (name, fn_name) ∈ vm_lifecycle)
    (Hstr : is_str vm_ref = true)
    (Hq : collab (Collab "XendDomain" "is_valid_vm" [vm_ref]) (world s)
          = (Returns v, w))
    (Hv : truthy v = true) :
  let check := Collab "XendDomain" "is_valid_vm" [vm_ref] in
  let legacy fn :=
    Collab "XendDomain" "do_legacy_api_with_uuid" [PStr fn; vm_ref] in
  let answer fn :=
    match collab (legacy fn) w with
    | (Returns r, w') =>
        (Ok (xen_api_success r),
         {| world := w'; trace := trace s ++ [check; legacy fn] |})
    | (Raises e, w') =>
        (Exc e, {| world := w'; trace := trace s ++ [check; legacy fn] |})
    end in
  call collab (method_body collab) (valid_vm (Def name None))
    [session; vm_ref] s
  = answer fn_name
  /\ (forall start_paused,
        call collab (method_body collab) (valid_vm (Def "vm_resume" None))
          [session; vm_ref; start_paused] s
        = answer "domain_resume")
  /\ call collab (method_body collab) (valid_vm (Def "vm_resume" None))
       [session; vm_ref] s
     = (Exc TypeError, {| world := w; trace := trace s ++ [check] |}).
Proof.
  intros check legacy answer.
  assert (Hdo : forall fn,
            do_vm_func collab fn vm_ref []
              {| world := w; trace := trace s ++ [check] |}
            = answer fn).
  { intros fn. unfold do_vm_func, answer. rewrite bind_eq. unfold ask.
    simpl world. simpl trace. fold (legacy fn).
    destruct (collab (legacy fn) w) as [[r | e] w']; rewrite <- app_assoc;
      reflexivity. }
  split; [|split].
  - unfold vm_lifecycle in Hname.
    repeat (apply elem_of_cons in Hname as [Hname | Hname];
            [inversion Hname; subst; clear Hname;
             match goal with
             | |- _ = answer ?fn =>
                 run_guarded collab vm_guard (vm_do_vm_func collab fn) Hstr Hq Hv
             end;
             apply Hdo |]).
    inversion Hname.
  - intros start_paused.
    run_guarded collab vm_guard (vm_resume collab) Hstr Hq Hv. apply Hdo.
  - run_guarded collab vm_guard (vm_resume collab) Hstr Hq Hv. reflexivity.
Qed.

Lemma vm_lifecycle_calls_witness :
  call (stub accept_all) (method_body (stub accept_all))
    (valid_vm (Def "vm_pause" None)) [PStr "tok"; PStr "vm-1"] start
  = (Ok (xen_api_success (PBool true)),
     {| world := tt;
        trace := [Collab "XendDomain" "is_valid_vm" [PStr "vm-1"];
                  Collab "XendDomain" "do_legacy_api_with_uuid"
                    [PStr "domain_pause"; PStr "vm-1"]] |}).
Proof.
  destruct (vm_lifecycle_calls (stub accept_all) "vm_pause" "domain_pause"
              (PStr "tok") (PStr "vm-1") start (PBool true) tt)
    as [H _].
  - unfold vm_lifecycle. do 2 apply list_elem_of_further. apply list_elem_of_here.
  - reflexivity.
  - reflexivity.
  - reflexivity.
  - exact H.
Defined.

(** X10: a domain that vanishes between the guard's check and the handler's
    lookup.  When [is_valid_vm] accepts the reference but [get_vm_by_uuid]
    then finds no domain, [vm_get_record] answers the VM_INVALID error
    envelope, the getters and clean shutdowns that use the domain raise
    AttributeError, and every setter still reports success. *)
Theorem vanished_domain {World : Type}
    (collab : collab_call -> World -> reply * World)
    session vm_ref s v w dom w'
    (Hstr : is_str vm_ref = true)
    (Hq : collab (Collab "XendDomain" "is_valid_vm" [vm_ref]) (world s)
          = (Returns v, w))
    (Hv : truthy v = true)
    (Hlookup : collab (Collab "XendDomain" "get_vm_by_uuid" [vm_ref]) w
               = (Returns dom, w'))
    (Hgone : truthy dom = false) :
  let after :=
    {| world := w';
       trace := trace s ++ [Collab "XendDomain" "is_valid_vm" [vm_ref];
                            Collab "XendDomain" "get_vm_by_uuid" [vm_ref]] |} in
  let run name :=
    call collab (method_body collab) (valid_vm (Def name None))
      [session; vm_ref] s in
  run "vm_get_record" = (Ok (xen_api_error (PConst XEND_ERROR_VM_INVALID)), after)
  /\ (forall name, name ∈ vm_domain_readers ->
        run name = (Exc AttributeError, after))
  /\ (forall attr_name, attr_name ∈ VM_attr_rw ->
        run ("vm_set_" +:+ lower attr_name) = (Ok xen_api_success_void, after)).
Proof.
  intros after run. subst run. cbv beta.
  assert (Hask : ask collab "XendDomain" "get_vm_by_uuid" [vm_ref]
                   {| world := w;
                      trace := trace s ++ [Collab "XendDomain" "is_valid_vm" [vm_ref]] |}
                 = (Ok dom, after)).
  { unfold ask. simpl world. simpl trace. rewrite Hlookup, <- app_assoc.
    reflexivity. }
  split; [|split].
  - run_guarded collab vm_guard (vm_get_record collab) Hstr Hq Hv.
    unfold vm_get_record, def2. rewrite bind_eq, Hask, Hgone. reflexivity.
  - intros name Hname. unfold vm_domain_readers in Hname.
    repeat (apply elem_of_cons in Hname as [-> | Hname]);
      [ .. | inversion Hname].
    all: first
      [ run_guarded collab vm_guard (vm_dom_getter collab "state") Hstr Hq Hv
      | run_guarded collab vm_guard
          (vm_dom_getter collab "get_memory_static_max") Hstr Hq Hv
      | run_guarded collab vm_guard
          (vm_dom_getter collab "get_memory_static_min") Hstr Hq Hv
      | run_guarded collab vm_guard (vm_dom_getter collab "getVCpuCount")
          Hstr Hq Hv
      | run_guarded collab vm_guard (vm_dom_getter collab "get_vcpus_util")
          Hstr Hq Hv
      | run_guarded collab vm_guard (vm_dom_getter collab "get_vifs") Hstr Hq Hv
      | run_guarded collab vm_guard (vm_dom_getter collab "get_vbds") Hstr Hq Hv
      | run_guarded collab vm_guard (vm_dom_getter collab "getName") Hstr Hq Hv
      | run_guarded collab vm_guard (vm_clean collab "reboot") Hstr Hq Hv
      | run_guarded collab vm_guard (vm_clean collab "poweroff") Hstr Hq Hv ];
      unfold vm_dom_getter, vm_clean, def2;
      rewrite bind_eq, Hask, bind_eq; unfold obj_call; rewrite Hgone;
      reflexivity.
  - intros attr_name Hname. unfold VM_attr_rw in Hname.
    repeat (apply elem_of_cons in Hname as [-> | Hname]);
      [ .. | inversion Hname].
    all: run_guarded collab vm_guard (vm_setter collab) Hstr Hq Hv;
      unfold vm_setter, def2; rewrite bind_eq, Hask; reflexivity.
Qed.

(** The domain registry accepts every reference and finds no domain. *)
Lemma vanished_domain_witness :
  call (stub domain_gone) (method_body (stub domain_gone))
    (valid_vm (Def "vm_get_name_label" None)) [PStr "tok"; PStr "vm-1"] start
  = (Exc AttributeError,
     {| world := tt;
        trace := [Collab "XendDomain" "is_valid_vm" [PStr "vm-1"];
                  Collab "XendDomain" "get_vm_by_uuid" [PStr "vm-1"]] |}).
Proof.
  destruct (vanished_domain (stub domain_gone) (PStr "tok") (PStr "vm-1") start
              (PBool true) tt PNone tt) as (_ & H & _).
  - reflexivity.
  - reflexivity.
  - reflexivity.
  - reflexivity.
  - reflexivity.
  - apply (H "vm_get_name_label").
    unfold vm_domain_readers. do 7 apply list_elem_of_further.
    apply list_elem_of_here.
Defined.

(** ** The device constructors *)

(** X11: [vbd_create] and [vif_create].  A struct without the key 'VM'
    raises KeyError and a struct that is a string or None raises TypeError,
    both before any collaborator is asked; a VM the registry does not accept
    gives the DOMAIN_INVALID error and nothing is created.  For an accepted
    VM the domain is looked up: an exception of the lookup is let through,
    and when the lookup finds no domain AttributeError is raised, in both
    cases with no create call made; when it finds a domain, the domain's
    create method is called once: a reference it returns is wrapped in a
    success envelope, a [XendError] it raises becomes the TODO error, and any
    other exception is let through. *)
Theorem device_create_cases {World : Type}
    (collab : collab_call -> World -> reply * World)
    name create session dev_struct s
    (Hname : (name, create) ∈ dev_creators) :
  let run := call collab (method_body collab) (Def name None)
               [session; dev_struct] s in
  (forall items, dev_struct = PDict items -> dict_get items "VM" = None ->
     run = (Exc (OtherException "KeyError"), s))
  /\ (is_str dev_struct = true \/ dev_struct = PNone -> run = (Exc TypeError, s))
  /\ (forall items vm v w,
        dev_struct = PDict items -> dict_get items "VM" = Some vm ->
        collab (Collab "XendDomain" "is_valid_vm" [vm]) (world s) = (Returns v, w) ->
        let check := Collab "XendDomain" "is_valid_vm" [vm] in
        let lookup := Collab "XendDomain" "get_vm_by_uuid" [vm] in
        (truthy v = false ->
         run = (Ok (xen_api_error (PConst XEND_ERROR_DOMAIN_INVALID)),
                {| world := w; trace := trace s ++ [check] |}))
        /\ (forall e w1,
              truthy v = true ->
              collab lookup w = (Raises e, w1) ->
              run = (Exc e,
                     {| world := w1; trace := trace s ++ [check; lookup] |}))
        /\ (forall dom w1,
              truthy v = true ->
              collab lookup w = (Returns dom, w1) ->
              truthy dom = false ->
              run = (Exc AttributeError,
                     {| world := w1; trace := trace s ++ [check; lookup] |}))
        /\ (forall dom w1,
              truthy v = true ->
              collab lookup w = (Returns dom, w1) ->
              truthy dom = true ->
              let make := Collab "XendDomainInfo" create [dom; dev_struct] in
              let after w2 :=
                {| world := w2; trace := trace s ++ [check; lookup; make] |} in
              run = match collab make w1 with
                    | (Returns dev_ref, w2) =>
                        (Ok (xen_api_success dev_ref), after w2)
                    | (Raises (XendError msg), w2) =>
                        (Ok (xen_api_error (PConst XEND_ERROR_TODO)), after w2)
                    | (Raises e, w2) => (Exc e, after w2)
                    end)).
Proof.
  intros run. subst run.
  assert (Hrun : call collab (method_body collab) (Def name None)
                   [session; dev_struct] s
                 = dev_create collab create [session; dev_struct] s).
  { unfold dev_creators in Hname.
    repeat (apply elem_of_cons in Hname as [Hname | Hname];
            [inversion Hname; subst; clear Hname;
             apply (call_def collab); reflexivity |]).
    inversion Hname. }
  rewrite Hrun. unfold dev_create, def2. split; [|split].
  - intros items -> Hnone. rewrite bind_eq. unfold subscript. rewrite Hnone.
    reflexivity.
  - intros [Hs | ->]; [|reflexivity].
    destruct dev_struct; try discriminate Hs. reflexivity.
  - intros items vm v w -> Hvm Hq.
    split; [|split; [|split]];
      [ intros Hv | intros e w1 Hv Hlook | intros dom w1 Hv Hlook Hdom
      | intros dom w1 Hv Hlook Hdom ];
      rewrite bind_eq; unfold subscript at 1; rewrite Hvm; unfold ret at 1;
      rewrite bind_eq; unfold ask at 1; rewrite Hq; cbv beta iota zeta;
      rewrite Hv;
      try (rewrite bind_eq; unfold subscript; rewrite Hvm; unfold ret at 1;
           rewrite bind_eq; unfold ask at 1; simpl world; simpl trace;
           rewrite Hlook; cbv beta iota zeta).
    + reflexivity.
    + rewrite <- app_assoc. reflexivity.
    + unfold try_except. rewrite bind_eq. unfold obj_call. rewrite Hdom.
      unfold raise. simpl. rewrite <- app_assoc. reflexivity.
    +
      unfold try_except. rewrite bind_eq. unfold obj_call. rewrite Hdom.
      unfold ask. simpl world. simpl trace.
      destruct (collab (Collab "XendDomainInfo" create [dom; PDict items]) w1)
        as [[dev_ref | e] w2];
        [| destruct e]; simpl; rewrite <- !app_assoc; reflexivity.
Qed.

(** A struct without 'VM'; and an accepted VM whose domain is gone. *)
Lemma device_create_cases_witness :
  call (stub deny_all) (method_body (stub deny_all)) (Def "vif_create" None)
    [PStr "tok"; PDict [("device", PStr "eth0")]] start
  = (Exc (OtherException "KeyError"), start)
  /\ call (stub domain_gone) (method_body (stub domain_gone))
       (Def "vbd_create" None) [PStr "tok"; PDict [("VM", PStr "vm-1")]] start
     = (Exc AttributeError,
        {| world := tt;
           trace := [Collab "XendDomain" "is_valid_vm" [PStr "vm-1"];
                     Collab "XendDomain" "get_vm_by_uuid" [PStr "vm-1"]] |}).
Proof.
  split.
  - destruct (device_create_cases (stub deny_all) "vif_create" "create_vif"
                (PStr "tok") (PDict [("device", PStr "eth0")]) start) as [H _].
    + unfold dev_creators. apply list_elem_of_further, list_elem_of_here.
    + apply (H [("device", PStr "eth0")] eq_refl eq_refl).
  - destruct (device_create_cases (stub domain_gone) "vbd_create" "create_vbd"
                (PStr "tok") (PDict [("VM", PStr "vm-1")]) start)
      as (_ & _ & H).
    + unfold dev_creators. apply list_elem_of_here.
    + destruct (H [("VM", PStr "vm-1")] (PStr "vm-1") (PBool true) tt
                  eq_refl eq_refl eq_refl) as (_ & _ & Hgone & _).
      apply (Hgone PNone tt); reflexivity.
Defined.

(** ** What any call answers and asks *)

Section Answers.

Context {World : Type}.
Variable collab : collab_call -> World -> reply * World.

Lemma answers_ret {A} (Q : A -> Prop) (a : A) :
  Q a -> answers Q (ret a : @M World A).
Proof. intros H s r s' Hr. inversion Hr; subst. exact H. Qed.

Lemma answers_raise {A} (Q : A -> Prop) (e : exn) :
  answers Q (raise e : @M World A).
Proof. intros s r s' Hr. discriminate Hr. Qed.

Lemma answers_bind {A B} (Q : B -> Prop) (m : @M World A) (k : A -> @M World B) :
  (forall a, answers Q (k a)) -> answers Q (bind m k).
Proof.
  intros Hk s r s'. rewrite bind_eq.
  destruct (m s) as [[a | e] s1]; [apply Hk | discriminate].
Qed.

Lemma answers_try_except {A} (Q : A -> Prop) (body : @M World A) catches handler :
  answers Q body -> (forall e, answers Q (handler e)) ->
  answers Q (try_except body catches handler).
Proof.
  intros Hb Hh s r s'. unfold try_except.
  destruct (body s) as [[a | e] s1] eqn:Hbody.
  - intros Hr. inversion Hr; subst. apply (Hb _ _ _ Hbody).
  - destruct (catches e); [apply Hh | discriminate].
Qed.

Lemma answers_if {A} (Q : A -> Prop) (b : bool) (m1 m2 : @M World A) :
  answers Q m1 -> answers Q m2 -> answers Q (if b then m1 else m2).
Proof. destruct b; tauto. Qed.

Lemma is_answer_success v : is_answer (xen_api_success v).
Proof. left. exists v. reflexivity. Qed.

Lemma is_answer_error code : is_answer (xen_api_error (PConst code)).
Proof. right. exists code. reflexivity. Qed.

Ltac answers_step :=
  first
    [ apply answers_raise
    | apply answers_ret; first [apply is_answer_success | apply is_answer_error]
    | apply answers_bind; intros
    | apply answers_try_except; [|intros]
    | apply answers_if ].

Ltac answers_handler :=
  intros args;
  unfold def1, def2, def3;
  destruct args as [|? [|? [|? [|? ?]]]];
  repeat answers_step.

(** Every method of the class body returns an envelope of lines 29-38. *)
Lemma methods_answer :
  Forall (fun nh => forall args, answers is_answer (snd nh args))
    (XendAPI_methods collab).
Proof.
  unfold XendAPI_methods.
  repeat (apply Forall_cons; split;
          [ simpl snd;
            unfold session_login_with_password, session_logout, session_destroy,
              session_get_record, session_to_xml, session_get_this_host,
              session_get_this_user, host_get_name_label,
              host_get_name_description, host_get_software_version,
              host_get_resident_vms, host_get_host_cpus, unsupported2, todo2,
              host_disable, host_enable, host_reboot, host_get_record,
              host_get_all, host_cpu_get_uuid, host_cpu_get_host,
              host_cpu_get_features, host_cpu_get_utilisation,
              host_cpu_get_number, host_cpu_get_record, host_cpu_get_all,
              vm_dom_getter, vm_get_resident_on, vm_todo_getter,
              vm_empty_getter, vm_setter, vm_get_all, vm_get_by_label,
              vm_create, vm_get_record, vm_clean, vm_do_vm_func, vm_resume,
              vbd_get_field, dev_create, attr, do_vm_func;
            answers_handler
          | ]).
  apply Forall_nil. exact I.
Qed.

Lemma method_answers name h args :
  method_named (XendAPI_methods collab) name = Some h ->
  answers is_answer (h args).
Proof.
  intros H. apply method_named_elem in H.
  pose proof methods_answer as Hall. rewrite Forall_forall in Hall.
  apply (Hall (name, h)). exact H.
Qed.

(** Every [def] of the class body other than [__init__] has its body in
    [XendAPI_methods]. *)
Lemma handler_has_body name :
  name ∈ XendAPI_defs -> name <> "__init__" ->
  exists h, method_named (XendAPI_methods collab) name = Some h.
Proof.
  intros Hin. unfold XendAPI_defs in Hin.
  repeat (apply elem_of_cons in Hin as [-> | Hin];
          [intros Hinit; first [contradiction | eexists; reflexivity] |]).
  inversion Hin.
Qed.

(** A guard closure returns what the function inside returns, or its own
    Failure envelope. *)
Lemma closure_answers code func args (Q : pyval -> Prop) :
  (forall args', answers Q (func args')) ->
  Q (failure (guard_code code)) ->
  answers Q (closure_body collab code func args).
Proof.
  intros Hf Hq.
  destruct code; simpl;
    unfold check_host_ref, check_host_cpu_ref, check_vm_ref, check_vbd_ref,
      check_vif_ref, check_session;
    destruct args as [|session [|ref rest]];
    try apply answers_raise;
    apply answers_bind; intros ok; apply answers_if;
    first [apply Hf | apply answers_ret; exact Hq].
Qed.















End Answers.

(** X12: whatever function of the class is called (a method of the class
    body other than [__init__], a cheat lambda, or either inside any stack of
    guards), with whatever arguments and collaborators, a value it returns is
    a response envelope: a Success envelope, an Error envelope carrying an
    error constant, or the Failure envelope of one of the guards around it.
    In particular a function without guards never answers Failure. *)
Theorem answers_are_envelopes {World : Type}
    (collab : collab_call -> World -> reply * World) f args s r s'
    (Hf : is_handler f)
    (Hrun : call collab (method_body collab) f args s = (Ok r, s')) :
  (exists v, r = xen_api_success v)
  \/ (exists code, r = xen_api_error (PConst code))
  \/ (exists c, c ∈ guards_of f /\ r = failure (guard_code c)).
Proof.
  assert (Hall : forall f, is_handler f -> forall args,
            answers (fun r => is_answer r
                              \/ exists c, c ∈ guards_of f
                                           /\ r = failure (guard_code c))
              (call collab (method_body collab) f args)).
  { clear. intros f. induction f as [name api | api | code func IH api];
      intros Hf args.
    - intros s r s' Hr. left.
      destruct Hf as [Hdef Hinit].
      destruct (handler_has_body collab name Hdef Hinit) as [h Hh].
      rewrite (call_def collab _ _ _ _ _ Hh) in Hr.
      apply (method_answers collab _ _ _ Hh _ _ _ Hr).
    - intros s r s' Hr. left. simpl in Hr. unfold lambda_obj_ref in Hr.
      destruct args as [|? [|? [|? ?]]]; try discriminate Hr.
      inversion Hr; subst. apply is_answer_success.
    - simpl call. apply closure_answers.
      + intros args' s r s' Hr.
        destruct (IH Hf args' s r s' Hr) as [Ha | (c & Hc & ->)];
          [left; exact Ha | right].
        exists c. split; [|reflexivity]. simpl. apply list_elem_of_further, Hc.
      + right. exists code. split; [|reflexivity]. simpl.
        apply list_elem_of_here. }
  destruct (Hall f Hf args s r s' Hrun) as [[Hs | He] | Hg]; auto.
Qed.

Lemma answers_are_envelopes_witness :
  (exists v, failure XEND_ERROR_VM_INVALID = xen_api_success v)
  \/ (exists code, failure XEND_ERROR_VM_INVALID = xen_api_error (PConst code))
  \/ (exists c, c ∈ guards_of (valid_vm (Def "vm_get_name_label" None))
                /\ failure XEND_ERROR_VM_INVALID = failure (guard_code c)).
Proof.
  apply (answers_are_envelopes (stub deny_all)
           (valid_vm (Def "vm_get_name_label" None))
           [PStr "tok"; PStr "vm-1"] start (failure XEND_ERROR_VM_INVALID)
           {| world := tt;
              trace := [Collab "XendDomain" "is_valid_vm" [PStr "vm-1"]] |}).
  - split; [|discriminate]. apply (bool_decide_unpack _). vm_compute. exact I.
  - reflexivity.
Defined.



(** ** Listing the domains *)

Section Listing.

Context {World : Type}.
Variable collab : collab_call -> World -> reply * World.

(** The comprehension of line 831: one [get_uuid] per element, in order. *)
Lemma for_each_get_uuid ds : forall s refs s',
  for_each (fun d => obj_call collab d "get_uuid" []) ds s = (Ok refs, s') ->
  Forall2 (fun d ref =>
             truthy d = true
             /\ exists w1 w2, collab (get_uuid_call d) w1 = (Returns ref, w2))
    ds refs
  /\ trace s' = trace s ++ map get_uuid_call ds.
Proof.
  induction ds as [|d ds IH]; intros s refs s'; simpl for_each.
  - intros Hr. inversion Hr; subst. split; [constructor|].
    simpl. rewrite app_nil_r. reflexivity.
  - rewrite bind_eq. unfold obj_call at 1.
    destruct (truthy d) eqn:Hd; [|intros Hr; discriminate Hr].
    unfold ask at 1. fold (get_uuid_call d).
    destruct (collab (get_uuid_call d) (world s)) as [[v | e] w'] eqn:Hc;
      [|intros Hr; discriminate Hr].
    rewrite bind_eq.
    destruct (for_each (fun d0 => obj_call collab d0 "get_uuid" []) ds
                {| world := w'; trace := trace s ++ [get_uuid_call d] |})
      as [[xs | e] s2] eqn:Hrest; [|intros Hr; discriminate Hr].
    intros Hr. inversion Hr; subst.
    apply IH in Hrest as [HF Ht]. split.
    + constructor; [|exact HF]. split; [exact Hd|]. eauto.
    + rewrite Ht. simpl. rewrite <- app_assoc. reflexivity.
Qed.

End Listing.

(** X14: [vm_get_all] asks for the list of domains and then asks each
    element once, in order, for its uuid.  When the list call answers a list
    and the method returns, the value is a Success envelope whose list has
    one reference per domain, each the answer of that domain's [get_uuid],
    and every element was a true value: with an element that is None (or any
    false value) in the list the method does not return.  An empty list
    gives the empty list, and an answer None instead of a list raises
    TypeError after the one call. *)
Theorem vm_get_all_one_per_domain {World : Type}
    (collab : collab_call -> World -> reply * World) session s :
  let run := call collab (method_body collab) (Def "vm_get_all" None)
               [session] s in
  let list_call := Collab "XendDomain" "list" [] in
  (forall ds w r s',
     collab list_call (world s) = (Returns (PList ds), w) ->
     run = (Ok r, s') ->
     exists refs,
       r = xen_api_success (PList refs)
       /\ Forall2 (fun d ref =>
                     truthy d = true
                     /\ exists w1 w2,
                          collab (get_uuid_call d) w1 = (Returns ref, w2))
            ds refs
       /\ trace s' = trace s ++ list_call :: map get_uuid_call ds)
  /\ (forall ds w d,
        collab list_call (world s) = (Returns (PList ds), w) ->
        d ∈ ds -> truthy d = false ->
        exists e, fst run = Exc e)
  /\ (forall w, collab list_call (world s) = (Returns (PList []), w) ->
        run = (Ok (xen_api_success (PList [])),
               {| world := w; trace := trace s ++ [list_call] |}))
  /\ (forall w, collab list_call (world s) = (Returns PNone, w) ->
        run = (Exc TypeError,
               {| world := w; trace := trace s ++ [list_call] |})).
Proof.
  intros run list_call. subst run.
  rewrite (call_def collab "vm_get_all" None (vm_get_all collab) [session] s
             eq_refl).
  assert (Hmain : forall ds w r s',
            collab list_call (world s) = (Returns (PList ds), w) ->
            vm_get_all collab [session] s = (Ok r, s') ->
            exists refs,
              r = xen_api_success (PList refs)
              /\ Forall2 (fun d ref =>
                            truthy d = true
                            /\ exists w1 w2,
                                 collab (get_uuid_call d) w1 = (Returns ref, w2))
                   ds refs
              /\ trace s' = trace s ++ list_call :: map get_uuid_call ds).
  { intros ds w r s' Hc. unfold vm_get_all, def1.
    rewrite bind_eq. unfold ask at 1. cbv beta zeta. fold list_call.
    rewrite Hc. rewrite bind_eq. unfold iterate at 1, ret at 1.
    rewrite bind_eq.
    destruct (for_each (fun d => obj_call collab d "get_uuid" []) ds
                {| world := w; trace := trace s ++ [list_call] |})
      as [[refs | e] s2] eqn:Hrest; [|intros Hr; discriminate Hr].
    intros Hr. inversion Hr; subst.
    apply for_each_get_uuid in Hrest as [HF Ht].
    exists refs. split; [reflexivity|]. split; [exact HF|].
    rewrite Ht. simpl. rewrite <- app_assoc. reflexivity. }
  split; [exact Hmain|]. split; [|split].
  - intros ds w d Hc Hd Hfalse.
    destruct (vm_get_all collab [session] s) as [[r | e] s'] eqn:Hrun;
      [|exists e; reflexivity].
    exfalso. destruct (Hmain ds w r s' Hc eq_refl) as (refs & _ & HF & _).
    clear -HF Hd Hfalse. induction HF as [|d' ref ds refs [Ht _] HF IH].
    + inversion Hd.
    + apply elem_of_cons in Hd as [-> | Hd]; [congruence | apply (IH Hd)].
  - intros w Hc. unfold vm_get_all, def1.
    rewrite bind_eq. unfold ask at 1. cbv beta zeta. fold list_call.
    rewrite Hc. reflexivity.
  - intros w Hc. unfold vm_get_all, def1.
    rewrite bind_eq. unfold ask at 1. cbv beta zeta. fold list_call.
    rewrite Hc. reflexivity.
Qed.

Lemma vm_get_all_one_per_domain_witness :
  exists refs,
    xen_api_success (PList [PStr "get_uuid"; PStr "get_uuid"])
    = xen_api_success (PList refs)
    /\ Forall2 (fun d ref =>
                  truthy d = true
                  /\ exists w1 w2,
                       stub two_domains (get_uuid_call d) w1 = (Returns ref, w2))
         [PStr "d1"; PStr "d2"] refs
    /\ [Collab "XendDomain" "list" []; get_uuid_call (PStr "d1");
        get_uuid_call (PStr "d2")]
       = trace start
         ++ Collab "XendDomain" "list" []
            :: map get_uuid_call [PStr "d1"; PStr "d2"].
Proof.
  destruct (vm_get_all_one_per_domain (stub two_domains) (PStr "tok") start)
    as [H _].
  apply (H [PStr "d1"; PStr "d2"] tt
           (xen_api_success (PList [PStr "get_uuid"; PStr "get_uuid"]))
           {| world := tt;
              trace := [Collab "XendDomain" "list" [];
                        get_uuid_call (PStr "d1");
                        get_uuid_call (PStr "d2")] |}).
  - reflexivity.
  - reflexivity.
Defined.

(** ** Records and getters *)

Section Records.

Context {World : Type}.
Variable collab : collab_call -> World -> reply * World.
Hypothesis collab_reads : forall c w, snd (collab c w) = w.

Lemma ask_reads target method args w tr :
  ask collab target method args {| world := w; trace := tr |}
  = match fst (collab (Collab target method args) w) with
    | Returns v =>
        (Ok v, {| world := w; trace := tr ++ [Collab target method args] |})
    | Raises e =>
        (Exc e, {| world := w; trace := tr ++ [Collab target method args] |})
    end.
Proof.
  unfold ask. simpl world. simpl trace.
  pose proof (collab_reads (Collab target method args) w) as Hw.
  destruct (collab (Collab target method args) w) as [r w'].
  simpl in Hw. subst w'. reflexivity.
Qed.

Lemma obj_call_reads obj name args w tr :
  truthy obj = true ->
  obj_call collab obj name args {| world := w; trace := tr |}
  = match fst (collab (Collab "XendDomainInfo" name (obj :: args)) w) with
    | Returns v =>
        (Ok v, {| world := w;
                  trace := tr ++ [Collab "XendDomainInfo" name (obj :: args)] |})
    | Raises e =>
        (Exc e, {| world := w;
                   trace := tr ++ [Collab "XendDomainInfo" name (obj :: args)] |})
    end.
Proof. intros Ht. unfold obj_call. rewrite Ht. apply ask_reads. Qed.

Lemma answers_in_ret {A} w (Q : A -> Prop) (a : A) :
  Q a -> answers_in w Q (ret a : @M World A).
Proof. intros H tr r s' Hr. inversion Hr; subst. exact H. Qed.

Lemma answers_in_raise {A} w (Q : A -> Prop) (e : exn) :
  answers_in w Q (raise e : @M World A).
Proof. intros tr r s' Hr. discriminate Hr. Qed.

Lemma answers_in_ext {A} w (Q : A -> Prop) (m m' : @M World A) :
  (forall s, m s = m' s) -> answers_in w Q m' -> answers_in w Q m.
Proof. intros Heq Hm tr r s'. rewrite Heq. apply Hm. Qed.

Lemma answers_in_if {A} w (Q : A -> Prop) (b : bool) (m1 m2 : @M World A) :
  answers_in w Q m1 -> answers_in w Q m2 -> answers_in w Q (if b then m1 else m2).
Proof. destruct b; tauto. Qed.

Lemma answers_in_ask {A} w (Q : A -> Prop) target method args
    (k : pyval -> @M World A) :
  (forall v, fst (collab (Collab target method args) w) = Returns v ->
             answers_in w Q (k v)) ->
  answers_in w Q (bind (ask collab target method args) k).
Proof.
  intros Hk tr r s'. rewrite bind_eq, ask_reads.
  destruct (fst (collab (Collab target method args) w)) as [v | e];
    [apply (Hk v eq_refl) | intros Hr; discriminate Hr].
Qed.

Lemma answers_in_obj_call {A} w (Q : A -> Prop) obj name args
    (k : pyval -> @M World A) :
  (truthy obj = true ->
   forall v,
     fst (collab (Collab "XendDomainInfo" name (obj :: args)) w) = Returns v ->
     answers_in w Q (k v)) ->
  answers_in w Q (bind (obj_call collab obj name args) k).
Proof.
  intros Hk. unfold obj_call. destruct (truthy obj) eqn:Ht.
  - apply answers_in_ask. apply (Hk eq_refl).
  - intros tr r s' Hr. discriminate Hr.
Qed.

End Records.

Ltac reads_known :=
  repeat match goal with
         | E : fst _ = _ |- _ => rewrite E
         | E : truthy _ = _ |- _ => rewrite E
         end.

Ltac reads_step collab Hreads :=
  cbv beta iota delta [negb]; reads_known; cbv beta iota delta [negb];
  first
    [ rewrite bind_eq
    | rewrite (ask_reads collab Hreads)
    | rewrite (obj_call_reads collab Hreads) by assumption
    | match goal with
      | |- context [fst (collab ?c ?w)] =>
          destruct (fst (collab c w)) eqn:?
      end
    | match goal with
      | |- context [truthy ?v] =>
          destruct (truthy v) eqn:?
      end ].

Ltac run_def collab :=
  match goal with
  | |- context [call collab (method_body collab) (Def ?n ?a) ?args ?s] =>
      let t := eval hnf in (method_named (XendAPI_methods collab) n) in
      match t with
      | Some ?h => rewrite (call_def collab n a h args s eq_refl)
      end
  end.

Ltac same_replies :=
  repeat match goal with
         | H1 : ?x = Returns ?a, H2 : ?x = Returns ?b |- _ =>
             assert (b = a) by congruence; subst b; clear H2
         end.

Ltac reads_record collab Hreads :=
  repeat (reads_step collab Hreads;
          try (cbv beta iota; intros Habs; discriminate Habs)).

(** X15: records and getters agree.  With collaborators whose state no call
    changes, when a record method returns its record, each field listed in
    [record_getters] holds the value the getter of that field returns for the
    same arguments: the getter then succeeds with exactly that value. *)
Theorem records_agree_with_getters {World : Type}
    (collab : collab_call -> World -> reply * World)
    record fld getter args s items s'
    (Hreads : forall c w, snd (collab c w) = w)
    (Hin : (record, fld, getter) ∈ record_getters)
    (Hrec : call collab (method_body collab) (Def record None) args s
            = (Ok (xen_api_success (PDict items)), s')) :
  exists v s'',
    dict_get items fld = Some v
    /\ call collab (method_body collab) (Def getter None) args s
       = (Ok (xen_api_success v), s'').
Proof.
  destruct s as [w tr].
  assert (Hall : answers_in w
            (fun r => forall items', r = xen_api_success (PDict items') ->
               exists v s'',
                 dict_get items' fld = Some v
                 /\ call collab (method_body collab) (Def getter None) args
                      {| world := w; trace := tr |}
                    = (Ok (xen_api_success v), s''))
            (call collab (method_body collab) (Def record None) args)).
  2: { apply (Hall tr _ s' Hrec items eq_refl). }
  clear Hrec. unfold record_getters in Hin.
  repeat (apply elem_of_cons in Hin as [Hin | Hin];
          [inversion Hin; subst; clear Hin;
           match goal with
           | |- answers_in _ _ (call _ _ (Def ?n ?a) _) =>
               let t := eval hnf in (method_named (XendAPI_methods collab) n) in
               match t with
               | Some ?h =>
                   apply (answers_in_ext w _ _ (h args)
                            (fun st => call_def collab n a h args st eq_refl))
               end
           end;
           run_def collab;
           unfold session_get_record, session_get_this_host, host_get_record,
             host_get_name_label, host_get_software_version,
             host_get_resident_vms, host_get_host_cpus, host_cpu_get_record,
             host_cpu_get_host, host_cpu_get_number, host_cpu_get_features,
             host_cpu_get_utilisation, vm_get_record, vm_dom_getter,
             vm_get_resident_on, attr, def1, def2;
           destruct args as [|a1 [|a2 [|a3 rest]]];
           try apply answers_in_raise;
           repeat first
             [ apply (answers_in_ask collab Hreads); intros ? ?
             | apply (answers_in_obj_call collab Hreads); intros ? ? ?
             | apply answers_in_if ];
           apply answers_in_ret; intros items' Heq;
           first
             [ discriminate Heq
             | inversion Heq; subst; clear Heq;
               same_replies;
               do 2 eexists; (split; [reflexivity|]);
               reads_record collab Hreads;
               cbv beta iota delta [negb]; reads_known; cbv beta iota;
               reflexivity ] |]).
  inversion Hin.
Qed.

Lemma records_agree_with_getters_witness :
  exists v s'',
    dict_get [("uuid", PStr "cpu0");
              ("host", PStr "uuid");
              ("number", PStr "get_host_cpu_number");
              ("features", PStr "get_host_cpu_features");
              ("utilisation", PStr "get_host_cpu_load")] "number" = Some v
    /\ call (stub two_domains) (method_body (stub two_domains))
         (Def "host_cpu_get_number" None) [PStr "tok"; PStr "cpu0"] start
       = (Ok (xen_api_success v), s'').
Proof.
  apply (records_agree_with_getters (stub two_domains)
           "host_cpu_get_record" "number" "host_cpu_get_number"
           [PStr "tok"; PStr "cpu0"] start _
           {| world := tt;
              trace := [Collab "XendNode" "uuid" [];
                        Collab "XendNode" "get_host_cpu_number" [PStr "cpu0"];
                        Collab "XendNode" "get_host_cpu_features" [PStr "cpu0"];
                        Collab "XendNode" "get_host_cpu_load" [PStr "cpu0"]] |}).
  - intros c w. reflexivity.
  - unfold record_getters. do 6 apply list_elem_of_further.
    apply list_elem_of_here.
  - reflexivity.
Defined.
